(** * LuxuryStay HMS backend: reservation availability and lifecycle

    A shallow embedding of [ReservationController]
    (controllers/reservation.controller.ts), of the Mongoose schema it
    persists through (models/Reservation.model.ts) and of the
    [ReservationStatus] enum (types/models), followed by the properties of
    the availability check and of the status lifecycle.

    The reservation collection is a list of documents in insertion order;
    a document, a request body and an update object are JavaScript objects,
    modelled as finite maps from field names to values.  Every handler
    takes the collection and the clock reading [now] (the value of
    [new Date()]) and returns the response it sends together with the
    collection it leaves behind.

    The handlers are modelled from the point where the router calls them:
    the [validate] middleware of the routes runs before and can only turn
    a request away.  [populate] and [lean] change the shape of the document
    returned in a response, not what is stored: the handlers that write
    answer with the document as it is stored; the lookup by id, whose
    answer is nothing else, records what it populates. *)

From stdpp Require Import gmap strings list fin_maps.
From Stdlib Require Import ZArith Lia Ascii String.
Local Open Scope Z_scope.

(** ** JavaScript values and objects *)

(** Dates are instants in milliseconds since the epoch.  In a request a
    [VDate t] stands for a [Date] or for the date text that denotes [t]: it
    is a valid date, whose time value is within [maxTime] of the epoch.  A
    [VNumber] is taken at the integer values that a double holds exactly,
    those up to [maxExact] in absolute value. *)
Inductive Value :=
| VString (s : string)
| VNumber (n : Z)
| VBool (b : bool)
| VDate (t : Z)
| VObjectId (o : string).

#[global] Instance Value_eq_dec : EqDecision Value.
Proof. solve_decision. Defined.

Abbreviation Obj := (gmap string Value).

(** A missing field reads as [undefined], here [None]. *)
Definition truthy (v : option Value) : bool :=
  match v with
  | None => false
  | Some (VString s) => negb (String.eqb s "")
  | Some (VNumber n) => negb (n =? 0)
  | Some (VBool b) => b
  | Some (VDate _) => true
  | Some (VObjectId _) => true
  end.

(** [a || b] *)
Definition js_or (a b : option Value) : option Value :=
  if truthy a then a else b.

(** The integers up to [maxExact] in absolute value are doubles; a sum or
    a difference of two of them that stays within that range is exact. *)
Definition maxExact : Z := 2 ^ 53.

(** The time values of a [Date] lie within 100,000,000 days of the epoch;
    [None] is the Invalid Date. *)
Definition maxTime : Z := 8640000000000000.

Definition timeClip (t : Z) : option Z :=
  if Z.abs t <=? maxTime then Some t else None.

(** [new Date(v)] *)
Definition toDate (v : option Value) : option Z :=
  match v with
  | Some (VDate t) => Some t
  | Some (VNumber n) => timeClip n
  | Some (VBool b) => Some (Z.b2z b)
  | _ => None
  end.

(** [xs.includes(v)] for a list of string literals. *)
Definition includes (xs : list string) (v : option Value) : bool :=
  match v with
  | Some (VString s) => existsb (String.eqb s) xs
  | _ => false
  end.

(** Sets [k] when the value is defined, as an object literal whose
    [undefined] entries are never written. *)
Definition setField (k : string) (v : option Value) (o : Obj) : Obj :=
  match v with
  | Some x => <[k := x]> o
  | None => o
  end.

(** ** ObjectIds *)

Module ObjectId.

Definition isHexDigit (c : ascii) : bool :=
  let n := N_of_ascii c in
  ((48 <=? n) && (n <=? 57) || (65 <=? n) && (n <=? 70)
   || (97 <=? n) && (n <=? 102))%N.

Definition lowerHex (c : ascii) : ascii :=
  let n := N_of_ascii c in
  if ((65 <=? n) && (n <=? 70))%N then ascii_of_N (n + 32) else c.

Fixpoint allHex (s : string) : bool :=
  match s with
  | EmptyString => true
  | String c rest => isHexDigit c && allHex rest
  end.

Fixpoint toHexString (s : string) : string :=
  match s with
  | EmptyString => EmptyString
  | String c rest => String (lowerHex c) (toHexString rest)
  end.

(** [Types.ObjectId.isValid(s)] on a string: 24 hexadecimal digits. *)
Definition isValid (s : string) : bool :=
  (String.length s =? 24)%nat && allHex s.

(** [new Types.ObjectId(s)]: the id in its canonical lower-case form. *)
Definition ofString (s : string) : Value := VObjectId (toHexString s).

End ObjectId.

(** ** types/models: ReservationStatus and ReservationSource *)

Module ReservationStatus.
Definition PENDING : string := "pending".
Definition CONFIRMED : string := "confirmed".
Definition CHECKED_IN : string := "checked_in".
Definition CHECKED_OUT : string := "checked_out".
Definition CANCELLED : string := "cancelled".
Definition NO_SHOW : string := "no_show".
(** [Object.values(ReservationStatus)] *)
Definition values : list string :=
  [PENDING; CONFIRMED; CHECKED_IN; CHECKED_OUT; CANCELLED; NO_SHOW].
End ReservationStatus.

Module ReservationSource.
Definition values : list string :=
  ["online"; "phone"; "walk_in"; "travel_agent"].
End ReservationSource.

(** ** Mongoose: schema types, casting and errors *)

Inductive SchemaType := TObjectId | TDate | TNumber | TString.

#[global] Instance SchemaType_eq_dec : EqDecision SchemaType.
Proof. solve_decision. Defined.

Inductive MongooseError :=
| CastError (path : string)
| ValidationError (errors : list (string * string))
| DuplicateKeyError
| ImmutableFieldError.

(** [String.prototype.trim] over the ASCII white space. *)
Definition isSpace (c : ascii) : bool :=
  let n := N_of_ascii c in ((n =? 32) || (9 <=? n) && (n <=? 13))%N.

Fixpoint trimStart (s : string) : string :=
  match s with
  | String c rest => if isSpace c then trimStart rest else s
  | EmptyString => EmptyString
  end.

Fixpoint trimEnd (s : string) : string :=
  match s with
  | EmptyString => EmptyString
  | String c rest =>
      match trimEnd rest with
      | EmptyString => if isSpace c then EmptyString else String c EmptyString
      | rest' => String c rest'
      end
  end.

Definition trim (s : string) : string := trimEnd (trimStart s).

(** Casting a value to the type of its path, for a value given at the
    JSON type of the path.  An id is accepted as an ObjectId or as its
    24-digit text, a date as a date or as a number of milliseconds that a
    [Date] can hold; the conversions that Mongoose makes between the other
    kinds (a numeric text on a number path, a number on a string path) are
    not modelled, and such a value fails to cast here. *)
Definition castValue (t : SchemaType) (v : Value) : option Value :=
  match t, v with
  | TObjectId, VObjectId o => Some (VObjectId o)
  | TObjectId, VString s =>
      if ObjectId.isValid s then Some (ObjectId.ofString s) else None
  | TDate, VDate d => Some (VDate d)
  | TDate, VNumber n => VDate <$> timeClip n
  | TNumber, VNumber n => Some (VNumber n)
  | TString, VString s => Some (VString s)
  | _, _ => None
  end.

(** Strict mode, the default: only the paths of the schema are kept, each
    cast to its type; the paths that fail to cast are reported. *)
Fixpoint castPaths (schema : list (string * SchemaType)) (o : Obj)
  : Obj * list string :=
  match schema with
  | [] => (∅, [])
  | (p, t) :: rest =>
      let '(acc, errs) := castPaths rest o in
      match o !! p with
      | None => (acc, errs)
      | Some v =>
          match castValue t v with
          | Some v' => (<[p := v']> acc, errs)
          | None => (acc, p :: errs)
          end
      end
  end.

(** ** models/Reservation.model.ts *)

Module ReservationModel.

(** The paths of [reservationSchema]: the declared fields, the implicit
    [_id] and the two fields of [timestamps: true]. *)
Definition paths : list (string * SchemaType) :=
  [("_id", TObjectId); ("guestId", TObjectId); ("roomId", TObjectId);
   ("checkInDate", TDate); ("checkOutDate", TDate);
   ("numberOfGuests", TNumber); ("status", TString);
   ("totalAmount", TNumber); ("depositAmount", TNumber);
   ("specialRequests", TString); ("source", TString);
   ("assignedRoomId", TObjectId);
   ("createdAt", TDate); ("updatedAt", TDate)].

(** The paths declared [required: true]. *)
Definition required : list string :=
  ["guestId"; "roomId"; "checkInDate"; "checkOutDate"; "numberOfGuests";
   "status"; "totalAmount"; "source"].

Definition isRequired (p : string) : bool := existsb (String.eqb p) required.

(** [trim: true] on [specialRequests]. *)
Definition applySetters (o : Obj) : Obj :=
  match o !! "specialRequests" with
  | Some (VString s) => <["specialRequests" := VString (trim s)]> o
  | _ => o
  end.

(** The [validate.validator] functions of the schema; [this] is the
    object their [this] is bound to. *)
Definition checkInDate_validator (now : Z) (value : Value) : bool :=
  match value with
  | VDate t => now <? t
  | _ => false
  end.

Definition checkOutDate_validator (this : Obj) (value : Value) : bool :=
  match value, this !! "checkInDate" with
  | VDate t, Some (VDate checkIn) => checkIn <? t
  | _, _ => false
  end.

Definition depositAmount_validator (this : Obj) (value : Value) : bool :=
  negb (truthy (Some value))
  || match value, this !! "totalAmount" with
     | VNumber v, Some (VNumber total) => v <=? total
     | _, _ => false
     end.

Definition check (ok : bool) (message : string) : list string :=
  if ok then [] else [message].

Definition minNumber (m : Z) (v : Value) : bool :=
  match v with VNumber n => m <=? n | _ => false end.

Definition maxNumber (m : Z) (v : Value) : bool :=
  match v with VNumber n => n <=? m | _ => false end.

Definition maxLength (m : nat) (v : Value) : bool :=
  match v with VString s => (String.length s <=? m)%nat | _ => false end.

(** All validators of one path, in the order they run (the required
    check first, then those of the schema in the order it declares them),
    on a defined value.  A required string must also be non-empty. *)
Definition validatePath (this : Obj) (now : Z) (p : string) (v : Value)
  : list string :=
  check (negb (isRequired p && bool_decide (v = VString "")))
        "Path is required."
  ++
  if String.eqb p "checkInDate" then
    check (checkInDate_validator now v) "Check-in date must be in the future"
  else if String.eqb p "checkOutDate" then
    check (checkOutDate_validator this v)
          "Check-out date must be after check-in date"
  else if String.eqb p "numberOfGuests" then
    check (minNumber 1 v) "Number of guests must be at least 1"
    ++ check (maxNumber 10 v) "Number of guests cannot exceed 10"
  else if String.eqb p "status" then
    check (includes ReservationStatus.values (Some v))
          "Not a valid enum value for path `status`."
  else if String.eqb p "totalAmount" then
    check (minNumber 0 v) "Total amount cannot be negative"
  else if String.eqb p "depositAmount" then
    check (minNumber 0 v) "Deposit amount cannot be negative"
    ++ check (depositAmount_validator this v)
             "Deposit amount cannot exceed total amount"
  else if String.eqb p "specialRequests" then
    check (maxLength 1000 v) "Special requests cannot exceed 1000 characters"
  else if String.eqb p "source" then
    check (includes ReservationSource.values (Some v))
          "Not a valid enum value for path `source`."
  else [].

(** The error a path is reported with: that of the first validator that
    fails. *)
Definition firstError (p : string) (messages : list string)
  : list (string * string) :=
  match messages with
  | [] => []
  | m :: _ => [(p, m)]
  end.

(** Validation of a whole document before it is saved: the validator
    functions see the document itself. *)
Definition validateDocument (now : Z) (doc : Obj) (castErrors : list string)
  : list (string * string) :=
  flat_map
    (fun '(p, _) =>
       if existsb (String.eqb p) castErrors then [(p, "Cast failed.")]
       else
         match doc !! p with
         | None => if isRequired p then [(p, "Path is required.")] else []
         | Some v => firstError p (validatePath doc now p v)
         end)
    paths.

(** Update validators ([runValidators: true]) run on the paths the update
    sets; there the validator functions are bound to the query, which has
    none of the document's fields. *)
Definition validateUpdate (now : Z) (set : Obj) : list (string * string) :=
  flat_map
    (fun '(p, _) =>
       match set !! p with
       | None => []
       | Some v => firstError p (validatePath ∅ now p v)
       end)
    paths.

(** [new ReservationModel(data)]: the data cast under strict mode, a
    generated [_id] unless the data names one, and the default status. *)
Definition new (fresh : string) (data : Obj) : Obj * list string :=
  let '(doc, castErrors) := castPaths paths data in
  let doc := applySetters doc in
  let doc :=
    match data !! "_id" with
    | None => <["_id" := VObjectId fresh]> doc
    | Some _ => doc
    end in
  let doc :=
    match data !! "status" with
    | None => <["status" := VString ReservationStatus.PENDING]> doc
    | Some _ => doc
    end in
  (doc, castErrors).

Definition hasId (id : option Value) (d : Obj) : bool :=
  bool_decide (d !! "_id" = id).

(** [document.save()] of a new document: validation, the timestamps,
    then the insert, which the unique index on [_id] can refuse.  The
    timestamps of a new document: [createdAt] is the clock unless the
    document has one, and [updatedAt] is set to the value of [createdAt]. *)
Definition save (now : Z) (reservation : Obj * list string) (db : list Obj)
  : MongooseError + (Obj * list Obj) :=
  let '(doc, castErrors) := reservation in
  match validateDocument now doc castErrors with
  | (_ :: _) as errors => inl (ValidationError errors)
  | [] =>
      let ts :=
        match doc !! "createdAt" with
        | None => VDate now
        | Some createdAt => createdAt
        end in
      let doc := <["updatedAt" := ts]> (<["createdAt" := ts]> doc) in
      if existsb (hasId (doc !! "_id")) db then inl DuplicateKeyError
      else inr (doc, db ++ [doc])
  end.

(** [findOne(filter)]: the first document the filter matches. *)
Definition findOne (filter : Obj -> bool) (db : list Obj) : option Obj :=
  find filter db.

Definition findById (id : Value) (db : list Obj) : option Obj :=
  findOne (hasId (Some id)) db.

(** The update applied to the first document with the given id; the
    result is the document after the update ([new: true]). *)
Fixpoint updateOne (id : Value) (set : Obj) (db : list Obj)
  : option Obj * list Obj :=
  match db with
  | [] => (None, [])
  | d :: rest =>
      if hasId (Some id) d then (Some (set ∪ d), (set ∪ d) :: rest)
      else
        let '(r, rest') := updateOne id set rest in
        (r, d :: rest')
  end.

(** The update of [findByIdAndUpdate(id, update, { new: true,
    runValidators: true })] as it reaches the store.  The timestamps come
    first: [createdAt] is taken out of the update and [updatedAt] is set to
    the clock, whatever the update gives for it.  The update is then cast
    under strict mode, so a field the schema does not declare is dropped;
    the update validators run; the store refuses to change [_id]. *)
Definition castUpdate (now : Z) (id : Value) (update : Obj)
  : MongooseError + Obj :=
  let update := <["updatedAt" := VDate now]> (delete "createdAt" update) in
  let '(set, castErrors) := castPaths paths update in
  match castErrors with
  | p :: _ => inl (CastError p)
  | [] =>
      let set := applySetters set in
      match validateUpdate now set with
      | (_ :: _) as errors => inl (ValidationError errors)
      | [] =>
          match set !! "_id" with
          | Some id' =>
              if bool_decide (id' = id) then inr set
              else inl ImmutableFieldError
          | None => inr set
          end
      end
  end.

Definition findByIdAndUpdate (now : Z) (id : Value) (update : Obj)
    (db : list Obj) : MongooseError + (option Obj * list Obj) :=
  match castUpdate now id update with
  | inl e => inl e
  | inr set => inr (updateOne id set db)
  end.

(** [Math.ceil(a / b)] for a positive [b], as the code computes it when
    [a] is at most [maxExact] in absolute value and [b] is one of the
    divisors of the virtuals: there the quotient of doubles rounds to no
    integer that the exact quotient is not. *)
Definition ceilDiv (a b : Z) : Z := - ((- a) / b).

(** The virtual [duration]: the length of the stay in days, rounded up.
    Both paths are dates by the schema. *)
Definition duration (this : Obj) : Z :=
  match this !! "checkInDate", this !! "checkOutDate" with
  | Some (VDate checkInDate), Some (VDate checkOutDate) =>
      let diffTime := Z.abs (checkOutDate - checkInDate) in
      ceilDiv diffTime (1000 * 60 * 60 * 24)
  | _, _ => 0
  end.

(** The virtual [remainingBalance]; [None] is [NaN], the value when
    [totalAmount] is missing.  The difference is that of the code for
    amounts up to [maxExact], where the subtraction of doubles is exact. *)
Definition remainingBalance (this : Obj) : option Z :=
  match this !! "totalAmount",
        js_or (this !! "depositAmount") (Some (VNumber 0)) with
  | Some (VNumber totalAmount), Some (VNumber depositAmount) =>
      Some (totalAmount - depositAmount)
  | _, _ => None
  end.

End ReservationModel.

(** ** utils/response: what a handler sends

    [Populated paths d] is the stored document [d] read with [lean()], each
    of [paths] (a path and the fields selected) populated from the
    collection it refers to. *)

Inductive Payload :=
| Document (d : option Obj)
| Populated (paths : list (string * string)) (d : Obj)
| Availability (available : bool)
    (roomId checkInDate checkOutDate conflictingReservation : option Value).

(** The message of an error response: a literal of the controller, or
    [error.message] of an error caught by its [try]/[catch]. *)
Inductive Failure :=
| Message (m : string)
| Caught (e : MongooseError).

(** [ResponseUtil.success(res, data, message, statusCode?)] and
    [ResponseUtil.error(res, message, statusCode)]. *)
Inductive Response :=
| success (data : Payload) (message : string) (statusCode : option Z)
| error (message : Failure) (statusCode : Z).

#[global] Instance MongooseError_eq_dec : EqDecision MongooseError.
Proof. solve_decision. Defined.

#[global] Instance Failure_eq_dec : EqDecision Failure.
Proof. solve_decision. Defined.

#[global] Instance Payload_eq_dec : EqDecision Payload.
Proof. solve_decision. Defined.

#[global] Instance Response_eq_dec : EqDecision Response.
Proof. solve_decision. Defined.

(** ** controllers/reservation.controller.ts *)

Module ReservationController.

Import ReservationModel.

(** The filter of the three availability queries,
<<
    { _id: { $ne: id },            // updateReservation only
      roomId,
      status: { $in: ['confirmed', 'checked-in'] },
      $or: [{ checkInDate: { $lte: checkOutDate },
              checkOutDate: { $gte: checkInDate } }] }
>>
    as the test it makes on a document.  An [undefined] room matches the
    documents that have none. *)
Definition conflictFilter (exclude : option Value) (roomId : option Value)
    (checkOutDate checkInDate : Z) (d : Obj) : bool :=
  match exclude with
  | Some id => negb (hasId (Some id) d)
  | None => true
  end
  && bool_decide (d !! "roomId" = roomId)
  && includes ["confirmed"; "checked-in"] (d !! "status")
  && match d !! "checkInDate" with
     | Some (VDate t) => t <=? checkOutDate
     | _ => false
     end
  && match d !! "checkOutDate" with
     | Some (VDate t) => checkInDate <=? t
     | _ => false
     end.

(** The values of the filter cast for the query: the room to an ObjectId,
    the two [new Date(...)] to dates; an Invalid Date fails to cast.  The
    keys of a filter are cast last to first, so the first error is that of
    [checkOutDate] (which holds the check-in date of the request), then
    that of [checkInDate], then that of [roomId]. *)
Definition castFilter (roomId checkOutDate checkInDate : option Value)
  : MongooseError + (option Value * Z * Z) :=
  match toDate checkInDate, toDate checkOutDate with
  | None, _ => inl (CastError "checkOutDate")
  | _, None => inl (CastError "checkInDate")
  | Some ci, Some co =>
      match roomId with
      | Some r =>
          match castValue TObjectId r with
          | None => inl (CastError "roomId")
          | Some r' => inr (Some r', co, ci)
          end
      | None => inr (None, co, ci)
      end
  end.

Definition notAvailable : Response :=
  error (Message "Room is not available for the selected dates") 409.

Definition invalidId : Response :=
  error (Message "Invalid reservation ID format") 400.

Definition notFound : Response :=
  error (Message "Reservation not found") 404.

(** Create a new reservation.  [fresh] is the ObjectId the driver
    generates for the new document. *)
Definition createReservation (now : Z) (fresh : string) (body : Obj)
    (db : list Obj) : Response * list Obj :=
  let reservationData := body in
  match castFilter (reservationData !! "roomId")
                   (reservationData !! "checkOutDate")
                   (reservationData !! "checkInDate") with
  | inl e => (error (Caught e) 500, db)
  | inr (roomId, checkOutDate, checkInDate) =>
      match findOne (conflictFilter None roomId checkOutDate checkInDate) db with
      | Some _ => (notAvailable, db)
      | None =>
          let reservation := new fresh reservationData in
          match save now reservation db with
          | inl e => (error (Caught e) 500, db)
          | inr (savedReservation, db') =>
              (success (Document (Some savedReservation))
                       "Reservation created successfully" (Some 201), db')
          end
      end
  end.

(** Room availability check; the request carries its arguments in the
    query string. *)
Definition checkAvailability (query : Obj) (db : list Obj) : Response :=
  let roomId := query !! "roomId" in
  let checkInDate := query !! "checkInDate" in
  let checkOutDate := query !! "checkOutDate" in
  if negb (truthy roomId) || negb (truthy checkInDate)
     || negb (truthy checkOutDate)
  then error (Message "Room ID, check-in date, and check-out date are required") 400
  else
    match roomId with
    | Some (VString roomIdStr) =>
        if negb (ObjectId.isValid roomIdStr)
        then error (Message "Invalid room ID format") 400
        else
          match castFilter (Some (ObjectId.ofString roomIdStr))
                           checkOutDate checkInDate with
          | inl e => error (Caught e) 500
          | inr (room, co, ci) =>
              let conflictingReservation :=
                findOne (conflictFilter None room co ci) db in
              let isAvailable :=
                match conflictingReservation with
                | Some _ => false
                | None => true
                end in
              success
                (Availability isAvailable roomId checkInDate checkOutDate
                   (match conflictingReservation with
                    | Some c => c !! "_id"
                    | None => None
                    end))
                "Availability checked successfully" None
          end
    | _ => error (Message "Invalid room ID format") 400
    end.

(** The availability guard of [updateReservation]: the response it sends
    when it stops the update, [None] when the update goes on. *)
Definition updateGuard (id : Value) (updateData : Obj) (db : list Obj)
  : option Response :=
  if truthy (updateData !! "roomId") || truthy (updateData !! "checkInDate")
     || truthy (updateData !! "checkOutDate")
  then
    match findById id db with
    | None => Some notFound
    | Some currentReservation =>
        let roomId :=
          js_or (updateData !! "roomId") (currentReservation !! "roomId") in
        let checkInDate :=
          js_or (updateData !! "checkInDate")
                (currentReservation !! "checkInDate") in
        let checkOutDate :=
          js_or (updateData !! "checkOutDate")
                (currentReservation !! "checkOutDate") in
        match castFilter roomId checkOutDate checkInDate with
        | inl e => Some (error (Caught e) 500)
        | inr (room, co, ci) =>
            match findOne (conflictFilter (Some id) room co ci) db with
            | Some _ => Some notAvailable
            | None => None
            end
        end
    end
  else None.

(** Update reservation *)
Definition updateReservation (now : Z) (id : string) (body : Obj)
    (db : list Obj) : Response * list Obj :=
  let updateData := body in
  if negb (ObjectId.isValid id) then (invalidId, db)
  else
    match updateGuard (ObjectId.ofString id) updateData db with
    | Some response => (response, db)
    | None =>
        match findByIdAndUpdate now (ObjectId.ofString id)
                (<["updatedAt" := VDate now]> updateData) db with
        | inl e => (error (Caught e) 500, db)
        | inr (None, db') => (notFound, db')
        | inr (Some updatedReservation, db') =>
            (success (Document (Some updatedReservation))
                     "Reservation updated successfully" None, db')
        end
    end.

(** Confirm reservation *)
Definition confirmReservation (now : Z) (id : string) (db : list Obj)
  : Response * list Obj :=
  if negb (ObjectId.isValid id) then (invalidId, db)
  else
    match findById (ObjectId.ofString id) db with
    | None => (notFound, db)
    | Some reservation =>
        if negb (bool_decide (reservation !! "status"
                              = Some (VString ReservationStatus.PENDING)))
        then (error (Message "Only pending reservations can be confirmed") 400, db)
        else
          match findByIdAndUpdate now (ObjectId.ofString id)
                  (<["status" := VString "confirmed"]>
                     (<["confirmedAt" := VDate now]>
                        (<["updatedAt" := VDate now]> ∅))) db with
          | inl e => (error (Caught e) 500, db)
          | inr (updatedReservation, db') =>
              (success (Document updatedReservation)
                       "Reservation confirmed successfully" None, db')
          end
    end.

(** Cancel reservation *)
Definition cancelReservation (now : Z) (id : string) (body : Obj)
    (db : list Obj) : Response * list Obj :=
  let reason := body !! "reason" in
  if negb (ObjectId.isValid id) then (invalidId, db)
  else
    match findById (ObjectId.ofString id) db with
    | None => (notFound, db)
    | Some reservation =>
        if includes ["cancelled"; "checked-out"] (reservation !! "status")
        then (error (Message "Reservation is already cancelled or completed") 400, db)
        else
          match findByIdAndUpdate now (ObjectId.ofString id)
                  (<["status" := VString "cancelled"]>
                     (setField "cancellationReason" reason
                        (<["cancelledAt" := VDate now]>
                           (<["updatedAt" := VDate now]> ∅)))) db with
          | inl e => (error (Caught e) 500, db)
          | inr (updatedReservation, db') =>
              (success (Document updatedReservation)
                       "Reservation cancelled successfully" None, db')
          end
    end.

Definition validStatuses : list string :=
  ["pending"; "confirmed"; "checked-in"; "checked-out"; "cancelled"; "no-show"].

Definition statusIs (s : string) (status : option Value) : bool :=
  bool_decide (status = Some (VString s)).

(** Update reservation status *)
Definition updateReservationStatus (now : Z) (id : string) (body : Obj)
    (db : list Obj) : Response * list Obj :=
  let status := body !! "status" in
  if negb (ObjectId.isValid id) then (invalidId, db)
  else if negb (includes validStatuses status)
  then (error (Message "Invalid status value") 400, db)
  else
    let updateData : Obj :=
      setField "status" status (<["updatedAt" := VDate now]> ∅) in
    let updateData :=
      if statusIs "confirmed" status
      then <["confirmedAt" := VDate now]> updateData else updateData in
    let updateData :=
      if statusIs "checked-in" status
      then <["checkedInAt" := VDate now]> updateData else updateData in
    let updateData :=
      if statusIs "checked-out" status
      then <["checkedOutAt" := VDate now]> updateData else updateData in
    let updateData :=
      if statusIs "cancelled" status
      then <["cancelledAt" := VDate now]> updateData else updateData in
    match findByIdAndUpdate now (ObjectId.ofString id) updateData db with
    | inl e => (error (Caught e) 500, db)
    | inr (None, db') => (notFound, db')
    | inr (Some updatedReservation, db') =>
        (success (Document (Some updatedReservation))
                 "Reservation status updated successfully" None, db')
    end.

(** Delete reservation *)
Definition deleteReservation (now : Z) (id : string) (body : Obj)
    (db : list Obj) : Response * list Obj :=
  let deletionReason := body !! "deletionReason" in
  let notes := body !! "notes" in
  if negb (ObjectId.isValid id) then (invalidId, db)
  else
    match findById (ObjectId.ofString id) db with
    | None => (notFound, db)
    | Some reservation =>
        if negb (includes ["cancelled"; "pending"] (reservation !! "status"))
        then (error (Message "Only cancelled or pending reservations can be deleted") 400, db)
        else
          match findByIdAndUpdate now (ObjectId.ofString id)
                  (<["isActive" := VBool false]>
                     (setField "deletionReason" deletionReason
                        (setField "notes" notes
                           (<["deletedAt" := VDate now]>
                              (<["updatedAt" := VDate now]> ∅))))) db with
          | inl e => (error (Caught e) 500, db)
          | inr (updatedReservation, db') =>
              (success (Document updatedReservation)
                       "Reservation deleted successfully" None, db')
          end
    end.

(** The [populate] calls of [getReservationById]. *)
Definition populatedById : list (string * string) :=
  [("guestId", "firstName lastName email phone");
   ("roomId", "roomNumber roomType price amenities");
   ("assignedRoomId", "roomNumber roomType")].

(** Get reservation by ID *)
Definition getReservationById (id : string) (db : list Obj) : Response :=
  if negb (ObjectId.isValid id) then invalidId
  else
    match findById (ObjectId.ofString id) db with
    | None => notFound
    | Some reservation =>
        success (Populated populatedById reservation)
                "Reservation retrieved successfully" None
    end.

End ReservationController.

(** ** A small hotel used in the worked scenarios *)

Module Scenario.

Definition room : string := "aaaaaaaaaaaaaaaaaaaaaaaa".
Definition guest : string := "bbbbbbbbbbbbbbbbbbbbbbbb".
Definition id1 : string := "111111111111111111111111".
Definition id2 : string := "222222222222222222222222".

(** A stored reservation of [room]. *)
Definition reservation (id status : string) (checkIn checkOut : Z) : Obj :=
  list_to_map
    [("_id", VObjectId id); ("guestId", VObjectId guest);
     ("roomId", VObjectId room);
     ("checkInDate", VDate checkIn); ("checkOutDate", VDate checkOut);
     ("numberOfGuests", VNumber 2); ("status", VString status);
     ("totalAmount", VNumber 100); ("source", VString "online");
     ("createdAt", VDate 0); ("updatedAt", VDate 0)].

(** The body of a create request for [room], also used as the query of
    an availability request. *)
Definition request (checkIn checkOut : Z) : Obj :=
  list_to_map
    [("guestId", VString guest); ("roomId", VString room);
     ("checkInDate", VDate checkIn); ("checkOutDate", VDate checkOut);
     ("numberOfGuests", VNumber 2); ("totalAmount", VNumber 100);
     ("source", VString "online")].

(** The document a successful create of [request] stores. *)
Definition created (id status : string) (checkIn checkOut now : Z) : Obj :=
  list_to_map
    [("_id", VObjectId id); ("guestId", VObjectId guest);
     ("roomId", VObjectId room);
     ("checkInDate", VDate checkIn); ("checkOutDate", VDate checkOut);
     ("numberOfGuests", VNumber 2); ("status", VString status);
     ("totalAmount", VNumber 100); ("source", VString "online");
     ("createdAt", VDate now); ("updatedAt", VDate now)].

End Scenario.

(** ** Predicates on the reservation collection *)

Definition isSuccess (r : Response) : bool :=
  match r with
  | success _ _ _ => true
  | error _ _ => false
  end.

(** The documents of the collection before and after a handler, position
    by position: each is untouched, or it is the addressed one and keeps
    its [_id]. *)
Definition touchesOnly (id : Value) (db db' : list Obj) : Prop :=
  Forall2 (fun d d' => d' = d
                       \/ (d !! "_id" = Some id /\ d' !! "_id" = Some id))
          db db'.


(** ** types/models: the enums of a housekeeping task *)

Module TaskStatus.
Definition PENDING : string := "pending".
Definition ASSIGNED : string := "assigned".
Definition IN_PROGRESS : string := "in_progress".
Definition COMPLETED : string := "completed".
Definition CANCELLED : string := "cancelled".
Definition values : list string :=
  [PENDING; ASSIGNED; IN_PROGRESS; COMPLETED; CANCELLED].
End TaskStatus.

Module HousekeepingTaskType.
Definition values : list string :=
  ["daily_cleaning"; "deep_cleaning"; "linen_change"; "amenity_restock";
   "inspection"].
End HousekeepingTaskType.

Module Priority.
Definition MEDIUM : string := "medium".
Definition values : list string := ["low"; MEDIUM; "high"; "urgent"].
End Priority.

(** ** Mongoose models over a schema

    The same machinery as for the reservation model, for a schema whose
    validators look at the value alone. *)

Record Schema := {
  schemaPaths : list (string * SchemaType);
  schemaRequired : list string;
  schemaTrim : list string;
  schemaDefaults : list (string * Value);
  schemaValidate : string -> Value -> list string
}.

Module Model.
Section Model.

Variable S : Schema.

Definition isRequired (p : string) : bool :=
  existsb (String.eqb p) (schemaRequired S).

(** [trim: true] *)
Definition applyTrim (o : Obj) : Obj :=
  foldr (fun p acc =>
           match acc !! p with
           | Some (VString s) => <[p := VString (trim s)]> acc
           | _ => acc
           end)
        o (schemaTrim S).

Definition validateValue (p : string) (v : Value) : list string :=
  ReservationModel.check
    (negb (isRequired p && bool_decide (v = VString ""))) "Path is required."
  ++ schemaValidate S p v.

Definition validateDocument (doc : Obj) (castErrors : list string)
  : list (string * string) :=
  flat_map
    (fun '(p, _) =>
       if existsb (String.eqb p) castErrors then [(p, "Cast failed.")]
       else
         match doc !! p with
         | None => if isRequired p then [(p, "Path is required.")] else []
         | Some v => ReservationModel.firstError p (validateValue p v)
         end)
    (schemaPaths S).

Definition validateUpdate (set : Obj) : list (string * string) :=
  flat_map
    (fun '(p, _) =>
       match set !! p with
       | None => []
       | Some v => ReservationModel.firstError p (validateValue p v)
       end)
    (schemaPaths S).

(** [new Model(data)] *)
Definition new (fresh : string) (data : Obj) : Obj * list string :=
  let '(doc, castErrors) := castPaths (schemaPaths S) data in
  let doc := applyTrim doc in
  let doc :=
    match data !! "_id" with
    | None => <["_id" := VObjectId fresh]> doc
    | Some _ => doc
    end in
  let doc :=
    foldr (fun '(p, v) acc =>
             match data !! p with
             | None => <[p := v]> acc
             | Some _ => acc
             end)
          doc (schemaDefaults S) in
  (doc, castErrors).

(** [document.save()] of a new document *)
Definition save (now : Z) (document : Obj * list string) (db : list Obj)
  : MongooseError + (Obj * list Obj) :=
  let '(doc, castErrors) := document in
  match validateDocument doc castErrors with
  | (_ :: _) as errors => inl (ValidationError errors)
  | [] =>
      let ts :=
        match doc !! "createdAt" with
        | None => VDate now
        | Some createdAt => createdAt
        end in
      let doc := <["updatedAt" := ts]> (<["createdAt" := ts]> doc) in
      if existsb (ReservationModel.hasId (doc !! "_id")) db
      then inl DuplicateKeyError
      else inr (doc, db ++ [doc])
  end.

(** [Model.create(data)] *)
Definition create (now : Z) (fresh : string) (data : Obj) (db : list Obj)
  : MongooseError + (Obj * list Obj) :=
  save now (new fresh data) db.

(** The update of [findByIdAndUpdate(id, update, { new: true,
    runValidators: true })] as it reaches the store. *)
Definition castUpdate (now : Z) (id : Value) (update : Obj)
  : MongooseError + Obj :=
  let update := <["updatedAt" := VDate now]> (delete "createdAt" update) in
  let '(set, castErrors) := castPaths (schemaPaths S) update in
  match castErrors with
  | p :: _ => inl (CastError p)
  | [] =>
      let set := applyTrim set in
      match validateUpdate set with
      | (_ :: _) as errors => inl (ValidationError errors)
      | [] =>
          match set !! "_id" with
          | Some id' =>
              if bool_decide (id' = id) then inr set
              else inl ImmutableFieldError
          | None => inr set
          end
      end
  end.

(** [findById(id)]: the id of the route is cast first. *)
Definition findById (id : string) (db : list Obj)
  : MongooseError + option Obj :=
  match castValue TObjectId (VString id) with
  | None => inl (CastError "_id")
  | Some oid => inr (ReservationModel.findById oid db)
  end.

Definition findByIdAndUpdate (now : Z) (id : string) (update : Obj)
    (db : list Obj) : MongooseError + (option Obj * list Obj) :=
  match castValue TObjectId (VString id) with
  | None => inl (CastError "_id")
  | Some oid =>
      match castUpdate now oid update with
      | inl e => inl e
      | inr set => inr (ReservationModel.updateOne oid set db)
      end
  end.

(** The first document with the given id taken out of the collection. *)
Fixpoint deleteOne (id : Value) (db : list Obj) : option Obj * list Obj :=
  match db with
  | [] => (None, [])
  | d :: rest =>
      if ReservationModel.hasId (Some id) d then (Some d, rest)
      else
        let '(r, rest') := deleteOne id rest in
        (r, d :: rest')
  end.

Definition findByIdAndDelete (id : string) (db : list Obj)
  : MongooseError + (option Obj * list Obj) :=
  match castValue TObjectId (VString id) with
  | None => inl (CastError "_id")
  | Some oid => inr (deleteOne oid db)
  end.

End Model.
End Model.

(** ** models/HousekeepingTask.model.ts *)

Module HousekeepingTaskModel.

Definition housekeepingTaskSchema : Schema :=
  {| schemaPaths :=
       [("_id", TObjectId); ("roomId", TObjectId);
        ("assignedStaffId", TObjectId); ("taskType", TString);
        ("status", TString); ("scheduledDate", TDate);
        ("completedDate", TDate); ("notes", TString); ("priority", TString);
        ("createdAt", TDate); ("updatedAt", TDate)];
     schemaRequired :=
       ["roomId"; "assignedStaffId"; "taskType"; "status"; "scheduledDate";
        "priority"];
     schemaTrim := ["notes"];
     schemaDefaults :=
       [("status", VString TaskStatus.PENDING);
        ("priority", VString Priority.MEDIUM)];
     schemaValidate := fun p v =>
       if String.eqb p "taskType" then
         ReservationModel.check (includes HousekeepingTaskType.values (Some v))
           "Not a valid enum value for path `taskType`."
       else if String.eqb p "status" then
         ReservationModel.check (includes TaskStatus.values (Some v))
           "Not a valid enum value for path `status`."
       else if String.eqb p "notes" then
         ReservationModel.check (ReservationModel.maxLength 1000 v)
           "Notes cannot exceed 1000 characters"
       else if String.eqb p "priority" then
         ReservationModel.check (includes Priority.values (Some v))
           "Not a valid enum value for path `priority`."
       else [] |}.

(** The virtual [duration], in hours. *)
Definition duration (this : Obj) : Z :=
  match this !! "scheduledDate", this !! "completedDate" with
  | Some (VDate scheduledDate), Some (VDate completedDate) =>
      let diffTime := Z.abs (completedDate - scheduledDate) in
      ReservationModel.ceilDiv diffTime (1000 * 60 * 60)
  | _, _ => 0
  end.

(** The virtual [isOverdue] *)
Definition isOverdue (now : Z) (this : Obj) : bool :=
  bool_decide (this !! "status" = Some (VString TaskStatus.PENDING))
  && match this !! "scheduledDate" with
     | Some (VDate scheduledDate) => scheduledDate <? now
     | _ => false
     end.

(** The virtual [completionTime], in minutes; [None] is [null]. *)
Definition completionTime (this : Obj) : option Z :=
  match this !! "scheduledDate", this !! "completedDate" with
  | Some (VDate scheduledDate), Some (VDate completedDate) =>
      let diffTime := completedDate - scheduledDate in
      Some (ReservationModel.ceilDiv diffTime (1000 * 60))
  | _, _ => None
  end.

End HousekeepingTaskModel.

(** ** controllers/housekeepingTask.controller.ts *)

(** The answer of a handler that returns a list of documents. *)
Inductive Listing :=
| listed (data : list Obj) (message : string)
| listError (message : string) (statusCode : Z).

Module HousekeepingTaskController.

Import HousekeepingTaskModel.

Definition internalError : Response :=
  error (Message "Internal server error") 500.

Definition taskNotFound : Response :=
  error (Message "Housekeeping task not found") 404.

(** Create a new housekeeping task *)
Definition createHousekeepingTask (now : Z) (fresh : string) (body : Obj)
    (db : list Obj) : Response * list Obj :=
  let taskData := body in
  match Model.create housekeepingTaskSchema now fresh taskData db with
  | inl _ => (internalError, db)
  | inr (task, db') =>
      (success (Document (Some task))
               "Housekeeping task created successfully" (Some 201), db')
  end.

(** Get a single housekeeping task by ID *)
Definition getHousekeepingTaskById (id : string) (db : list Obj) : Response :=
  match Model.findById id db with
  | inl _ => internalError
  | inr None => taskNotFound
  | inr (Some task) =>
      success (Document (Some task))
              "Housekeeping task fetched successfully" None
  end.

(** Update a housekeeping task by ID *)
Definition updateHousekeepingTask (now : Z) (id : string) (body : Obj)
    (db : list Obj) : Response * list Obj :=
  let updateData := body in
  match Model.findByIdAndUpdate housekeepingTaskSchema now id updateData db with
  | inl _ => (internalError, db)
  | inr (None, db') => (taskNotFound, db')
  | inr (Some task, db') =>
      (success (Document (Some task))
               "Housekeeping task updated successfully" None, db')
  end.

(** Delete a housekeeping task by ID *)
Definition deleteHousekeepingTask (id : string) (db : list Obj)
  : Response * list Obj :=
  match Model.findByIdAndDelete id db with
  | inl _ => (internalError, db)
  | inr (None, db') => (taskNotFound, db')
  | inr (Some task, db') =>
      (success (Document (Some task))
               "Housekeeping task deleted successfully" None, db')
  end.

(** Assign a housekeeping task to staff *)
Definition assignHousekeepingTask (now : Z) (id : string) (body : Obj)
    (db : list Obj) : Response * list Obj :=
  let assignmentData := body in
  match Model.findById id db with
  | inl _ => (internalError, db)
  | inr None => (taskNotFound, db)
  | inr (Some task) =>
      if ReservationController.statusIs TaskStatus.COMPLETED (task !! "status")
      then (error (Message "Cannot assign completed housekeeping task") 400, db)
      else
        match Model.findByIdAndUpdate housekeepingTaskSchema now id
                (setField "assignedStaffId" (assignmentData !! "assignedTo")
                   (<["status" := VString TaskStatus.IN_PROGRESS]>
                      (setField "scheduledDate"
                         (assignmentData !! "scheduledDate")
                         (setField "notes" (assignmentData !! "notes") ∅))))
                db with
        | inl _ => (internalError, db)
        | inr (updatedTask, db') =>
            (success (Document updatedTask)
                     "Housekeeping task assigned successfully" None, db')
        end
  end.

(** Update housekeeping task status *)
Definition updateHousekeepingTaskStatus (now : Z) (id : string) (body : Obj)
    (db : list Obj) : Response * list Obj :=
  let statusData := body in
  match Model.findById id db with
  | inl _ => (internalError, db)
  | inr None => (taskNotFound, db)
  | inr (Some task) =>
      let updateFields : Obj :=
        setField "status" (statusData !! "status")
          (setField "notes" (statusData !! "notes") ∅) in
      let updateFields :=
        if ReservationController.statusIs TaskStatus.IN_PROGRESS (statusData !! "status")
        then <["startedAt" := VDate now]> updateFields
        else if ReservationController.statusIs TaskStatus.COMPLETED (statusData !! "status")
        then <["completedDate" := VDate now]> updateFields
        else updateFields in
      match Model.findByIdAndUpdate housekeepingTaskSchema now id
              updateFields db with
      | inl _ => (internalError, db)
      | inr (updatedTask, db') =>
          (success (Document updatedTask)
                   "Housekeeping task status updated successfully" None, db')
      end
  end.

(** Complete a housekeeping task *)
Definition completeHousekeepingTask (now : Z) (id : string) (body : Obj)
    (db : list Obj) : Response * list Obj :=
  let completionData := body in
  match Model.findById id db with
  | inl _ => (internalError, db)
  | inr None => (taskNotFound, db)
  | inr (Some task) =>
      if ReservationController.statusIs TaskStatus.COMPLETED (task !! "status")
      then (error (Message "Housekeeping task is already completed") 400, db)
      else
        match Model.findByIdAndUpdate housekeepingTaskSchema now id
                (<["status" := VString TaskStatus.COMPLETED]>
                   (<["completedDate" := VDate now]>
                      (setField "notes" (completionData !! "completionNotes")
                         ∅)))
                db with
        | inl _ => (internalError, db)
        | inr (updatedTask, db') =>
            (success (Document updatedTask)
                     "Housekeeping task completed successfully" None, db')
        end
  end.

(** [.sort({ scheduledDate: 1 })]: ascending, a document without the date
    first; documents with equal dates keep their stored order. *)
Definition scheduledBefore (a b : Obj) : bool :=
  match a !! "scheduledDate", b !! "scheduledDate" with
  | Some (VDate x), Some (VDate y) => x <=? y
  | Some (VDate _), _ => false
  | _, _ => true
  end.

Fixpoint insertSorted (d : Obj) (l : list Obj) : list Obj :=
  match l with
  | [] => [d]
  | x :: rest =>
      if scheduledBefore d x then d :: l else x :: insertSorted d rest
  end.

Definition sortByScheduledDate (l : list Obj) : list Obj :=
  foldr insertSorted [] l.

(** Get overdue housekeeping tasks: the query
    [{ $expr: { $eq: ['$isOverdue', true] } }] is evaluated by the store,
    on the stored fields. *)
Definition getOverdueHousekeepingTasks (db : list Obj) : Listing :=
  let tasks :=
    sortByScheduledDate
      (List.filter (fun d => bool_decide (d !! "isOverdue" = Some (VBool true)))
                   db) in
  listed tasks "Overdue housekeeping tasks fetched successfully".

End HousekeepingTaskController.

(** Every stored task has the fields of the schema only. *)
Definition taskFieldsOfSchema (db : list Obj) : Prop :=
  Forall (fun d => forall p,
              p ∉ (schemaPaths HousekeepingTaskModel.housekeepingTaskSchema).*1 ->
              d !! p = None)
         db.

Module TaskScenario.

Definition staff : string := "cccccccccccccccccccccccc".

(** A stored housekeeping task of [Scenario.room]. *)
Definition task (id status : string) (scheduled : Z) : Obj :=
  list_to_map
    [("_id", VObjectId id); ("roomId", VObjectId Scenario.room);
     ("assignedStaffId", VObjectId staff);
     ("taskType", VString "daily_cleaning"); ("status", VString status);
     ("scheduledDate", VDate scheduled); ("priority", VString "medium");
     ("createdAt", VDate 0); ("updatedAt", VDate 0)].

(** The body of a request that creates a task, and the task stored for it. *)
Definition request : Obj :=
  list_to_map
    [("roomId", VString Scenario.room); ("assignedStaffId", VString staff);
     ("taskType", VString "daily_cleaning"); ("scheduledDate", VNumber 7)].

Definition created (id : string) (now : Z) : Obj :=
  list_to_map
    [("_id", VObjectId id); ("roomId", VObjectId Scenario.room);
     ("assignedStaffId", VObjectId staff);
     ("taskType", VString "daily_cleaning"); ("status", VString "pending");
     ("scheduledDate", VDate 7); ("priority", VString "medium");
     ("createdAt", VDate now); ("updatedAt", VDate now)].

End TaskScenario.

Abbreviation taskSchema := HousekeepingTaskModel.housekeepingTaskSchema.

(** * Properties *)

Import ReservationModel ReservationController.

(** ** Queries *)

Lemma findOne_Some (f : Obj -> bool) (db : list Obj) (d : Obj) :
  findOne f db = Some d -> d ∈ db /\ f d = true.
Proof.
  unfold findOne. intros H. apply find_some in H as [Hin Hf].
  split; [by apply list_elem_of_In | done].
Qed.

Lemma findOne_None (f : Obj -> bool) (db : list Obj) :
  findOne f db = None <-> forall d, d ∈ db -> f d = false.
Proof.
  unfold findOne. split.
  - intros H d Hd. apply (find_none _ _ H). by apply list_elem_of_In.
  - induction db as [|x db IH]; intros H; simpl; [done|].
    rewrite (H x) by left. apply IH. intros d Hd. apply H. by right.
Qed.

Lemma findOne_is_Some (f : Obj -> bool) (db : list Obj) :
  is_Some (findOne f db) <-> exists d, d ∈ db /\ f d = true.
Proof.
  split.
  - intros [d Hd]. exists d. by apply findOne_Some.
  - intros (d & Hd & Hf). destruct (findOne f db) eqn:E; [by eexists|].
    rewrite findOne_None in E. rewrite (E d Hd) in Hf. discriminate.
Qed.

(** The first match splits the collection around it. *)
Lemma findOne_split (f : Obj -> bool) (db : list Obj) (d : Obj) :
  findOne f db = Some d ->
  exists l1 l2, db = l1 ++ d :: l2 /\ f d = true
                /\ forall x, x ∈ l1 -> f x = false.
Proof.
  unfold findOne. induction db as [|x db IH]; simpl; [done|].
  destruct (f x) eqn:Hx.
  - intros [= ->]. exists [], db. repeat split; [done|]. intros y Hy.
    by apply elem_of_nil in Hy.
  - intros H. destruct (IH H) as (l1 & l2 & -> & Hd & Hl1).
    exists (x :: l1), l2. repeat split; [done|].
    intros y [->|Hy]%elem_of_cons; auto.
Qed.

Lemma updateOne_split (id : Value) (set : Obj) (l1 l2 : list Obj) (d : Obj) :
  hasId (Some id) d = true ->
  (forall x, x ∈ l1 -> hasId (Some id) x = false) ->
  updateOne id set (l1 ++ d :: l2) = (Some (set ∪ d), l1 ++ (set ∪ d) :: l2).
Proof.
  intros Hd. induction l1 as [|x l1 IH]; intros Hl1; simpl.
  - by rewrite Hd.
  - rewrite (Hl1 x) by left. rewrite IH; [done|].
    intros y Hy. apply Hl1. by right.
Qed.

Lemma updateOne_None (id : Value) (set : Obj) (db : list Obj) :
  findById id db = None -> updateOne id set db = (None, db).
Proof.
  unfold findById, findOne. induction db as [|x db IH]; simpl; [done|].
  destruct (hasId (Some id) x); [done|]. intros H. by rewrite IH.
Qed.

(** ** Updates built by the handlers

    What strict casting and the update validators leave of the update
    objects of [confirmReservation], [cancelReservation] and
    [deleteReservation]: the schema declares neither [confirmedAt],
    [cancellationReason], [cancelledAt], [isActive], [deletionReason],
    [notes] nor [deletedAt]. *)

Lemma confirm_update (now : Z) (id : Value) :
  castUpdate now id
    (<["status" := VString "confirmed"]>
       (<["confirmedAt" := VDate now]> (<["updatedAt" := VDate now]> ∅)))
  = inr (<["status" := VString "confirmed"]> (<["updatedAt" := VDate now]> ∅)).
Proof. vm_compute. reflexivity. Qed.

Lemma cancel_update (now : Z) (id : Value) (reason : option Value) :
  castUpdate now id
    (<["status" := VString "cancelled"]>
       (setField "cancellationReason" reason
          (<["cancelledAt" := VDate now]> (<["updatedAt" := VDate now]> ∅))))
  = inr (<["status" := VString "cancelled"]> (<["updatedAt" := VDate now]> ∅)).
Proof. destruct reason; vm_compute; reflexivity. Qed.

Lemma delete_update (now : Z) (id : Value)
    (deletionReason notes : option Value) :
  castUpdate now id
    (<["isActive" := VBool false]>
       (setField "deletionReason" deletionReason
          (setField "notes" notes
             (<["deletedAt" := VDate now]>
                (<["updatedAt" := VDate now]> ∅)))))
  = inr (<["updatedAt" := VDate now]> ∅).
Proof. destruct deletionReason, notes; vm_compute; reflexivity. Qed.

Lemma union_two_fields (k1 k2 : string) (v1 v2 : Value) (d : Obj) :
  <[k1 := v1]> (<[k2 := v2]> ∅) ∪ d = <[k1 := v1]> (<[k2 := v2]> d).
Proof. by rewrite <- !insert_union_l, (left_id_L ∅ (∪)). Qed.

Lemma union_one_field (k : string) (v : Value) (d : Obj) :
  <[k := v]> ∅ ∪ d = <[k := v]> d.
Proof. by rewrite <- insert_union_l, (left_id_L ∅ (∪)). Qed.

(** A stored document found by id is rewritten in place. *)
Lemma update_found (id : Value) (set : Obj) (db : list Obj) (r : Obj) :
  findById id db = Some r ->
  exists l1 l2, db = l1 ++ r :: l2
    /\ updateOne id set db = (Some (set ∪ r), l1 ++ (set ∪ r) :: l2).
Proof.
  intros H. apply findOne_split in H as (l1 & l2 & -> & Hr & Hl1).
  exists l1, l2. split; [done|]. by apply updateOne_split.
Qed.

(** ** Lifecycle *)

(** C7. Confirming a reservation whose status is not [pending] fails with
    the 400 response "Only pending reservations can be confirmed" and
    leaves the collection exactly as it was. *)
Theorem C7_confirm_requires_pending (now : Z) (id : string) (db : list Obj)
    (r : Obj) :
  ObjectId.isValid id = true ->
  findById (ObjectId.ofString id) db = Some r ->
  r !! "status" <> Some (VString ReservationStatus.PENDING) ->
  confirmReservation now id db
  = (error (Message "Only pending reservations can be confirmed") 400, db).
Proof.
  intros Hid Hr Hst. unfold confirmReservation. rewrite Hid, Hr. simpl.
  by rewrite bool_decide_false.
Qed.

Lemma C7_witness :
  confirmReservation 5 Scenario.id1
    [Scenario.reservation Scenario.id1 "confirmed" 10 20]
  = (error (Message "Only pending reservations can be confirmed") 400,
     [Scenario.reservation Scenario.id1 "confirmed" 10 20]).
Proof.
  apply (C7_confirm_requires_pending 5 Scenario.id1 _
           (Scenario.reservation Scenario.id1 "confirmed" 10 20)).
  - vm_compute. reflexivity.
  - compute_done.
  - vm_compute. discriminate.
Defined.

(** C3 (as the code has it). Confirming a pending reservation makes no
    availability check: whatever else the collection holds, the call
    succeeds and rewrites the reservation with status [confirmed]. *)
Theorem C3_confirm_pending_succeeds (now : Z) (id : string) (db : list Obj)
    (r : Obj) :
  ObjectId.isValid id = true ->
  findById (ObjectId.ofString id) db = Some r ->
  r !! "status" = Some (VString ReservationStatus.PENDING) ->
  exists l1 l2 r',
    db = l1 ++ r :: l2
    /\ r' = <["status" := VString ReservationStatus.CONFIRMED]>
              (<["updatedAt" := VDate now]> r)
    /\ confirmReservation now id db
       = (success (Document (Some r')) "Reservation confirmed successfully" None,
          l1 ++ r' :: l2).
Proof.
  intros Hid Hr Hst. unfold confirmReservation, findByIdAndUpdate.
  rewrite Hid, Hr. simpl.
  rewrite bool_decide_true by done. simpl. rewrite confirm_update.
  destruct (update_found (ObjectId.ofString id)
              (<["status" := VString "confirmed"]>
                 (<["updatedAt" := VDate now]> ∅)) db r Hr)
    as (l1 & l2 & Hdb & Hup).
  exists l1, l2. eexists. split; [done|]. split; [reflexivity|].
  rewrite Hup. by rewrite union_two_fields.
Qed.

Lemma C3_witness :
  exists l1 l2 r',
    [Scenario.reservation Scenario.id2 "pending" 12 18]
    = l1 ++ Scenario.reservation Scenario.id2 "pending" 12 18 :: l2
    /\ r' = <["status" := VString ReservationStatus.CONFIRMED]>
              (<["updatedAt" := VDate 5]>
                 (Scenario.reservation Scenario.id2 "pending" 12 18))
    /\ confirmReservation 5 Scenario.id2
         [Scenario.reservation Scenario.id2 "pending" 12 18]
       = (success (Document (Some r')) "Reservation confirmed successfully" None,
          l1 ++ r' :: l2).
Proof.
  refine (C3_confirm_pending_succeeds 5 Scenario.id2
           [Scenario.reservation Scenario.id2 "pending" 12 18]
           (Scenario.reservation Scenario.id2 "pending" 12 18) _ _ _).
  - vm_compute. reflexivity.
  - compute_done.
  - compute_done.
Defined.

(** C3, the claim refuted: room [Scenario.room] holds a confirmed
    reservation for 10..20, which the availability filter matches for the
    dates 12..18; confirming the pending reservation for 12..18 of the same
    room is not answered with 409 but succeeds, and the collection then
    holds both as confirmed. *)
Lemma C3_confirm_ignores_overlap :
  let r1 := Scenario.reservation Scenario.id1 "confirmed" 10 20 in
  let r2 := Scenario.reservation Scenario.id2 "pending" 12 18 in
  let r2' := <["status" := VString "confirmed"]> (<["updatedAt" := VDate 5]> r2) in
  conflictFilter (Some (VObjectId Scenario.id2)) (Some (VObjectId Scenario.room))
    18 12 r1 = true
  /\ confirmReservation 5 Scenario.id2 [r1; r2]
     = (success (Document (Some r2')) "Reservation confirmed successfully" None,
        [r1; r2'])
  /\ fst (confirmReservation 5 Scenario.id2 [r1; r2]) <> notAvailable.
Proof.
  intros r1 r2 r2'.
  assert (E : confirmReservation 5 Scenario.id2 [r1; r2]
              = (success (Document (Some r2'))
                   "Reservation confirmed successfully" None, [r1; r2']))
    by compute_done.
  split; [vm_compute; reflexivity|]. split; [exact E|].
  rewrite E. discriminate.
Qed.

(** The guard of [cancelReservation] compares the stored status with
    ['cancelled'] and ['checked-out']; any other stored status lets the
    cancellation through. *)
Lemma cancel_succeeds (now : Z) (id : string) (body : Obj) (db : list Obj)
    (r : Obj) :
  ObjectId.isValid id = true ->
  findById (ObjectId.ofString id) db = Some r ->
  includes ["cancelled"; "checked-out"] (r !! "status") = false ->
  exists l1 l2 r',
    db = l1 ++ r :: l2
    /\ r' = <["status" := VString ReservationStatus.CANCELLED]>
              (<["updatedAt" := VDate now]> r)
    /\ cancelReservation now id body db
       = (success (Document (Some r')) "Reservation cancelled successfully" None,
          l1 ++ r' :: l2).
Proof.
  intros Hid Hr Hst. unfold cancelReservation, findByIdAndUpdate.
  rewrite Hid, Hr. simpl negb. cbv iota. rewrite Hst, cancel_update.
  destruct (update_found (ObjectId.ofString id)
              (<["status" := VString "cancelled"]>
                 (<["updatedAt" := VDate now]> ∅)) db r Hr)
    as (l1 & l2 & Hdb & Hup).
  exists l1, l2. eexists. split; [done|]. split; [reflexivity|].
  rewrite Hup. by rewrite union_two_fields.
Qed.

(** C5 (the defect). A reservation stored with status [checked_out] is
    not refused by [cancelReservation]: the call succeeds and rewrites the
    reservation with status [cancelled].  The stored reservation changes in
    [status] and [updatedAt] only: no reason and no cancellation time are
    written. *)
Theorem C5_cancel_accepts_checked_out (now : Z) (id : string) (body : Obj)
    (db : list Obj) (r : Obj) :
  ObjectId.isValid id = true ->
  findById (ObjectId.ofString id) db = Some r ->
  r !! "status" = Some (VString ReservationStatus.CHECKED_OUT) ->
  exists l1 l2 r',
    db = l1 ++ r :: l2
    /\ r' = <["status" := VString ReservationStatus.CANCELLED]>
              (<["updatedAt" := VDate now]> r)
    /\ cancelReservation now id body db
       = (success (Document (Some r')) "Reservation cancelled successfully" None,
          l1 ++ r' :: l2)
    /\ r' !! "cancellationReason" = r !! "cancellationReason"
    /\ r' !! "cancelledAt" = r !! "cancelledAt".
Proof.
  intros Hid Hr Hst.
  destruct (cancel_succeeds now id body db r Hid Hr) as (l1 & l2 & r' & H1 & H2 & H3).
  { by rewrite Hst. }
  exists l1, l2, r'. repeat split; try done; subst r';
    by rewrite !lookup_insert_ne.
Qed.

Lemma C5_witness :
  exists l1 l2 r',
    [Scenario.reservation Scenario.id1 "checked_out" 10 20]
    = l1 ++ Scenario.reservation Scenario.id1 "checked_out" 10 20 :: l2
    /\ r' = <["status" := VString ReservationStatus.CANCELLED]>
              (<["updatedAt" := VDate 30]>
                 (Scenario.reservation Scenario.id1 "checked_out" 10 20))
    /\ cancelReservation 30 Scenario.id1 {["reason" := VString "guest request"]}
         [Scenario.reservation Scenario.id1 "checked_out" 10 20]
       = (success (Document (Some r')) "Reservation cancelled successfully" None,
          l1 ++ r' :: l2)
    /\ r' !! "cancellationReason"
       = Scenario.reservation Scenario.id1 "checked_out" 10 20
           !! "cancellationReason"
    /\ r' !! "cancelledAt"
       = Scenario.reservation Scenario.id1 "checked_out" 10 20 !! "cancelledAt".
Proof.
  refine (C5_cancel_accepts_checked_out 30 Scenario.id1
            {["reason" := VString "guest request"]}
            [Scenario.reservation Scenario.id1 "checked_out" 10 20]
            (Scenario.reservation Scenario.id1 "checked_out" 10 20) _ _ _).
  - vm_compute. reflexivity.
  - compute_done.
  - compute_done.
Defined.

(** The guard of [deleteReservation]: a stored status other than
    [cancelled] and [pending] is refused and nothing changes. *)
Lemma delete_refused (now : Z) (id : string) (body : Obj) (db : list Obj)
    (r : Obj) :
  ObjectId.isValid id = true ->
  findById (ObjectId.ofString id) db = Some r ->
  includes ["cancelled"; "pending"] (r !! "status") = false ->
  deleteReservation now id body db
  = (error (Message "Only cancelled or pending reservations can be deleted") 400,
     db).
Proof.
  intros Hid Hr Hst. unfold deleteReservation. by rewrite Hid, Hr, Hst.
Qed.

(** C6 (the defect). Deleting a pending or cancelled reservation succeeds,
    but the schema declares neither [isActive] nor [deletionReason], so
    strict mode drops them from the update: the stored reservation changes
    in [updatedAt] only. *)
Theorem C6_delete_stores_no_flag (now : Z) (id : string) (body : Obj)
    (db : list Obj) (r : Obj) :
  ObjectId.isValid id = true ->
  findById (ObjectId.ofString id) db = Some r ->
  includes ["cancelled"; "pending"] (r !! "status") = true ->
  exists l1 l2 r',
    db = l1 ++ r :: l2
    /\ r' = <["updatedAt" := VDate now]> r
    /\ deleteReservation now id body db
       = (success (Document (Some r')) "Reservation deleted successfully" None,
          l1 ++ r' :: l2)
    /\ r' !! "isActive" = r !! "isActive"
    /\ r' !! "deletionReason" = r !! "deletionReason".
Proof.
  intros Hid Hr Hst. unfold deleteReservation, findByIdAndUpdate.
  rewrite Hid, Hr, Hst. simpl negb. cbv iota. rewrite delete_update.
  destruct (update_found (ObjectId.ofString id)
              (<["updatedAt" := VDate now]> ∅) db r Hr)
    as (l1 & l2 & Hdb & Hup).
  exists l1, l2. eexists. split; [done|]. split; [reflexivity|].
  rewrite Hup, union_one_field. repeat split; by rewrite lookup_insert_ne.
Qed.

Lemma C6_witness :
  exists l1 l2 r',
    [Scenario.reservation Scenario.id1 "pending" 10 20]
    = l1 ++ Scenario.reservation Scenario.id1 "pending" 10 20 :: l2
    /\ r' = <["updatedAt" := VDate 5]>
              (Scenario.reservation Scenario.id1 "pending" 10 20)
    /\ deleteReservation 5 Scenario.id1
         {["deletionReason" := VString "duplicate booking"]}
         [Scenario.reservation Scenario.id1 "pending" 10 20]
       = (success (Document (Some r')) "Reservation deleted successfully" None,
          l1 ++ r' :: l2)
    /\ r' !! "isActive"
       = Scenario.reservation Scenario.id1 "pending" 10 20 !! "isActive"
    /\ r' !! "deletionReason"
       = Scenario.reservation Scenario.id1 "pending" 10 20 !! "deletionReason".
Proof.
  refine (C6_delete_stores_no_flag 5 Scenario.id1
            {["deletionReason" := VString "duplicate booking"]}
            [Scenario.reservation Scenario.id1 "pending" 10 20]
            (Scenario.reservation Scenario.id1 "pending" 10 20) _ _ _).
  - vm_compute. reflexivity.
  - compute_done.
  - vm_compute. reflexivity.
Defined.

(** The hyphenated spellings pass the handler's own list and are then
    refused by the enum of the schema: the update validator throws and the
    handler answers 500. *)
Lemma updateStatus_hyphenated (now : Z) (id : string) (body : Obj)
    (db : list Obj) (s : string) :
  ObjectId.isValid id = true ->
  body !! "status" = Some (VString s) ->
  s ∈ ["checked-in"; "checked-out"; "no-show"] ->
  updateReservationStatus now id body db
  = (error (Caught (ValidationError
                      [("status", "Not a valid enum value for path `status`.")]))
           500, db).
Proof.
  intros Hid Hst Hs. unfold updateReservationStatus, findByIdAndUpdate.
  rewrite Hid, Hst.
  repeat (apply elem_of_cons in Hs as [->|Hs]);
    [| | | by apply elem_of_nil in Hs];
    vm_compute; reflexivity.
Qed.

(** The three values spelled alike in the handler's list and in the enum
    are written to the stored reservation, whatever its current status. *)
Lemma updateStatus_accepts (now : Z) (id : string) (body : Obj)
    (db : list Obj) (r : Obj) (s : string) :
  ObjectId.isValid id = true ->
  body !! "status" = Some (VString s) ->
  s ∈ [ReservationStatus.PENDING; ReservationStatus.CONFIRMED;
       ReservationStatus.CANCELLED] ->
  findById (ObjectId.ofString id) db = Some r ->
  exists l1 l2 r',
    db = l1 ++ r :: l2
    /\ r' = <["status" := VString s]> (<["updatedAt" := VDate now]> r)
    /\ updateReservationStatus now id body db
       = (success (Document (Some r'))
            "Reservation status updated successfully" None, l1 ++ r' :: l2).
Proof.
  intros Hid Hst Hs Hr. unfold updateReservationStatus, findByIdAndUpdate.
  rewrite Hid, Hst.
  destruct (update_found (ObjectId.ofString id)
              (<["status" := VString s]> (<["updatedAt" := VDate now]> ∅))
              db r Hr) as (l1 & l2 & Hdb & Hup).
  exists l1, l2. eexists. split; [done|]. split; [reflexivity|].
  rewrite <- union_two_fields.
  repeat (apply elem_of_cons in Hs as [->|Hs]);
    [| | | by apply elem_of_nil in Hs];
    match goal with
    | |- context [castUpdate ?n ?i ?u] =>
        let c := fresh "c" in
        set (c := castUpdate n i u); vm_compute in c; subst c
    end;
    cbv beta iota;
    match type of Hup with
    | updateOne _ ?set _ = _ =>
        let m := fresh "m" in
        set (m := set) in *; vm_compute in m; subst m
    end; by rewrite Hup.
Qed.

(** C4 (the defect). The three status values spelled with an underscore,
    as the enum and the schema spell them, are not in the handler's list:
    the request is refused with "Invalid status value" and nothing is
    written. *)
Theorem C4_underscore_statuses_rejected (now : Z) (id : string) (body : Obj)
    (db : list Obj) (s : string) :
  ObjectId.isValid id = true ->
  body !! "status" = Some (VString s) ->
  s ∈ [ReservationStatus.CHECKED_IN; ReservationStatus.CHECKED_OUT;
       ReservationStatus.NO_SHOW] ->
  updateReservationStatus now id body db
  = (error (Message "Invalid status value") 400, db).
Proof.
  intros Hid Hst Hs. unfold updateReservationStatus. rewrite Hid, Hst.
  repeat (apply elem_of_cons in Hs as [->|Hs]);
    [| | | by apply elem_of_nil in Hs]; reflexivity.
Qed.

Lemma C4_witness :
  updateReservationStatus 5 Scenario.id1 {["status" := VString "checked_in"]}
    [Scenario.reservation Scenario.id1 "confirmed" 10 20]
  = (error (Message "Invalid status value") 400,
     [Scenario.reservation Scenario.id1 "confirmed" 10 20]).
Proof.
  apply (C4_underscore_statuses_rejected 5 Scenario.id1
           {["status" := VString "checked_in"]} _ "checked_in").
  - vm_compute. reflexivity.
  - compute_done.
  - vm_compute. left.
Defined.

(** ** The availability filter *)

Lemma isValid_truthy (s : string) :
  ObjectId.isValid s = true -> truthy (Some (VString s)) = true.
Proof. by destruct s. Qed.

Lemma conflictFilter_exclude (id : Value) (room : option Value) (co ci : Z)
    (d : Obj) :
  conflictFilter (Some id) room co ci d
  = negb (hasId (Some id) d) && conflictFilter None room co ci d.
Proof. unfold conflictFilter. by destruct (hasId (Some id) d). Qed.

(** What a document must be for the filter to match it. *)
Lemma conflictFilter_true (room : option Value) (co ci : Z) (d : Obj) :
  conflictFilter None room co ci d = true <->
  d !! "roomId" = room
  /\ (d !! "status" = Some (VString "confirmed")
      \/ d !! "status" = Some (VString "checked-in"))
  /\ exists s e, d !! "checkInDate" = Some (VDate s)
                 /\ d !! "checkOutDate" = Some (VDate e)
                 /\ s <= co /\ ci <= e.
Proof.
  unfold conflictFilter, includes. simpl.
  rewrite !andb_true_iff, bool_decide_eq_true. split.
  - intros [[[Hroom Hst] Hin] Hout]. split; [done|]. split.
    + destruct (d !! "status") as [[s| | | |]|]; try discriminate.
      rewrite !orb_true_iff, !String.eqb_eq in Hst.
      destruct Hst as [->|[->|?]]; auto; discriminate.
    + destruct (d !! "checkInDate") as [[| | |s|]|]; try discriminate.
      destruct (d !! "checkOutDate") as [[| | |e|]|]; try discriminate.
      exists s, e. repeat split; lia.
  - intros (Hroom & Hst & s & e & -> & -> & Hs & He).
    repeat split; [done| |lia|lia].
    by destruct Hst as [-> | ->].
Qed.

(** No document stored with a status of the enum other than [confirmed]
    is matched: the filter asks for ['checked-in'], the enum and the schema
    spell the value [checked_in]. *)
Lemma conflictFilter_enum_status (exclude room : option Value) (co ci : Z)
    (d : Obj) (s : string) :
  d !! "status" = Some (VString s) ->
  s ∈ ReservationStatus.values ->
  conflictFilter exclude room co ci d = true ->
  s = ReservationStatus.CONFIRMED.
Proof.
  intros Hst Hs H.
  assert (H' : conflictFilter None room co ci d = true).
  { destruct exclude; [|done].
    rewrite conflictFilter_exclude in H. by apply andb_true_iff in H as []. }
  apply conflictFilter_true in H' as (_ & Hst' & _). rewrite Hst in Hst'.
  destruct Hst' as [[= ->]|[= ->]]; [done|].
  vm_compute in Hs. repeat (apply elem_of_cons in Hs as [Hs|Hs]; [discriminate|]).
  by apply elem_of_nil in Hs.
Qed.

Lemma findOne_unique (f : Obj -> bool) (db : list Obj) (r : Obj) :
  r ∈ db ->
  (forall d, d ∈ db -> f d = true -> d = r) ->
  findOne f db = if f r then Some r else None.
Proof.
  intros Hr Huniq. destruct (findOne f db) as [d|] eqn:E.
  - apply findOne_Some in E as [Hd Hf].
    rewrite <- (Huniq d Hd Hf). by rewrite Hf.
  - rewrite findOne_None in E. by rewrite (E r Hr).
Qed.

(** C1 (as the code has it). Let the room hold one reservation, confirmed,
    for the dates [s] to [e].  For a request for [s'] to [e'] the
    availability query of [createReservation] and [checkAvailability]
    finds a conflict exactly when [s <= e'] and [s' <= e], both bounds
    included: [createReservation] then answers 409 and stores nothing,
    [checkAvailability] answers [available = false] with the id of the
    reservation.  In particular a request that starts on the check-out
    date, [s' = e], is in conflict. *)
Theorem C1_conflict_iff_closed_stays_meet (db : list Obj) (r : Obj)
    (roomStr : string) (s e s' e' : Z) (rq : Obj) :
  ObjectId.isValid roomStr = true ->
  r ∈ db ->
  r !! "roomId" = Some (ObjectId.ofString roomStr) ->
  r !! "status" = Some (VString ReservationStatus.CONFIRMED) ->
  r !! "checkInDate" = Some (VDate s) ->
  r !! "checkOutDate" = Some (VDate e) ->
  (forall d, d ∈ db -> d !! "roomId" = Some (ObjectId.ofString roomStr) -> d = r) ->
  rq !! "roomId" = Some (VString roomStr) ->
  rq !! "checkInDate" = Some (VDate s') ->
  rq !! "checkOutDate" = Some (VDate e') ->
  (forall now fresh,
      fst (createReservation now fresh rq db) = notAvailable
      <-> s <= e' /\ s' <= e)
  /\ (s <= e' /\ s' <= e ->
      forall now fresh, createReservation now fresh rq db = (notAvailable, db))
  /\ checkAvailability rq db
     = success
         (Availability (negb (bool_decide (s <= e' /\ s' <= e)))
            (Some (VString roomStr)) (Some (VDate s')) (Some (VDate e'))
            (if bool_decide (s <= e' /\ s' <= e) then r !! "_id" else None))
         "Availability checked successfully" None
  /\ (s' = e -> s <= e -> e <= e' ->
      (forall now fresh, createReservation now fresh rq db = (notAvailable, db))
      /\ exists c,
           checkAvailability rq db
           = success (Availability false (Some (VString roomStr))
                        (Some (VDate s')) (Some (VDate e')) c)
               "Availability checked successfully" None).
Proof.
  intros Hid Hr Hroom Hst Hin Hout Huniq Hqroom Hqin Hqout.
  set (F := conflictFilter None (Some (ObjectId.ofString roomStr)) e' s').
  assert (HF : F r = bool_decide (s <= e' /\ s' <= e)).
  { apply eq_true_iff_eq. rewrite bool_decide_eq_true. unfold F.
    rewrite conflictFilter_true. split.
    - intros (_ & _ & s0 & e0 & Hs0 & He0 & ? & ?).
      rewrite Hin in Hs0. rewrite Hout in He0. by simplify_eq.
    - intros [? ?]. split; [done|]. split; [by left|]. by exists s, e. }
  assert (Hfind : findOne F db
                  = if bool_decide (s <= e' /\ s' <= e) then Some r else None).
  { rewrite <- HF. apply findOne_unique; [done|].
    intros d Hd Hfd. apply Huniq; [done|].
    by apply conflictFilter_true in Hfd as [? _]. }
  assert (Hcreate : forall now fresh,
             createReservation now fresh rq db
             = if bool_decide (s <= e' /\ s' <= e) then (notAvailable, db)
               else match save now (new fresh rq) db with
                    | inl err => (error (Caught err) 500, db)
                    | inr (saved, db') =>
                        (success (Document (Some saved))
                           "Reservation created successfully" (Some 201), db')
                    end).
  { intros now fresh. unfold createReservation, castFilter.
    rewrite Hqroom, Hqin, Hqout. cbn [castValue toDate]. rewrite Hid.
    cbv iota beta. fold F. rewrite Hfind. by case_bool_decide. }
  assert (Havail : checkAvailability rq db
     = success
         (Availability (negb (bool_decide (s <= e' /\ s' <= e)))
            (Some (VString roomStr)) (Some (VDate s')) (Some (VDate e'))
            (if bool_decide (s <= e' /\ s' <= e) then r !! "_id" else None))
         "Availability checked successfully" None).
  { unfold checkAvailability, castFilter.
    rewrite Hqroom, Hqin, Hqout, (isValid_truthy _ Hid), Hid.
    cbn [truthy negb orb castValue toDate ObjectId.ofString]. cbv iota beta.
    fold (ObjectId.ofString roomStr). fold F. rewrite Hfind.
    by case_bool_decide. }
  split; [|split; [|split]].
  - intros now fresh. rewrite Hcreate. case_bool_decide as HC.
    + done.
    + split; [|done]. destruct (save now (new fresh rq) db) as [?|[? ?]];
        discriminate.
  - intros HC now fresh. rewrite Hcreate. by rewrite bool_decide_true.
  - exact Havail.
  - intros -> Hse Hee'. assert (HC : s <= e' /\ e <= e) by lia. split.
    + intros now fresh. rewrite Hcreate. by rewrite bool_decide_true.
    + eexists. rewrite Havail. by rewrite bool_decide_true.
Qed.

Lemma C1_witness :
  (forall now fresh,
      createReservation now fresh (Scenario.request 20 30)
        [Scenario.reservation Scenario.id1 "confirmed" 10 20]
      = (notAvailable, [Scenario.reservation Scenario.id1 "confirmed" 10 20]))
  /\ exists c,
       checkAvailability (Scenario.request 20 30)
         [Scenario.reservation Scenario.id1 "confirmed" 10 20]
       = success (Availability false (Some (VString Scenario.room))
                    (Some (VDate 20)) (Some (VDate 30)) c)
           "Availability checked successfully" None.
Proof.
  destruct (C1_conflict_iff_closed_stays_meet
              [Scenario.reservation Scenario.id1 "confirmed" 10 20]
              (Scenario.reservation Scenario.id1 "confirmed" 10 20)
              Scenario.room 10 20 20 30 (Scenario.request 20 30))
    as (_ & _ & _ & H).
  - vm_compute. reflexivity.
  - apply list_elem_of_singleton. reflexivity.
  - compute_done.
  - compute_done.
  - compute_done.
  - compute_done.
  - intros d Hd _. apply list_elem_of_singleton in Hd. exact Hd.
  - compute_done.
  - compute_done.
  - compute_done.
  - apply H; lia.
Defined.

(** C1, the claim refuted: the room holds a confirmed reservation for
    10..20 and the request is for 20..30, starting on the check-out date.
    The two stays do not overlap as half-open intervals, yet
    [createReservation] answers 409 and [checkAvailability] answers
    [available = false]. *)
Lemma C1_adjacent_request_conflicts :
  let db := [Scenario.reservation Scenario.id1 "confirmed" 10 20] in
  ~ (10 < 30 /\ 20 > 20)
  /\ createReservation 5 Scenario.id2 (Scenario.request 20 30) db
     = (notAvailable, db)
  /\ checkAvailability (Scenario.request 20 30) db
     = success (Availability false (Some (VString Scenario.room))
                  (Some (VDate 20)) (Some (VDate 30))
                  (Some (VObjectId Scenario.id1)))
         "Availability checked successfully" None.
Proof.
  intros db. split; [lia|]. split; compute_done.
Qed.

(** C2 (the defect). The room holds a reservation stored with status
    [checked_in] for 10..20.  A request for 12..18, inside that stay, is
    not blocked: [createReservation] stores the new reservation and
    answers 201, [checkAvailability] answers [available = true]. *)
Theorem C2_checked_in_stay_does_not_block :
  let db := [Scenario.reservation Scenario.id1 ReservationStatus.CHECKED_IN 10 20] in
  let saved := Scenario.created Scenario.id2 "pending" 12 18 5 in
  createReservation 5 Scenario.id2 (Scenario.request 12 18) db
  = (success (Document (Some saved)) "Reservation created successfully"
       (Some 201), db ++ [saved])
  /\ checkAvailability (Scenario.request 12 18) db
     = success (Availability true (Some (VString Scenario.room))
                  (Some (VDate 12)) (Some (VDate 18)) None)
         "Availability checked successfully" None.
Proof.
  intros db saved. split; compute_done.
Qed.

(** ** Updating a reservation *)

Lemma updateGuard_notAvailable (id : Value) (body : Obj) (db : list Obj) :
  updateGuard id body db = Some notAvailable <->
  truthy (body !! "roomId") || truthy (body !! "checkInDate")
  || truthy (body !! "checkOutDate") = true
  /\ exists current room co ci other,
       findById id db = Some current
       /\ castFilter (js_or (body !! "roomId") (current !! "roomId"))
            (js_or (body !! "checkOutDate") (current !! "checkOutDate"))
            (js_or (body !! "checkInDate") (current !! "checkInDate"))
          = inr (room, co, ci)
       /\ other ∈ db
       /\ other !! "_id" <> Some id
       /\ conflictFilter None room co ci other = true.
Proof.
  unfold updateGuard.
  destruct (truthy (body !! "roomId") || truthy (body !! "checkInDate")
            || truthy (body !! "checkOutDate")); [|by split; [|intros []]].
  destruct (findById id db) as [current|] eqn:Hcur.
  2:{ split; [discriminate|]. by intros (_ & ? & ? & ? & ? & ? & ? & _). }
  destruct (castFilter _ _ _) as [err|[[room co] ci]] eqn:Hcast.
  { split; [discriminate|].
    intros (_ & ? & ? & ? & ? & ? & [= <-] & Hc & _). by rewrite Hcast in Hc. }
  destruct (findOne _ db) as [other|] eqn:Hfind.
  - split; [intros _|done]. split; [done|].
    apply findOne_Some in Hfind as [Hin Hf].
    rewrite conflictFilter_exclude, andb_true_iff, negb_true_iff in Hf.
    destruct Hf as [Hne Hf]. exists current, room, co, ci, other.
    repeat split; try done. unfold hasId in Hne.
    by apply bool_decide_eq_false in Hne.
  - split; [discriminate|].
    intros (_ & ? & room' & co' & ci' & other & [= <-] & Hc & Hin & Hne & Hf).
    rewrite Hcast in Hc. simplify_eq.
    rewrite findOne_None in Hfind. specialize (Hfind other Hin).
    rewrite conflictFilter_exclude, Hf, andb_true_r, negb_false_iff in Hfind.
    unfold hasId in Hfind. by apply bool_decide_eq_true in Hfind.
Qed.

(** C8 (as the code has it). Let the reservation be stored with a room
    and two dates, and let the update name its room as a well-formed id or
    not at all, and each date as a date or not at all.  The merged room and
    dates are those of the update where it names them and the stored ones
    otherwise.  The update is answered with 409 exactly when it names a room
    or a date and some stored document other than the reservation itself
    is in the merged room, has status ['confirmed'] or ['checked-in'], and
    a stay that meets the merged stay, both bounds included.  The
    reservation itself is never the cause. *)
Theorem C8_update_conflict_iff_another_stay_meets (now : Z) (id : string)
    (body : Obj) (db : list Obj) (current : Obj) (room0 : string)
    (s0 e0 : Z) (room : Value) (ci co : Z) :
  ObjectId.isValid id = true ->
  findById (ObjectId.ofString id) db = Some current ->
  current !! "roomId" = Some (VObjectId room0) ->
  current !! "checkInDate" = Some (VDate s0) ->
  current !! "checkOutDate" = Some (VDate e0) ->
  (body !! "roomId" = None /\ room = VObjectId room0
   \/ exists r, body !! "roomId" = Some (VString r)
                /\ ObjectId.isValid r = true /\ room = ObjectId.ofString r) ->
  (body !! "checkInDate" = None /\ ci = s0
   \/ body !! "checkInDate" = Some (VDate ci)) ->
  (body !! "checkOutDate" = None /\ co = e0
   \/ body !! "checkOutDate" = Some (VDate co)) ->
  fst (updateReservation now id body db) = notAvailable <->
  (is_Some (body !! "roomId") \/ is_Some (body !! "checkInDate")
   \/ is_Some (body !! "checkOutDate"))
  /\ exists other s e,
       other ∈ db
       /\ other !! "_id" <> Some (ObjectId.ofString id)
       /\ other !! "roomId" = Some room
       /\ (other !! "status" = Some (VString "confirmed")
           \/ other !! "status" = Some (VString "checked-in"))
       /\ other !! "checkInDate" = Some (VDate s)
       /\ other !! "checkOutDate" = Some (VDate e)
       /\ s <= co /\ ci <= e.
Proof.
  intros Hid Hcur Hroom0 Hs0 He0 Hroom Hci Hco.
  assert (Hguard : fst (updateReservation now id body db) = notAvailable
                   <-> updateGuard (ObjectId.ofString id) body db
                       = Some notAvailable).
  { unfold updateReservation. rewrite Hid. simpl negb. cbv iota.
    destruct (updateGuard _ body db) as [response|]; simpl.
    - split; [by intros ->|by intros [= ->]].
    - split; [|discriminate].
      destruct (findByIdAndUpdate _ _ _ db) as [?|[[?|] ?]]; discriminate. }
  rewrite Hguard, updateGuard_notAvailable.
  assert (Ht : truthy (body !! "roomId") || truthy (body !! "checkInDate")
               || truthy (body !! "checkOutDate") = true
               <-> is_Some (body !! "roomId") \/ is_Some (body !! "checkInDate")
                   \/ is_Some (body !! "checkOutDate")).
  { destruct Hroom as [[-> _]|(r & -> & Hr & _)],
             Hci as [[-> _]| ->], Hco as [[-> _]| ->];
      rewrite ?(isValid_truthy _ Hr); cbn [truthy orb];
      (split;
       [intros H;
        first [discriminate | by left; eexists | by right; left; eexists
              | by right; right; eexists]
       |intros [[? H]|[[? H]|[? H]]]; try discriminate; done]). }
  assert (Hcast : castFilter (js_or (body !! "roomId") (current !! "roomId"))
                    (js_or (body !! "checkOutDate") (current !! "checkOutDate"))
                    (js_or (body !! "checkInDate") (current !! "checkInDate"))
                  = inr (Some room, co, ci)).
  { rewrite Hroom0, Hs0, He0. unfold js_or, castFilter.
    destruct Hroom as [[-> ->]|(r & -> & Hr & ->)],
             Hci as [[-> ->]| ->], Hco as [[-> ->]| ->];
      rewrite ?(isValid_truthy _ Hr); cbn [truthy toDate castValue];
      by rewrite ?Hr. }
  rewrite Ht. split.
  - intros (Hnames & cur' & room' & co' & ci' & other & Hcur' & Hcast'
            & Hin & Hne & Hf).
    rewrite Hcur in Hcur'. injection Hcur' as <-.
    rewrite Hcast in Hcast'. injection Hcast' as <- <- <-.
    split; [done|].
    apply conflictFilter_true in Hf as (Hr & Hst & s & e & ? & ? & ? & ?).
    by exists other, s, e.
  - intros (Hnames & other & s & e & Hin & Hne & Hr & Hst & Hs & He & ? & ?).
    split; [done|]. exists current, (Some room), co, ci, other.
    repeat split; try done.
    apply conflictFilter_true. split; [done|]. split; [done|].
    by exists s, e.
Qed.

(** The reservation is alone in its room and moves its own dates from
    10..20 to 15..25, which its stored dates meet: no 409. *)
Lemma C8_witness :
  fst (updateReservation 5 Scenario.id1
         (<["checkInDate" := VDate 15]> {["checkOutDate" := VDate 25]})
         [Scenario.reservation Scenario.id1 "confirmed" 10 20])
  <> notAvailable.
Proof.
  intros H.
  apply (C8_update_conflict_iff_another_stay_meets 5 Scenario.id1
           (<["checkInDate" := VDate 15]> {["checkOutDate" := VDate 25]})
           [Scenario.reservation Scenario.id1 "confirmed" 10 20]
           (Scenario.reservation Scenario.id1 "confirmed" 10 20)
           Scenario.room 10 20 (VObjectId Scenario.room) 15 25) in H.
  - destruct H as (_ & other & s & e & Hin & Hne & _).
    apply list_elem_of_singleton in Hin. subst other. apply Hne.
    compute_done.
  - vm_compute. reflexivity.
  - compute_done.
  - compute_done.
  - compute_done.
  - compute_done.
  - left. split; [compute_done|reflexivity].
  - right. compute_done.
  - right. compute_done.
Defined.

(** C8, the claim refuted: room [Scenario.room] holds a confirmed
    reservation for 10..20 and a pending one for 30..40.  The pending one
    is moved to begin on day 20, the day the other ends: the stays 10..20
    and 20..40 do not overlap, yet the update is answered 409 and nothing
    is written. *)
Lemma C8_adjacent_update_conflicts :
  let db := [Scenario.reservation Scenario.id1 "confirmed" 10 20;
             Scenario.reservation Scenario.id2 "pending" 30 40] in
  ~ (10 < 40 /\ 20 > 20)
  /\ updateReservation 5 Scenario.id2 {["checkInDate" := VDate 20]} db
     = (notAvailable, db).
Proof.
  intros db. split; [lia|compute_done].
Qed.

(** ** Strict casting *)

Lemma castPaths_lookup_other (schema : list (string * SchemaType)) (o : Obj)
    (p : string) :
  p ∉ schema.*1 -> (castPaths schema o).1 !! p = None.
Proof.
  induction schema as [|[q u] rest IH]; intros Hp; simpl; [done|].
  apply not_elem_of_cons in Hp as [Hpq Hp]. simpl in Hpq.
  specialize (IH Hp). destruct (castPaths rest o) as [acc errs]. simpl in IH.
  destruct (o !! q) as [v|]; [|done].
  destruct (castValue u v); [|done]. simpl. by rewrite lookup_insert_ne.
Qed.

(** A declared path is read from the object and cast to its type. *)
Lemma castPaths_lookup (schema : list (string * SchemaType)) (o : Obj)
    (p : string) (t : SchemaType) :
  NoDup (schema.*1) ->
  (p, t) ∈ schema ->
  (castPaths schema o).1 !! p = o !! p ≫= castValue t.
Proof.
  induction schema as [|[q u] rest IH]; intros Hnd Hp; simpl.
  { by apply elem_of_nil in Hp. }
  apply NoDup_cons in Hnd as [Hq Hnd]. simpl in Hq.
  apply elem_of_cons in Hp as [[= -> ->]|Hp].
  - pose proof (castPaths_lookup_other rest o q Hq) as Hnone.
    destruct (castPaths rest o) as [acc errs]. simpl in Hnone.
    destruct (o !! q) as [v|]; simpl; [|done].
    destruct (castValue u v); simpl; [by rewrite lookup_insert_eq|done].
  - assert (p <> q).
    { intros ->. apply Hq. apply list_elem_of_fmap. by exists (q, t). }
    specialize (IH Hnd Hp). destruct (castPaths rest o) as [acc errs].
    simpl in IH. destruct (o !! q) as [v|]; [|done].
    destruct (castValue u v); [|done]. simpl. by rewrite lookup_insert_ne.
Qed.

(** A path is reported only when its value fails to cast. *)
Lemma castPaths_errors (schema : list (string * SchemaType)) (o : Obj)
    (p : string) :
  p ∈ (castPaths schema o).2 ->
  exists t v, (p, t) ∈ schema /\ o !! p = Some v /\ castValue t v = None.
Proof.
  induction schema as [|[q u] rest IH]; simpl.
  { intros H. by apply elem_of_nil in H. }
  destruct (castPaths rest o) as [acc errs]. simpl in IH.
  assert (Hrest : p ∈ errs ->
            exists t v, (p, t) ∈ (q, u) :: rest /\ o !! p = Some v
                        /\ castValue t v = None).
  { intros H. destruct (IH H) as (t & v & ? & ? & ?).
    exists t, v. split; [by right|done]. }
  destruct (o !! q) as [v|] eqn:Hq; [|done].
  destruct (castValue u v) eqn:Hc; [done|]. simpl.
  intros [->|H]%elem_of_cons; [|auto].
  exists u, v. split; [by left|done].
Qed.

Lemma castPaths_errors_complete (schema : list (string * SchemaType))
    (o : Obj) (p : string) (t : SchemaType) (v : Value) :
  (p, t) ∈ schema -> o !! p = Some v -> castValue t v = None ->
  p ∈ (castPaths schema o).2.
Proof.
  induction schema as [|[q u] rest IH]; intros Hp Hv Hc; simpl.
  { by apply elem_of_nil in Hp. }
  apply elem_of_cons in Hp as [[= <- <-]|Hp].
  - destruct (castPaths rest o) as [acc errs]. rewrite Hv, Hc. by left.
  - specialize (IH Hp Hv Hc). destruct (castPaths rest o) as [acc errs].
    simpl in IH. destruct (o !! q) as [w|]; [|done].
    destruct (castValue u w); [done|]. by right.
Qed.

Lemma paths_NoDup : NoDup (paths.*1).
Proof. compute_done. Qed.

Lemma paths_type (p : string) (t u : SchemaType) :
  (p, t) ∈ paths -> (p, u) ∈ paths -> t = u.
Proof.
  generalize paths_NoDup. generalize paths.
  induction l as [|[q w] l IH]; intros Hnd Ht Hu.
  { by apply elem_of_nil in Ht. }
  apply NoDup_cons in Hnd as [Hq Hnd]. simpl in Hq.
  apply elem_of_cons in Ht as [[= -> ->]|Ht];
    apply elem_of_cons in Hu as [[= <-]|Hu]; subst; try done.
  - destruct Hq. apply list_elem_of_fmap. eexists (_, _). by split; [|eassumption].
  - destruct Hq. apply list_elem_of_fmap. eexists (_, _). by split; [|eassumption].
  - by apply IH.
Qed.

(** ** Creating a reservation *)

(** The fields of [new ReservationModel(data)]: the cast value of the
    data, except that a missing [_id] is generated and a missing status is
    [pending]. *)
Lemma new_lookup (fresh : string) (data : Obj) (p : string) (t : SchemaType) :
  (p, t) ∈ paths ->
  p <> "specialRequests" ->
  (new fresh data).1 !! p
  = match data !! p with
    | Some v => castValue t v
    | None =>
        if decide (p = "status") then Some (VString ReservationStatus.PENDING)
        else if decide (p = "_id") then Some (VObjectId fresh)
        else None
    end.
Proof.
  intros Hp Hsr. unfold new.
  pose proof (castPaths_lookup paths data p t paths_NoDup Hp) as Hl.
  destruct (castPaths paths data) as [doc errs]. simpl in Hl.
  assert (Hset : applySetters doc !! p = doc !! p).
  { unfold applySetters. destruct (doc !! "specialRequests") as [[]|]; try done.
    by rewrite lookup_insert_ne. }
  destruct (data !! "status") eqn:Es, (data !! "_id") eqn:Ei; simpl;
    repeat case_decide; subst;
    repeat (rewrite lookup_insert_eq || rewrite lookup_insert_ne by done);
    rewrite ?Hset, ?Hl, ?Es, ?Ei; try done;
    by match goal with |- context [data !! ?q] => destruct (data !! q) end.
Qed.

Lemma new_errors (fresh : string) (data : Obj) :
  (new fresh data).2 = (castPaths paths data).2.
Proof. unfold new. by destruct (castPaths paths data). Qed.

Lemma existsb_eqb_elem_of (p : string) (l : list string) :
  existsb (String.eqb p) l = true <-> p ∈ l.
Proof.
  rewrite existsb_exists. split.
  - intros (q & Hq & ->%String.eqb_eq). by apply list_elem_of_In.
  - intros Hp. exists p. split; [by apply list_elem_of_In|apply String.eqb_refl].
Qed.

Lemma flat_map_nil {A B : Type} (f : A -> list B) (l : list A) (x : A) :
  flat_map f l = [] -> x ∈ l -> f x = [].
Proof.
  induction l as [|y l IH]; simpl; intros H Hx.
  { by apply elem_of_nil in Hx. }
  apply app_eq_nil in H as [Hy Hl].
  apply elem_of_cons in Hx as [->|Hx]; auto.
Qed.

(** A document that validates has every required path, no path that
    failed to cast, and satisfies the validators of each path it has. *)
Lemma validateDocument_nil (now : Z) (doc : Obj) (errs : list string)
    (p : string) (t : SchemaType) :
  validateDocument now doc errs = [] ->
  (p, t) ∈ paths ->
  (p ∉ errs)
  /\ match doc !! p with
     | None => isRequired p = false
     | Some v => validatePath doc now p v = []
     end.
Proof.
  intros H Hp. unfold validateDocument in H.
  pose proof (flat_map_nil _ _ _ H Hp) as Hf. simpl in Hf.
  destruct (existsb (String.eqb p) errs) eqn:E; [discriminate|]. split.
  - intros Hin. apply existsb_eqb_elem_of in Hin. congruence.
  - destruct (doc !! p).
    + by destruct (validatePath doc now p v).
    + by destruct (isRequired p).
Qed.

(** The first validator that fails on a path that did cast is reported. *)
Lemma validateDocument_reports (now : Z) (doc : Obj) (errs : list string)
    (p m : string) (t : SchemaType) (v : Value) (rest : list string) :
  (p, t) ∈ paths ->
  p ∉ errs ->
  doc !! p = Some v ->
  validatePath doc now p v = m :: rest ->
  (p, m) ∈ validateDocument now doc errs.
Proof.
  intros Hp Herr Hv Hm. unfold validateDocument.
  apply list_elem_of_In, in_flat_map. exists (p, t).
  split; [by apply list_elem_of_In|]. simpl.
  destruct (existsb (String.eqb p) errs) eqn:E.
  { by apply existsb_eqb_elem_of in E. }
  rewrite Hv, Hm. by left.
Qed.

Lemma check_nil (ok : bool) (m : string) : check ok m = [] -> ok = true.
Proof. by destruct ok. Qed.

Lemma validatePath_status (this : Obj) (now : Z) (v : Value) :
  validatePath this now "status" v = [] ->
  includes ReservationStatus.values (Some v) = true.
Proof.
  unfold validatePath. intros [_ H]%app_eq_nil. by apply check_nil in H.
Qed.

Lemma validatePath_checkInDate (this : Obj) (now : Z) (v : Value) :
  validatePath this now "checkInDate" v = [] ->
  exists t, v = VDate t /\ now < t.
Proof.
  unfold validatePath. intros [_ H]%app_eq_nil. apply check_nil in H.
  destruct v; try discriminate. exists t. split; [done|].
  by apply Z.ltb_lt in H.
Qed.

Lemma validatePath_checkOutDate (this : Obj) (now : Z) (v : Value) :
  validatePath this now "checkOutDate" v = [] ->
  exists ci co, v = VDate co /\ this !! "checkInDate" = Some (VDate ci)
                /\ ci < co.
Proof.
  unfold validatePath. intros [_ H]%app_eq_nil. apply check_nil in H.
  unfold checkOutDate_validator in H. destruct v; try discriminate.
  destruct (this !! "checkInDate") as [[]|]; try discriminate.
  eexists _, _. repeat split. by apply Z.ltb_lt in H.
Qed.

Lemma validatePath_past_checkIn (this : Obj) (now t : Z) :
  t <= now ->
  validatePath this now "checkInDate" (VDate t)
  = ["Check-in date must be in the future"].
Proof.
  intros Ht. unfold validatePath, checkInDate_validator. simpl.
  destruct (now <? t) eqn:E; [apply Z.ltb_lt in E; lia|]. done.
Qed.

(** What [save] does when it succeeds and when it fails. *)
Lemma save_inr (now : Z) (doc : Obj) (errs : list string) (db : list Obj)
    (saved : Obj) (db' : list Obj) :
  save now (doc, errs) db = inr (saved, db') ->
  validateDocument now doc errs = []
  /\ existsb (hasId (saved !! "_id")) db = false
  /\ db' = db ++ [saved]
  /\ forall p, p <> "createdAt" -> p <> "updatedAt" -> saved !! p = doc !! p.
Proof.
  unfold save. destruct (validateDocument now doc errs); [|discriminate].
  set (doc' := <["updatedAt" := _]> _).
  destruct (existsb _ db) eqn:E; [discriminate|]. intros [= <- <-].
  repeat split; [done|]. intros p Hc Hu. unfold doc'.
  by rewrite !lookup_insert_ne by done.
Qed.

Lemma save_invalid (now : Z) (doc : Obj) (errs : list string) (db : list Obj)
    (e : string * string) :
  e ∈ validateDocument now doc errs ->
  save now (doc, errs) db = inl (ValidationError (validateDocument now doc errs)).
Proof.
  unfold save. destruct (validateDocument now doc errs); [|done].
  intros H. by apply elem_of_nil in H.
Qed.

Lemma paths_status : ("status", TString) ∈ paths.
Proof. compute_done. Qed.

Lemma paths_id : ("_id", TObjectId) ∈ paths.
Proof. compute_done. Qed.

Lemma paths_checkInDate : ("checkInDate", TDate) ∈ paths.
Proof. compute_done. Qed.

Lemma paths_checkOutDate : ("checkOutDate", TDate) ∈ paths.
Proof. compute_done. Qed.

(** What a stored reservation is when [createReservation] succeeds. *)
Lemma create_saved (now : Z) (fresh : string) (body : Obj) (db : list Obj)
    (saved : Obj) (db' : list Obj) :
  save now (new fresh body) db = inr (saved, db') ->
  db' = db ++ [saved]
  /\ existsb (hasId (saved !! "_id")) db = false
  /\ saved !! "status"
     = match body !! "status" with
       | Some v => Some v
       | None => Some (VString ReservationStatus.PENDING)
       end
  /\ includes ReservationStatus.values (saved !! "status") = true
  /\ saved !! "_id"
     = match body !! "_id" with
       | Some v => castValue TObjectId v
       | None => Some (VObjectId fresh)
       end
  /\ exists ci co,
       saved !! "checkInDate" = Some (VDate ci)
       /\ saved !! "checkOutDate" = Some (VDate co)
       /\ now < ci /\ ci < co.
Proof.
  intros Hsave.
  pose proof (new_lookup fresh body "status" TString paths_status
                ltac:(done)) as Hst.
  pose proof (new_lookup fresh body "_id" TObjectId paths_id ltac:(done))
    as Hid.
  destruct (new fresh body) as [doc errs]. cbn [fst] in Hst, Hid.
  apply save_inr in Hsave as (Hval & Hdup & -> & Hsaved).
  destruct (validateDocument_nil now doc errs _ _ Hval paths_status) as [_ Hvs].
  destruct (validateDocument_nil now doc errs _ _ Hval paths_checkInDate)
    as [_ Hvi].
  destruct (validateDocument_nil now doc errs _ _ Hval paths_checkOutDate)
    as [_ Hvo].
  rewrite !Hsaved by done. rewrite Hsaved in Hdup by done.
  split; [done|]. split; [done|].
  assert (Hstatus : doc !! "status"
                    = match body !! "status" with
                      | Some v => Some v
                      | None => Some (VString ReservationStatus.PENDING)
                      end).
  { rewrite Hst in *. destruct (body !! "status") as [[]|]; try done;
      discriminate. }
  split; [done|]. split.
  { destruct (doc !! "status"); [by apply validatePath_status in Hvs|done]. }
  split; [by rewrite Hid; destruct (body !! "_id")|].
  destruct (doc !! "checkOutDate") as [vo|]; [|discriminate].
  apply validatePath_checkOutDate in Hvo as (ci & co & -> & Hci & Hlt).
  rewrite Hci in *. apply validatePath_checkInDate in Hvi as (t & [= <-] & Hnow).
  by exists ci, co.
Qed.

Lemma paths_roomId : ("roomId", TObjectId) ∈ paths.
Proof. compute_done. Qed.

Lemma castFilter_inr (roomId checkOutDate checkInDate room : option Value)
    (co ci : Z) :
  castFilter roomId checkOutDate checkInDate = inr (room, co, ci) ->
  toDate checkInDate = Some ci
  /\ toDate checkOutDate = Some co
  /\ room = roomId ≫= castValue TObjectId
  /\ (is_Some roomId -> is_Some room).
Proof.
  unfold castFilter.
  destruct (toDate checkInDate), (toDate checkOutDate); try discriminate.
  destruct roomId as [r|].
  - destruct (castValue TObjectId r) as [r'|] eqn:E; [|discriminate].
    intros [= <- <- <-]. cbn [mbind option_bind]. rewrite E. eauto.
  - intros [= <- <- <-]. repeat split. by intros [? ?].
Qed.

Lemma castFilter_inl (roomId checkOutDate checkInDate : option Value)
    (e : MongooseError) :
  castFilter roomId checkOutDate checkInDate = inl e ->
  exists p, e = CastError p.
Proof.
  unfold castFilter.
  destruct (toDate checkInDate), (toDate checkOutDate);
    try (intros [= <-]; eauto).
  destruct roomId as [r|]; [|discriminate].
  destruct (castValue TObjectId r); [discriminate|].
  intros [= <-]. eauto.
Qed.

Lemma castValue_toDate (v : Value) (t : Z) :
  castValue TDate v = Some (VDate t) -> toDate (Some v) = Some t.
Proof.
  destruct v; simpl; try discriminate.
  - destruct (timeClip n); simpl; [|discriminate]. by intros [= ->].
  - by intros [= ->].
Qed.

(** The room and the dates that a successful create stores are those its
    availability query was asked. *)
Lemma save_query (now : Z) (fresh : string) (body : Obj) (db : list Obj)
    (saved : Obj) (db' : list Obj) (room : option Value) (co ci : Z) :
  castFilter (body !! "roomId") (body !! "checkOutDate")
    (body !! "checkInDate") = inr (room, co, ci) ->
  save now (new fresh body) db = inr (saved, db') ->
  is_Some room
  /\ saved !! "roomId" = room
  /\ saved !! "checkInDate" = Some (VDate ci)
  /\ saved !! "checkOutDate" = Some (VDate co).
Proof.
  intros (Hci & Hco & -> & _)%castFilter_inr Hsave.
  pose proof (create_saved _ _ _ _ _ _ Hsave)
    as (_ & _ & _ & _ & _ & ci' & co' & Hsi & Hso & _).
  pose proof (new_lookup fresh body "roomId" TObjectId paths_roomId
                ltac:(done)) as Hroom.
  pose proof (new_lookup fresh body "checkInDate" TDate paths_checkInDate
                ltac:(done)) as Hin.
  pose proof (new_lookup fresh body "checkOutDate" TDate paths_checkOutDate
                ltac:(done)) as Hout.
  destruct (new fresh body) as [doc errs]. cbn [fst] in Hroom, Hin, Hout.
  apply save_inr in Hsave as (Hval & _ & _ & Hsaved).
  destruct (validateDocument_nil now doc errs _ _ Hval paths_roomId)
    as [_ Hvr].
  rewrite Hsaved in Hsi, Hso by done. rewrite Hsaved by done.
  repeat case_decide; try done.
  destruct (body !! "roomId") as [r|]; [|by rewrite Hroom in Hvr].
  destruct (body !! "checkInDate") as [vi|]; [|congruence].
  destruct (body !! "checkOutDate") as [vo|]; [|congruence].
  rewrite Hsi in Hin. rewrite Hso in Hout.
  symmetry in Hin, Hout.
  apply castValue_toDate in Hin, Hout.
  rewrite Hin in Hci. rewrite Hout in Hco. simplify_eq.
  cbn [mbind option_bind]. rewrite <- Hroom, !Hsaved by done.
  repeat split; [|done..].
  destruct (doc !! "roomId"); [done|vm_compute in Hvr; discriminate].
Qed.

Lemma validatePath_checkOutDate_order (this : Obj) (now ci co : Z) :
  this !! "checkInDate" = Some (VDate ci) ->
  co <= ci ->
  validatePath this now "checkOutDate" (VDate co)
  = ["Check-out date must be after check-in date"].
Proof.
  intros Hci Hle. unfold validatePath, checkOutDate_validator. simpl.
  rewrite Hci. destruct (ci <? co) eqn:E; [apply Z.ltb_lt in E; lia|]. done.
Qed.

(** C9 (as the code has it). A create is answered 409 exactly when its
    availability query casts and finds a stored document in the room of
    the request, with status ['confirmed'] or ['checked-in'] and a stay
    that meets the requested one, both bounds included.  Every create
    either is refused and leaves the collection as it was, with that 409 or
    with 500 and the cast, validation or duplicate-key error that was
    caught, or it answers 201 and appends exactly one reservation.  The
    stored dates are those of the request, with now < check-in < check-out;
    the stored status is the status of the request when it carries one,
    necessarily one of the six values of the enum, and [pending] when it
    carries none; the id is generated unless the request names one, and no
    other stored reservation has it.  A request whose check-out date is not
    after its check-in date is refused: with the cast error of the query,
    with 409, or else with a validation error that names [checkOutDate]. *)
Theorem C9_create_rejects_or_stores (now : Z) (fresh : string) (body : Obj)
    (db : list Obj) :
  (fst (createReservation now fresh body db) = notAvailable <->
   exists room co ci d s e,
     castFilter (body !! "roomId") (body !! "checkOutDate")
       (body !! "checkInDate") = inr (room, co, ci)
     /\ d ∈ db
     /\ d !! "roomId" = room
     /\ (d !! "status" = Some (VString "confirmed")
         \/ d !! "status" = Some (VString "checked-in"))
     /\ d !! "checkInDate" = Some (VDate s)
     /\ d !! "checkOutDate" = Some (VDate e)
     /\ s <= co /\ ci <= e)
  /\ (createReservation now fresh body db = (notAvailable, db)
      \/ (exists e,
             createReservation now fresh body db = (error (Caught e) 500, db)
             /\ ((exists p, e = CastError p)
                 \/ (exists errors, e = ValidationError errors)
                 \/ e = DuplicateKeyError))
      \/ (exists saved ci co,
             createReservation now fresh body db
             = (success (Document (Some saved))
                  "Reservation created successfully" (Some 201),
                db ++ [saved])
             /\ saved !! "status"
                = match body !! "status" with
                  | Some v => Some v
                  | None => Some (VString ReservationStatus.PENDING)
                  end
             /\ includes ReservationStatus.values (saved !! "status") = true
             /\ saved !! "_id"
                = match body !! "_id" with
                  | Some v => castValue TObjectId v
                  | None => Some (VObjectId fresh)
                  end
             /\ existsb (hasId (saved !! "_id")) db = false
             /\ toDate (body !! "checkInDate") = Some ci
             /\ toDate (body !! "checkOutDate") = Some co
             /\ saved !! "checkInDate" = Some (VDate ci)
             /\ saved !! "checkOutDate" = Some (VDate co)
             /\ now < ci /\ ci < co))
  /\ (forall ci co,
         toDate (body !! "checkInDate") = Some ci ->
         toDate (body !! "checkOutDate") = Some co ->
         co <= ci ->
         match castFilter (body !! "roomId") (body !! "checkOutDate")
                 (body !! "checkInDate") with
         | inl e => createReservation now fresh body db
                    = (error (Caught e) 500, db)
         | inr (room, co', ci') =>
             match findOne (conflictFilter None room co' ci') db with
             | Some _ => createReservation now fresh body db = (notAvailable, db)
             | None =>
                 exists errors m,
                   createReservation now fresh body db
                   = (error (Caught (ValidationError errors)) 500, db)
                   /\ ("checkOutDate", m) ∈ errors
             end
         end).
Proof.
  split; [|split].
  - unfold createReservation.
    destruct (castFilter _ _ _) as [err|[[room co] ci]] eqn:Hcast.
    { split; [discriminate|].
      by intros (? & ? & ? & ? & ? & ? & ? & _). }
    destruct (findOne _ db) as [d|] eqn:Hfind.
    + split; [intros _|done].
      apply findOne_Some in Hfind as [Hin Hf].
      apply conflictFilter_true in Hf as (Hr & Hst & s & e & ? & ? & ? & ?).
      by exists room, co, ci, d, s, e.
    + split.
      { destruct (save now (new fresh body) db) as [?|[? ?]]; discriminate. }
      intros (room' & co' & ci' & d & s & e & [= <- <- <-] & Hin & Hr & Hst
              & Hs & He & ? & ?).
      rewrite findOne_None in Hfind. specialize (Hfind d Hin).
      assert (conflictFilter None room co ci d = true); [|congruence].
      apply conflictFilter_true. split; [done|]. split; [done|].
      by exists s, e.
  - unfold createReservation.
    destruct (castFilter _ _ _) as [err|[[room co] ci]] eqn:Hcast.
    { right. left. exists err. split; [done|]. left.
      by apply castFilter_inl in Hcast. }
    destruct (findOne _ db); [by left|].
    destruct (save now (new fresh body) db) as [err|[saved db']] eqn:Hsave.
    { right. left. exists err. split; [done|].
      unfold save in Hsave. destruct (new fresh body) as [doc errs].
      destruct (validateDocument now doc errs) as [|x l].
      - destruct (existsb _ db); [|discriminate].
        injection Hsave as <-. by right; right.
      - injection Hsave as <-. right. left. eauto. }
    destruct (save_query _ _ _ _ _ _ _ _ _ Hcast Hsave)
      as (_ & _ & Hsi & Hso).
    apply castFilter_inr in Hcast as (Hci & Hco & _).
    apply create_saved in Hsave
      as (-> & Hdup & Hst & Henum & Hid & ci' & co' & Hci' & Hco' & Hnow & Hlt).
    right. right. exists saved, ci, co.
    rewrite Hsi in Hci'. rewrite Hso in Hco'. simplify_eq.
    by repeat split.
  - intros ci co Hci Hco Hle. unfold createReservation.
    destruct (castFilter _ _ _) as [e|[[room co'] ci']]; [done|].
    destruct (findOne _ db); [done|].
    pose proof (new_lookup fresh body "checkInDate" TDate paths_checkInDate
                  ltac:(done)) as Hin.
    pose proof (new_lookup fresh body "checkOutDate" TDate paths_checkOutDate
                  ltac:(done)) as Hout.
    pose proof (new_errors fresh body) as He.
    destruct (new fresh body) as [doc errs]. cbn [fst snd] in Hin, Hout, He.
    repeat case_decide; try done.
    destruct (body !! "checkOutDate") as [vo|] eqn:Hbo; [|discriminate].
    assert (Herr : exists m, ("checkOutDate", m)
                             ∈ validateDocument now doc errs).
    { destruct (castValue TDate vo) as [vo'|] eqn:Hcast.
      - assert (Hnot : "checkOutDate" ∉ errs).
        { rewrite He. intros (u & v & Hu & Hv & Hc)%castPaths_errors.
          rewrite (paths_type _ _ _ Hu paths_checkOutDate) in Hc.
          rewrite Hbo in Hv. by simplify_eq. }
        assert (exists m rest,
                   validatePath doc now "checkOutDate" vo' = m :: rest)
          as (m & rest & Hm).
        { assert (vo' = VDate co) as ->.
          { destruct vo; simpl in Hcast, Hco; try discriminate.
            - destruct (timeClip n); simpl in *; by simplify_eq.
            - by simplify_eq. }
          destruct (doc !! "checkInDate") as [vi'|] eqn:Hdi.
          + destruct (body !! "checkInDate") as [vi|]; [|discriminate].
            assert (vi' = VDate ci) as ->.
            { destruct vi; simpl in Hin, Hci; try discriminate.
              - destruct (timeClip n); simpl in *; by simplify_eq.
              - by simplify_eq. }
            eexists _, _.
            by apply (validatePath_checkOutDate_order doc now ci co).
          + eexists _, _. unfold validatePath, checkOutDate_validator.
            simpl. rewrite Hdi. done. }
        exists m.
        by apply (validateDocument_reports now doc errs _ _ TDate vo' rest);
          [apply paths_checkOutDate|..].
      - exists "Cast failed.". unfold validateDocument.
        apply list_elem_of_In, in_flat_map. exists ("checkOutDate", TDate).
        split; [apply list_elem_of_In, paths_checkOutDate|].
        assert (existsb (String.eqb "checkOutDate") errs = true) as ->.
        { apply existsb_eqb_elem_of. rewrite He.
          by apply (castPaths_errors_complete _ _ _ TDate vo);
            [apply paths_checkOutDate|..]. }
        by left. }
    destruct Herr as [m Hm]. rewrite (save_invalid _ _ _ _ _ Hm). eauto.
Qed.

(** A well-formed request for 30..20, whose dates are in the wrong order,
    is turned away by the validator of [checkOutDate]. *)
Lemma C9_witness :
  exists errors m,
    createReservation 5 Scenario.id2 (Scenario.request 30 20) []
    = (error (Caught (ValidationError errors)) 500, [])
    /\ ("checkOutDate", m) ∈ errors.
Proof.
  apply (proj2 (proj2 (C9_create_rejects_or_stores 5 Scenario.id2
                         (Scenario.request 30 20) [])) 30 20).
  - compute_done.
  - compute_done.
  - lia.
Defined.

(** C9, the claim refuted: the request carries [status: 'confirmed'] and
    is accepted; the stored reservation is confirmed, not pending. *)
Lemma C9_create_keeps_supplied_status :
  let saved := Scenario.created Scenario.id2 "confirmed" 21 30 5 in
  createReservation 5 Scenario.id2
    (<["status" := VString "confirmed"]> (Scenario.request 21 30)) []
  = (success (Document (Some saved)) "Reservation created successfully"
       (Some 201), [saved])
  /\ saved !! "status" <> Some (VString ReservationStatus.PENDING).
Proof.
  intros saved. split; [compute_done|]. vm_compute. discriminate.
Qed.

(** C10 (as the code has it). A reservation that [createReservation]
    stores has a check-in date after the clock reading of its validation.
    A request whose check-in date is not after it is refused and the
    collection is left as it was: with the cast error of the availability
    query when its room or check-out date does not cast, with 409 when the
    query finds a conflict, and otherwise with the validation error of the
    schema, which names [checkInDate]. *)
Theorem C10_create_requires_future_checkIn (now : Z) (fresh : string)
    (body : Obj) (db : list Obj) :
  (forall saved m c db',
      createReservation now fresh body db
      = (success (Document (Some saved)) m c, db') ->
      exists t, saved !! "checkInDate" = Some (VDate t) /\ now < t)
  /\ (forall t,
         body !! "checkInDate" = Some (VDate t) ->
         t <= now ->
         match castFilter (body !! "roomId") (body !! "checkOutDate")
                 (body !! "checkInDate") with
         | inl e => createReservation now fresh body db
                    = (error (Caught e) 500, db)
         | inr (room, co, ci) =>
             match findOne (conflictFilter None room co ci) db with
             | Some _ => createReservation now fresh body db = (notAvailable, db)
             | None =>
                 exists errors,
                   createReservation now fresh body db
                   = (error (Caught (ValidationError errors)) 500, db)
                   /\ ("checkInDate", "Check-in date must be in the future")
                      ∈ errors
             end
         end).
Proof.
  split.
  - intros saved m c db'. unfold createReservation.
    destruct (castFilter _ _ _) as [e|[[room co] ci]]; [discriminate|].
    destruct (findOne _ db); [discriminate|].
    destruct (save now (new fresh body) db) as [e|[saved' db'']] eqn:Hsave;
      [discriminate|].
    intros [= -> <- <- <-].
    apply create_saved in Hsave as (_ & _ & _ & _ & _ & ci' & _ & Hci & _ & Hnow & _).
    by exists ci'.
  - intros t Hbody Ht. unfold createReservation.
    destruct (castFilter _ _ _) as [e|[[room co] ci]]; [done|].
    destruct (findOne _ db); [done|].
    pose proof (new_lookup fresh body "checkInDate" TDate paths_checkInDate
                  ltac:(done)) as Hl.
    pose proof (new_errors fresh body) as He.
    destruct (new fresh body) as [doc errs]. cbn [fst snd] in Hl, He.
    rewrite Hbody in Hl. cbn [castValue] in Hl.
    assert (Hin : ("checkInDate", "Check-in date must be in the future")
                  ∈ validateDocument now doc errs).
    { apply (validateDocument_reports now doc errs _ _ TDate (VDate t) []);
        [apply paths_checkInDate| |done|by apply validatePath_past_checkIn].
      rewrite He. intros (u & v & Hu & Hv & Hc)%castPaths_errors.
      rewrite (paths_type _ _ _ Hu paths_checkInDate) in Hc.
      rewrite Hbody in Hv. by simplify_eq. }
    rewrite (save_invalid _ _ _ _ _ Hin). eauto.
Qed.

Lemma C10_witness :
  (exists t,
      Scenario.created Scenario.id2 "pending" 21 30 5 !! "checkInDate"
      = Some (VDate t) /\ 5 < t)
  /\ exists errors,
       createReservation 30 Scenario.id2 (Scenario.request 20 35) []
       = (error (Caught (ValidationError errors)) 500, [])
       /\ ("checkInDate", "Check-in date must be in the future") ∈ errors.
Proof.
  split.
  - apply (proj1 (C10_create_requires_future_checkIn 5 Scenario.id2
                    (Scenario.request 21 30) [])
             _ "Reservation created successfully" (Some 201)
             [Scenario.created Scenario.id2 "pending" 21 30 5]).
    compute_done.
  - apply (proj2 (C10_create_requires_future_checkIn 30 Scenario.id2
                    (Scenario.request 20 35) []) 20).
    + compute_done.
    + lia.
Defined.

(** C10, the claim refuted: the room is taken by a confirmed reservation
    for 10..40 and, at time 30, a request arrives for 20..35, whose
    check-in date is in the past.  The answer is the 409 of the
    availability check, not a validation error. *)
Lemma C10_past_checkIn_answered_409 :
  let db := [Scenario.reservation Scenario.id1 "confirmed" 10 40] in
  Scenario.request 20 35 !! "checkInDate" = Some (VDate 20)
  /\ 20 <= 30
  /\ createReservation 30 Scenario.id2 (Scenario.request 20 35) db
     = (notAvailable, db)
  /\ forall errors,
       fst (createReservation 30 Scenario.id2 (Scenario.request 20 35) db)
       <> error (Caught (ValidationError errors)) 500.
Proof.
  intros db.
  assert (E : createReservation 30 Scenario.id2 (Scenario.request 20 35) db
              = (notAvailable, db)) by compute_done.
  split; [compute_done|]. split; [lia|]. split; [exact E|].
  intros errors. rewrite E. discriminate.
Qed.

(** * Further properties of the reservation handlers *)

(** ** The store under an update *)

Lemma updateOne_fst (id : Value) (set : Obj) (db : list Obj) :
  (updateOne id set db).1 = (set ∪.) <$> findById id db.
Proof.
  unfold findById, findOne. induction db as [|d db IH]; simpl; [done|].
  destruct (hasId (Some id) d); [done|].
  destruct (updateOne id set db) as [r rest]. by simpl in *.
Qed.

Lemma updateOne_length (id : Value) (set : Obj) (db : list Obj) :
  List.length (updateOne id set db).2 = List.length db.
Proof.
  induction db as [|d db IH]; simpl; [done|].
  destruct (hasId (Some id) d); [done|].
  destruct (updateOne id set db) as [r rest]. simpl in *. by rewrite IH.
Qed.

Lemma touchesOnly_refl (id : Value) (db : list Obj) : touchesOnly id db db.
Proof. apply Forall2_same_length_lookup_2; [done|]. intros i d d' H1 H2.
  left. congruence. Qed.

Lemma updateOne_touchesOnly (id : Value) (set : Obj) (db : list Obj) :
  set !! "_id" = None \/ set !! "_id" = Some id ->
  touchesOnly id db (updateOne id set db).2.
Proof.
  intros Hset. unfold touchesOnly.
  induction db as [|d db IH]; simpl; [constructor|].
  destruct (hasId (Some id) d) eqn:Hd.
  - simpl. constructor; [|apply touchesOnly_refl].
    right. unfold hasId in Hd. apply bool_decide_eq_true in Hd.
    split; [done|]. rewrite lookup_union.
    destruct Hset as [-> | ->]; by rewrite ?Hd.
  - destruct (updateOne id set db) as [r rest]. simpl in *.
    constructor; [by left|done].
Qed.

(** What [castUpdate] lets through: the [_id] of the addressed document
    at most, and a status of the enum at most. *)
Lemma castUpdate_id (now : Z) (id : Value) (update set : Obj) :
  castUpdate now id update = inr set ->
  set !! "_id" = None \/ set !! "_id" = Some id.
Proof.
  unfold castUpdate. destruct (castPaths paths _) as [set0 errs].
  destruct errs; [|discriminate].
  set (set1 := applySetters set0).
  destruct (validateUpdate now set1); [|discriminate].
  destruct (set1 !! "_id") as [id'|] eqn:E; [|intros [= <-]; by left].
  case_bool_decide; [|discriminate]. intros [= <-]. right. congruence.
Qed.



Lemma findByIdAndUpdate_touchesOnly (now : Z) (id : Value) (update : Obj)
    (db : list Obj) (r : option Obj) (db' : list Obj) :
  findByIdAndUpdate now id update db = inr (r, db') ->
  touchesOnly id db db'.
Proof.
  unfold findByIdAndUpdate.
  destruct (castUpdate now id update) as [e|set] eqn:Hc; [discriminate|].
  intros [= H]. replace db' with (updateOne id set db).2 by (by rewrite H).
  apply updateOne_touchesOnly. by eapply castUpdate_id.
Qed.

(** ** Malformed and unknown ids *)

(** X1. An id that is not 24 hexadecimal digits is refused by every
    handler that takes one, with 400 "Invalid reservation ID format", before
    the collection is read: nothing is written. *)
Theorem X1_malformed_id_refused (now : Z) (id : string) (body : Obj)
    (db : list Obj) :
  ObjectId.isValid id = false ->
  getReservationById id db = invalidId
  /\ updateReservation now id body db = (invalidId, db)
  /\ confirmReservation now id db = (invalidId, db)
  /\ cancelReservation now id body db = (invalidId, db)
  /\ updateReservationStatus now id body db = (invalidId, db)
  /\ deleteReservation now id body db = (invalidId, db).
Proof.
  intros Hid.
  unfold getReservationById, updateReservation, confirmReservation,
    cancelReservation, updateReservationStatus, deleteReservation.
  by rewrite Hid.
Qed.

Lemma X1_witness :
  getReservationById "room-101" [] = invalidId
  /\ updateReservation 5 "room-101" ∅ [] = (invalidId, [])
  /\ confirmReservation 5 "room-101" [] = (invalidId, [])
  /\ cancelReservation 5 "room-101" ∅ [] = (invalidId, [])
  /\ updateReservationStatus 5 "room-101" ∅ [] = (invalidId, [])
  /\ deleteReservation 5 "room-101" ∅ [] = (invalidId, []).
Proof.
  apply (X1_malformed_id_refused 5 "room-101" ∅ []). vm_compute. reflexivity.
Defined.

(** X2. No handler creates a document for an id the collection does not
    hold: when no stored reservation has the id, the lookup answers 404,
    and update, confirm, cancel, status update and delete answer with an
    error and leave the collection as it was. *)
Theorem X2_unknown_id_writes_nothing (now : Z) (id : string) (body : Obj)
    (db : list Obj) :
  ObjectId.isValid id = true ->
  findById (ObjectId.ofString id) db = None ->
  getReservationById id db = notFound
  /\ confirmReservation now id db = (notFound, db)
  /\ cancelReservation now id body db = (notFound, db)
  /\ deleteReservation now id body db = (notFound, db)
  /\ (isSuccess (fst (updateReservation now id body db)) = false
      /\ snd (updateReservation now id body db) = db)
  /\ (isSuccess (fst (updateReservationStatus now id body db)) = false
      /\ snd (updateReservationStatus now id body db) = db).
Proof.
  intros Hid Hnone.
  unfold getReservationById, confirmReservation, cancelReservation,
    deleteReservation.
  rewrite Hid, Hnone. repeat split; try done.
  - unfold updateReservation, updateGuard. rewrite Hid, Hnone. simpl negb.
    cbv iota. destruct (_ || _); [done|].
    unfold findByIdAndUpdate. destruct (castUpdate _ _ _); [done|].
    by rewrite updateOne_None.
  - unfold updateReservation, updateGuard. rewrite Hid, Hnone. simpl negb.
    cbv iota. destruct (_ || _); [done|].
    unfold findByIdAndUpdate. destruct (castUpdate _ _ _); [done|].
    by rewrite updateOne_None.
  - unfold updateReservationStatus. rewrite Hid. simpl negb. cbv iota.
    destruct (negb _); [done|].
    unfold findByIdAndUpdate. destruct (castUpdate _ _ _); [done|].
    by rewrite updateOne_None.
  - unfold updateReservationStatus. rewrite Hid. simpl negb. cbv iota.
    destruct (negb _); [done|].
    unfold findByIdAndUpdate. destruct (castUpdate _ _ _); [done|].
    by rewrite updateOne_None.
Qed.

Lemma X2_witness :
  getReservationById Scenario.id2
    [Scenario.reservation Scenario.id1 "pending" 10 20] = notFound
  /\ snd (updateReservationStatus 5 Scenario.id2
            {["status" := VString "confirmed"]}
            [Scenario.reservation Scenario.id1 "pending" 10 20])
     = [Scenario.reservation Scenario.id1 "pending" 10 20].
Proof.
  destruct (X2_unknown_id_writes_nothing 5 Scenario.id2
              {["status" := VString "confirmed"]}
              [Scenario.reservation Scenario.id1 "pending" 10 20])
    as (H1 & _ & _ & _ & _ & _ & H2).
  - vm_compute. reflexivity.
  - compute_done.
  - by split.
Defined.

(** ** Locality of the writes *)

(** X3. The five handlers that write through [findByIdAndUpdate] neither
    add nor remove a document, leave every document other than the
    addressed one as it was, and never change an [_id]. *)
Theorem X3_handlers_touch_only_the_addressed_document (now : Z) (id : string)
    (body : Obj) (db : list Obj) :
  touchesOnly (ObjectId.ofString id) db (snd (updateReservation now id body db))
  /\ touchesOnly (ObjectId.ofString id) db (snd (confirmReservation now id db))
  /\ touchesOnly (ObjectId.ofString id) db
       (snd (cancelReservation now id body db))
  /\ touchesOnly (ObjectId.ofString id) db
       (snd (updateReservationStatus now id body db))
  /\ touchesOnly (ObjectId.ofString id) db
       (snd (deleteReservation now id body db)).
Proof.
  repeat split.
  - unfold updateReservation. destruct (negb _); [apply touchesOnly_refl|].
    destruct (updateGuard _ _ _); [apply touchesOnly_refl|].
    destruct (findByIdAndUpdate _ _ _ db) as [?|[[?|] db']] eqn:E;
      [apply touchesOnly_refl|..]; simpl;
      by eapply findByIdAndUpdate_touchesOnly.
  - unfold confirmReservation. destruct (negb _); [apply touchesOnly_refl|].
    destruct (findById _ db); [|apply touchesOnly_refl].
    destruct (negb _); [apply touchesOnly_refl|].
    destruct (findByIdAndUpdate _ _ _ db) as [?|[? db']] eqn:E;
      [apply touchesOnly_refl|]; simpl;
      by eapply findByIdAndUpdate_touchesOnly.
  - unfold cancelReservation. destruct (negb _); [apply touchesOnly_refl|].
    destruct (findById _ db); [|apply touchesOnly_refl].
    destruct (includes _ _); [apply touchesOnly_refl|].
    destruct (findByIdAndUpdate _ _ _ db) as [?|[? db']] eqn:E;
      [apply touchesOnly_refl|]; simpl;
      by eapply findByIdAndUpdate_touchesOnly.
  - unfold updateReservationStatus.
    destruct (negb (ObjectId.isValid id)); [apply touchesOnly_refl|].
    destruct (negb (includes _ _)); [apply touchesOnly_refl|].
    destruct (findByIdAndUpdate _ _ _ db) as [?|[[?|] db']] eqn:E;
      [apply touchesOnly_refl|..]; simpl;
      by eapply findByIdAndUpdate_touchesOnly.
  - unfold deleteReservation. destruct (negb _); [apply touchesOnly_refl|].
    destruct (findById _ db); [|apply touchesOnly_refl].
    destruct (negb _); [apply touchesOnly_refl|].
    destruct (findByIdAndUpdate _ _ _ db) as [?|[? db']] eqn:E;
      [apply touchesOnly_refl|]; simpl;
      by eapply findByIdAndUpdate_touchesOnly.
Qed.

(** ** The status of stored reservations *)





(** ** Create and look up *)

Lemma findOne_app (f : Obj -> bool) (l1 l2 : list Obj) :
  findOne f (l1 ++ l2)
  = match findOne f l1 with
    | Some d => Some d
    | None => findOne f l2
    end.
Proof.
  unfold findOne. induction l1 as [|x l1 IH]; simpl; [done|].
  by destruct (f x).
Qed.

Lemma findById_app_new (id : Value) (db : list Obj) (d : Obj) :
  existsb (hasId (Some id)) db = false ->
  d !! "_id" = Some id ->
  findById id (db ++ [d]) = Some d.
Proof.
  intros Hdb Hd. unfold findById. rewrite findOne_app.
  assert (findOne (hasId (Some id)) db = None) as ->.
  { destruct (findOne (hasId (Some id)) db) eqn:E; [|done].
    apply find_some in E as [Hin Ho].
    assert (existsb (hasId (Some id)) db = true)
      by (apply existsb_exists; eauto).
    congruence. }
  unfold findOne, hasId. simpl. by rewrite bool_decide_true.
Qed.

Lemma findById_app_old (id : Value) (db : list Obj) (d r : Obj) :
  findById id db = Some r -> findById id (db ++ [d]) = Some r.
Proof. unfold findById. intros H. by rewrite findOne_app, H. Qed.

(** X5. What a create stores can be read back: after a successful create
    the lookup by the id of the stored reservation answers with that
    reservation, read lean and populated, and every answer that the lookup
    gave before the create it still gives. *)
Theorem X5_create_then_lookup (now : Z) (fresh : string) (body : Obj)
    (db : list Obj) (saved : Obj) (m : string) (c : option Z) (db' : list Obj) :
  createReservation now fresh body db
  = (success (Document (Some saved)) m c, db') ->
  (forall id,
      ObjectId.isValid id = true ->
      saved !! "_id" = Some (ObjectId.ofString id) ->
      getReservationById id db'
      = success (Populated populatedById saved)
          "Reservation retrieved successfully" None)
  /\ (forall id data m' c',
         getReservationById id db = success data m' c' ->
         getReservationById id db' = success data m' c').
Proof.
  unfold createReservation.
  destruct (castFilter _ _ _) as [?|[[? ?] ?]]; [discriminate|].
  destruct (findOne _ db); [discriminate|].
  destruct (save now (new fresh body) db) as [?|[saved' db'']] eqn:Hsave;
    [discriminate|].
  intros [= -> <- <- <-].
  apply create_saved in Hsave as (-> & Hdup & _). split.
  - intros id Hid Hsaved. unfold getReservationById. rewrite Hid. simpl.
    rewrite Hsaved in Hdup. by rewrite (findById_app_new _ _ _ Hdup Hsaved).
  - intros id data m' c'. unfold getReservationById.
    destruct (negb (ObjectId.isValid id)); [discriminate|].
    destruct (findById (ObjectId.ofString id) db) as [r'|] eqn:E;
      [|discriminate].
    intros [= <- <- <-]. by rewrite (findById_app_old _ _ _ _ E).
Qed.

Lemma X5_witness :
  getReservationById Scenario.id2
    [Scenario.reservation Scenario.id1 "confirmed" 10 20;
     Scenario.created Scenario.id2 "pending" 21 30 5]
  = success (Populated populatedById
               (Scenario.created Scenario.id2 "pending" 21 30 5))
      "Reservation retrieved successfully" None.
Proof.
  refine (proj1 (X5_create_then_lookup 5 Scenario.id2 (Scenario.request 21 30)
            [Scenario.reservation Scenario.id1 "confirmed" 10 20]
            (Scenario.created Scenario.id2 "pending" 21 30 5)
            "Reservation created successfully" (Some 201) _ _)
            Scenario.id2 _ _).
  - compute_done.
  - vm_compute. reflexivity.
  - compute_done.
Defined.

(** ** Create and the availability check *)

(** X6. [createReservation] and [checkAvailability] agree: for a request
    with a well-formed room id and dates, the create is answered 409
    exactly when the availability check for the same room and dates
    answers [available = false]. *)
Theorem X6_create_agrees_with_availability (now : Z) (fresh : string)
    (rq : Obj) (db : list Obj) (roomStr : string) (ci co : Z) :
  rq !! "roomId" = Some (VString roomStr) ->
  ObjectId.isValid roomStr = true ->
  truthy (rq !! "checkInDate") = true ->
  truthy (rq !! "checkOutDate") = true ->
  toDate (rq !! "checkInDate") = Some ci ->
  toDate (rq !! "checkOutDate") = Some co ->
  exists available conflicting,
    checkAvailability rq db
    = success (Availability available (rq !! "roomId") (rq !! "checkInDate")
                 (rq !! "checkOutDate") conflicting)
        "Availability checked successfully" None
    /\ (available = false
        <-> fst (createReservation now fresh rq db) = notAvailable).
Proof.
  intros Hroom Hid Hti Hto Hci Hco.
  unfold checkAvailability, createReservation, castFilter.
  rewrite Hti, Hto, Hroom, (isValid_truthy _ Hid), Hid, Hci, Hco.
  cbn [negb orb castValue ObjectId.ofString]. rewrite Hid. cbv iota beta.
  destruct (findOne _ db) as [d|].
  - by eexists _, _.
  - eexists _, _. split; [done|]. split; [discriminate|].
    destruct (save now (new fresh rq) db) as [?|[? ?]]; discriminate.
Qed.

Lemma X6_witness :
  exists available conflicting,
    checkAvailability (Scenario.request 20 30)
      [Scenario.reservation Scenario.id1 "confirmed" 10 20]
    = success (Availability available
                 (Scenario.request 20 30 !! "roomId")
                 (Scenario.request 20 30 !! "checkInDate")
                 (Scenario.request 20 30 !! "checkOutDate") conflicting)
        "Availability checked successfully" None
    /\ (available = false
        <-> fst (createReservation 5 Scenario.id2 (Scenario.request 20 30)
                   [Scenario.reservation Scenario.id1 "confirmed" 10 20])
            = notAvailable).
Proof.
  apply (X6_create_agrees_with_availability 5 Scenario.id2
           (Scenario.request 20 30)
           [Scenario.reservation Scenario.id1 "confirmed" 10 20]
           Scenario.room 20 30); compute_done.
Defined.

(** What the availability query of a successful create was asked, in
    terms of the stored reservation. *)
Lemma create_success_query (now : Z) (fresh : string) (body : Obj)
    (db : list Obj) (saved : Obj) (m : string) (c : option Z) (db' : list Obj) :
  createReservation now fresh body db
  = (success (Document (Some saved)) m c, db') ->
  exists ci co,
    saved !! "checkInDate" = Some (VDate ci)
    /\ saved !! "checkOutDate" = Some (VDate co)
    /\ is_Some (saved !! "roomId")
    /\ forall d, d ∈ db ->
         conflictFilter None (saved !! "roomId") co ci d = false.
Proof.
  unfold createReservation.
  destruct (castFilter _ _ _) as [?|[[room co] ci]] eqn:Hcast; [discriminate|].
  destruct (findOne _ db) eqn:Hfind; [discriminate|].
  destruct (save now (new fresh body) db) as [?|[saved' db'']] eqn:Hsave;
    [discriminate|].
  intros [= -> <- <- <-].
  destruct (save_query _ _ _ _ _ _ _ _ _ Hcast Hsave)
    as (Hsome & Hroom & Hci & Hco).
  rewrite findOne_None in Hfind. exists ci, co. rewrite Hroom.
  by repeat split.
Qed.

(** X7. A create never stores a stay that meets a confirmed one: when
    the create succeeds, every confirmed reservation already stored for the
    room of the new one ends before the new check-in or begins after the
    new check-out. *)
Theorem X7_created_stay_meets_no_confirmed_stay (now : Z) (fresh : string)
    (body : Obj) (db : list Obj) (saved : Obj) (m : string) (c : option Z)
    (db' : list Obj) (d : Obj) (s e : Z) :
  createReservation now fresh body db
  = (success (Document (Some saved)) m c, db') ->
  d ∈ db ->
  d !! "roomId" = saved !! "roomId" ->
  d !! "status" = Some (VString ReservationStatus.CONFIRMED) ->
  d !! "checkInDate" = Some (VDate s) ->
  d !! "checkOutDate" = Some (VDate e) ->
  exists ci co,
    saved !! "checkInDate" = Some (VDate ci)
    /\ saved !! "checkOutDate" = Some (VDate co)
    /\ (e < ci \/ co < s).
Proof.
  intros Hcreate Hd Hroom Hst Hs He.
  apply create_success_query in Hcreate as (ci & co & Hci & Hco & _ & Hno).
  exists ci, co. split; [done|]. split; [done|].
  specialize (Hno d Hd).
  destruct (decide (e < ci \/ co < s)) as [|Hmeet]; [done|].
  assert (conflictFilter None (saved !! "roomId") co ci d = true);
    [|congruence].
  apply conflictFilter_true. split; [done|]. split; [by left|].
  exists s, e. repeat split; try done; lia.
Qed.

Lemma X7_witness :
  exists ci co,
    Scenario.created Scenario.id2 "pending" 21 30 5 !! "checkInDate"
    = Some (VDate ci)
    /\ Scenario.created Scenario.id2 "pending" 21 30 5 !! "checkOutDate"
       = Some (VDate co)
    /\ (20 < ci \/ co < 10).
Proof.
  apply (X7_created_stay_meets_no_confirmed_stay 5 Scenario.id2
           (Scenario.request 21 30)
           [Scenario.reservation Scenario.id1 "confirmed" 10 20]
           (Scenario.created Scenario.id2 "pending" 21 30 5)
           "Reservation created successfully" (Some 201)
           [Scenario.reservation Scenario.id1 "confirmed" 10 20;
            Scenario.created Scenario.id2 "pending" 21 30 5]
           (Scenario.reservation Scenario.id1 "confirmed" 10 20) 10 20);
    compute_done.
Defined.

(** ** Strict mode on create *)

Lemma new_lookup_other (fresh : string) (data : Obj) (p : string) :
  p ∉ paths.*1 -> (new fresh data).1 !! p = None.
Proof.
  intros Hp. unfold new.
  pose proof (castPaths_lookup_other paths data p Hp) as Hl.
  destruct (castPaths paths data) as [doc errs]. simpl in Hl.
  assert (p <> "specialRequests" /\ p <> "_id" /\ p <> "status")
    as (? & ? & ?).
  { repeat split; intros ->; apply Hp; compute_done. }
  assert (Hset : applySetters doc !! p = None).
  { unfold applySetters. destruct (doc !! "specialRequests") as [[]|]; try done.
    by rewrite lookup_insert_ne. }
  destruct (data !! "_id"), (data !! "status"); simpl;
    by rewrite ?lookup_insert_ne.
Qed.

(** X8. A stored reservation has no field outside the schema: whatever
    else the request carries (the [isActive], [paymentStatus] and [notes]
    that the request schema of the route accepts, for instance) is not
    stored by a create. *)
Theorem X8_create_stores_schema_fields_only (now : Z) (fresh : string)
    (body : Obj) (db : list Obj) (saved : Obj) (m : string) (c : option Z)
    (db' : list Obj) (p : string) :
  createReservation now fresh body db
  = (success (Document (Some saved)) m c, db') ->
  p ∉ paths.*1 ->
  saved !! p = None.
Proof.
  unfold createReservation.
  destruct (castFilter _ _ _) as [?|[[? ?] ?]]; [discriminate|].
  destruct (findOne _ db); [discriminate|].
  destruct (save now (new fresh body) db) as [?|[saved' db'']] eqn:Hsave;
    [discriminate|].
  intros [= -> <- <- <-] Hp.
  pose proof (new_lookup_other fresh body p Hp) as Hl.
  destruct (new fresh body) as [doc errs]. simpl in Hl.
  apply save_inr in Hsave as (_ & _ & _ & Hsaved).
  rewrite Hsaved; [done| |]; intros ->; apply Hp; compute_done.
Qed.

Lemma X8_witness :
  Scenario.created Scenario.id2 "pending" 21 30 5 !! "isActive" = None.
Proof.
  apply (X8_create_stores_schema_fields_only 5 Scenario.id2
           (<["isActive" := VBool true]> (Scenario.request 21 30)) []
           (Scenario.created Scenario.id2 "pending" 21 30 5)
           "Reservation created successfully" (Some 201)
           [Scenario.created Scenario.id2 "pending" 21 30 5] "isActive").
  - compute_done.
  - apply (bool_decide_unpack _). vm_compute. exact I.
Defined.

(** ** Sequences of lifecycle calls *)

Lemma findById_updateOne (id : Value) (set : Obj) (db : list Obj) (r : Obj) :
  findById id db = Some r ->
  set !! "_id" = None ->
  findById id (updateOne id set db).2 = Some (set ∪ r).
Proof.
  unfold findById, findOne. intros Hr Hset.
  induction db as [|d db IH]; simpl in *; [done|].
  destruct (hasId (Some id) d) eqn:Hd.
  - simplify_eq. simpl.
    assert (hasId (Some id) (set ∪ r) = true) as ->; [|done].
    unfold hasId in *. apply bool_decide_eq_true in Hd.
    apply bool_decide_eq_true. by rewrite lookup_union, Hset, (left_id_L None _).
  - specialize (IH Hr). destruct (updateOne id set db) as [r' rest].
    simpl in *. by rewrite Hd.
Qed.

Lemma confirm_store (now : Z) (id : string) (db : list Obj) (r : Obj) :
  ObjectId.isValid id = true ->
  findById (ObjectId.ofString id) db = Some r ->
  r !! "status" = Some (VString ReservationStatus.PENDING) ->
  findById (ObjectId.ofString id) (snd (confirmReservation now id db))
  = Some (<["status" := VString ReservationStatus.CONFIRMED]>
            (<["updatedAt" := VDate now]> r)).
Proof.
  intros Hid Hr Hst. unfold confirmReservation, findByIdAndUpdate.
  rewrite Hid, Hr. simpl negb. cbv iota.
  rewrite bool_decide_true by done. simpl negb. cbv iota.
  rewrite confirm_update.
  rewrite (surjective_pairing (updateOne _ _ db)). simpl.
  rewrite <- (union_two_fields _ _ _ _ r). by apply findById_updateOne.
Qed.

Lemma cancel_store (now : Z) (id : string) (body : Obj) (db : list Obj)
    (r : Obj) :
  ObjectId.isValid id = true ->
  findById (ObjectId.ofString id) db = Some r ->
  includes ["cancelled"; "checked-out"] (r !! "status") = false ->
  findById (ObjectId.ofString id) (snd (cancelReservation now id body db))
  = Some (<["status" := VString ReservationStatus.CANCELLED]>
            (<["updatedAt" := VDate now]> r)).
Proof.
  intros Hid Hr Hst. unfold cancelReservation, findByIdAndUpdate.
  rewrite Hid, Hr. simpl negb. cbv iota. rewrite Hst, cancel_update.
  rewrite (surjective_pairing (updateOne _ _ db)). simpl.
  rewrite <- (union_two_fields _ _ _ _ r). by apply findById_updateOne.
Qed.

(** X9. A cancelled reservation can be neither confirmed nor cancelled
    again: after a cancel that went through, a confirm of the same
    reservation is answered 400 "Only pending reservations can be
    confirmed" and a second cancel 400 "Reservation is already cancelled or
    completed"; neither writes. *)
Theorem X9_after_cancel_no_confirm_no_cancel (now now' : Z) (id : string)
    (body body' : Obj) (db : list Obj) (r : Obj) :
  ObjectId.isValid id = true ->
  findById (ObjectId.ofString id) db = Some r ->
  includes ["cancelled"; "checked-out"] (r !! "status") = false ->
  let db' := snd (cancelReservation now id body db) in
  confirmReservation now' id db'
  = (error (Message "Only pending reservations can be confirmed") 400, db')
  /\ cancelReservation now' id body' db'
     = (error (Message "Reservation is already cancelled or completed") 400,
        db').
Proof.
  intros Hid Hr Hst db'.
  pose proof (cancel_store now id body db r Hid Hr Hst) as Hr'.
  fold db' in Hr'. unfold confirmReservation, cancelReservation.
  rewrite Hid, Hr'. simpl negb. cbv iota. rewrite lookup_insert_eq.
  split; [by rewrite bool_decide_false|done].
Qed.

Lemma X9_witness :
  let db' := snd (cancelReservation 5 Scenario.id1
                    {["reason" := VString "guest request"]}
                    [Scenario.reservation Scenario.id1 "pending" 10 20]) in
  confirmReservation 6 Scenario.id1 db'
  = (error (Message "Only pending reservations can be confirmed") 400, db')
  /\ cancelReservation 6 Scenario.id1 ∅ db'
     = (error (Message "Reservation is already cancelled or completed") 400,
        db').
Proof.
  apply (X9_after_cancel_no_confirm_no_cancel 5 6 Scenario.id1
           {["reason" := VString "guest request"]} ∅
           [Scenario.reservation Scenario.id1 "pending" 10 20]
           (Scenario.reservation Scenario.id1 "pending" 10 20));
    compute_done.
Defined.

(** X10. A confirmed reservation can be neither confirmed again nor
    deleted: after a confirm that went through, a second confirm is
    answered 400 "Only pending reservations can be confirmed" and a
    delete 400 "Only cancelled or pending reservations can be deleted";
    neither writes. *)
Theorem X10_after_confirm_no_confirm_no_delete (now now' : Z) (id : string)
    (body : Obj) (db : list Obj) (r : Obj) :
  ObjectId.isValid id = true ->
  findById (ObjectId.ofString id) db = Some r ->
  r !! "status" = Some (VString ReservationStatus.PENDING) ->
  let db' := snd (confirmReservation now id db) in
  confirmReservation now' id db'
  = (error (Message "Only pending reservations can be confirmed") 400, db')
  /\ deleteReservation now' id body db'
     = (error (Message "Only cancelled or pending reservations can be deleted")
          400, db').
Proof.
  intros Hid Hr Hst db'.
  pose proof (confirm_store now id db r Hid Hr Hst) as Hr'.
  fold db' in Hr'. unfold confirmReservation, deleteReservation.
  rewrite Hid, Hr'. simpl negb. cbv iota. rewrite lookup_insert_eq.
  split; [by rewrite bool_decide_false|done].
Qed.

Lemma X10_witness :
  let db' := snd (confirmReservation 5 Scenario.id1
                    [Scenario.reservation Scenario.id1 "pending" 10 20]) in
  confirmReservation 6 Scenario.id1 db'
  = (error (Message "Only pending reservations can be confirmed") 400, db')
  /\ deleteReservation 6 Scenario.id1 ∅ db'
     = (error (Message "Only cancelled or pending reservations can be deleted")
          400, db').
Proof.
  apply (X10_after_confirm_no_confirm_no_delete 5 6 Scenario.id1 ∅
           [Scenario.reservation Scenario.id1 "pending" 10 20]
           (Scenario.reservation Scenario.id1 "pending" 10 20));
    compute_done.
Defined.

(** ** Status updates *)

(** X11. The generic status update checks no transition: [pending],
    [confirmed] and [cancelled] are written over any current status (a
    checked-out reservation can be set back to pending), and only [status]
    and [updatedAt] of the stored reservation change. *)
Theorem X11_status_update_ignores_current_status (now : Z) (id : string)
    (body : Obj) (db : list Obj) (r : Obj) (s : string) :
  ObjectId.isValid id = true ->
  body !! "status" = Some (VString s) ->
  s ∈ [ReservationStatus.PENDING; ReservationStatus.CONFIRMED;
       ReservationStatus.CANCELLED] ->
  findById (ObjectId.ofString id) db = Some r ->
  exists l1 l2 r',
    db = l1 ++ r :: l2
    /\ r' = <["status" := VString s]> (<["updatedAt" := VDate now]> r)
    /\ updateReservationStatus now id body db
       = (success (Document (Some r'))
            "Reservation status updated successfully" None, l1 ++ r' :: l2).
Proof. apply updateStatus_accepts. Qed.

Lemma X11_witness :
  exists l1 l2 r',
    [Scenario.reservation Scenario.id1 "checked_out" 10 20]
    = l1 ++ Scenario.reservation Scenario.id1 "checked_out" 10 20 :: l2
    /\ r' = <["status" := VString "pending"]>
              (<["updatedAt" := VDate 30]>
                 (Scenario.reservation Scenario.id1 "checked_out" 10 20))
    /\ updateReservationStatus 30 Scenario.id1 {["status" := VString "pending"]}
         [Scenario.reservation Scenario.id1 "checked_out" 10 20]
       = (success (Document (Some r'))
            "Reservation status updated successfully" None, l1 ++ r' :: l2).
Proof.
  apply (X11_status_update_ignores_current_status 30 Scenario.id1
           {["status" := VString "pending"]}
           [Scenario.reservation Scenario.id1 "checked_out" 10 20]
           (Scenario.reservation Scenario.id1 "checked_out" 10 20) "pending");
    compute_done.
Defined.

(** X12. The spellings ['checked-in'], ['checked-out'] and ['no-show'],
    which the status update admits, are refused by the enum of the schema
    when the update validators run: the handler answers 500 with the
    validation error of [status] and nothing is written. *)
Theorem X12_hyphenated_status_refused_by_schema (now : Z) (id : string)
    (body : Obj) (db : list Obj) (s : string) :
  ObjectId.isValid id = true ->
  body !! "status" = Some (VString s) ->
  s ∈ ["checked-in"; "checked-out"; "no-show"] ->
  updateReservationStatus now id body db
  = (error (Caught (ValidationError
                      [("status", "Not a valid enum value for path `status`.")]))
           500, db).
Proof. apply updateStatus_hyphenated. Qed.

Lemma X12_witness :
  updateReservationStatus 5 Scenario.id1 {["status" := VString "checked-in"]}
    [Scenario.reservation Scenario.id1 "confirmed" 10 20]
  = (error (Caught (ValidationError
                      [("status", "Not a valid enum value for path `status`.")]))
           500, [Scenario.reservation Scenario.id1 "confirmed" 10 20]).
Proof.
  apply (X12_hyphenated_status_refused_by_schema 5 Scenario.id1
           {["status" := VString "checked-in"]} _ "checked-in");
    compute_done.
Defined.

(** X13. The delete guard: a reservation stored as confirmed, checked in,
    checked out or no-show is not deleted; the answer is 400 "Only
    cancelled or pending reservations can be deleted" and the collection
    is unchanged. *)
Theorem X13_delete_refuses_other_statuses (now : Z) (id : string) (body : Obj)
    (db : list Obj) (r : Obj) (s : string) :
  ObjectId.isValid id = true ->
  findById (ObjectId.ofString id) db = Some r ->
  r !! "status" = Some (VString s) ->
  s ∈ [ReservationStatus.CONFIRMED; ReservationStatus.CHECKED_IN;
       ReservationStatus.CHECKED_OUT; ReservationStatus.NO_SHOW] ->
  deleteReservation now id body db
  = (error (Message "Only cancelled or pending reservations can be deleted") 400,
     db).
Proof.
  intros Hid Hr Hst Hs. apply (delete_refused now id body db r Hid Hr).
  rewrite Hst.
  repeat (apply elem_of_cons in Hs as [->|Hs]); try done.
  by apply elem_of_nil in Hs.
Qed.

Lemma X13_witness :
  deleteReservation 5 Scenario.id1 ∅
    [Scenario.reservation Scenario.id1 "checked_in" 10 20]
  = (error (Message "Only cancelled or pending reservations can be deleted") 400,
     [Scenario.reservation Scenario.id1 "checked_in" 10 20]).
Proof.
  apply (X13_delete_refuses_other_statuses 5 Scenario.id1 ∅
           [Scenario.reservation Scenario.id1 "checked_in" 10 20]
           (Scenario.reservation Scenario.id1 "checked_in" 10 20) "checked_in");
    compute_done.
Defined.

(** ** Update validators *)

Lemma validateUpdate_reports (now : Z) (set : Obj) (p : string)
    (t : SchemaType) (v : Value) :
  (p, t) ∈ paths ->
  set !! p = Some v ->
  validatePath ∅ now p v <> [] ->
  validateUpdate now set <> [].
Proof.
  intros Hp Hv Hm H. unfold validateUpdate in H.
  pose proof (flat_map_nil _ _ _ H Hp) as Hf. simpl in Hf. rewrite Hv in Hf.
  by destruct (validatePath ∅ now p v).
Qed.

(** An update is thrown out when one of its schema paths, other than
    [createdAt], [updatedAt] and [specialRequests], carries a value that
    fails to cast or fails a validator run without the document. *)
Lemma castUpdate_refuses (now : Z) (id : Value) (update : Obj) (p : string)
    (t : SchemaType) (v : Value) :
  (p, t) ∈ paths ->
  p <> "createdAt" -> p <> "updatedAt" -> p <> "specialRequests" ->
  update !! p = Some v ->
  (forall v', castValue t v = Some v' -> validatePath ∅ now p v' <> []) ->
  exists e, castUpdate now id update = inl e.
Proof.
  intros Hp Hc Hu Hs Hv Hm. unfold castUpdate.
  set (update' := <["updatedAt" := VDate now]> (delete "createdAt" update)).
  assert (Hv' : update' !! p = Some v).
  { unfold update'. by rewrite lookup_insert_ne, lookup_delete_ne. }
  pose proof (castPaths_lookup paths update' p t paths_NoDup Hp) as Hl.
  pose proof (castPaths_errors_complete paths update' p t v Hp Hv') as He.
  destruct (castPaths paths update') as [set0 errs]. simpl in Hl, He.
  destruct errs as [|q errs]; [|by eexists].
  rewrite Hv' in Hl. simpl in Hl.
  destruct (castValue t v) as [v'|]; [|by apply elem_of_nil in He].
  assert (Hset : applySetters set0 !! p = Some v').
  { unfold applySetters.
    destruct (set0 !! "specialRequests") as [[]|];
      by rewrite ?lookup_insert_ne by done. }
  pose proof (validateUpdate_reports now _ p t v' Hp Hset (Hm v' eq_refl))
    as Hin.
  destruct (validateUpdate now (applySetters set0)); [done|].
  by eexists.
Qed.

Lemma paths_depositAmount : ("depositAmount", TNumber) ∈ paths.
Proof. compute_done. Qed.

Lemma updateGuard_error (id : Value) (updateData : Obj) (db : list Obj)
    (response : Response) :
  updateGuard id updateData db = Some response -> isSuccess response = false.
Proof.
  unfold updateGuard. destruct (_ || _); [|discriminate].
  destruct (findById id db); [|by intros [= <-]].
  destruct (castFilter _ _ _) as [?|[[? ?] ?]]; [by intros [= <-]|].
  destruct (findOne _ db); [by intros [= <-]|discriminate].
Qed.

(** X14. The validators of [checkOutDate] and [depositAmount] compare
    with another field of the document; under [findByIdAndUpdate] they run
    without the document, where that field is [undefined], and fail.  So an
    update that carries a [checkOutDate], or a number other than zero as
    [depositAmount], is never applied: the answer is an error and the
    collection is unchanged. *)
Theorem X14_update_cannot_set_checkOutDate_or_deposit (now : Z) (id : string)
    (body : Obj) (db : list Obj) :
  is_Some (body !! "checkOutDate")
  \/ (exists n, body !! "depositAmount" = Some (VNumber n) /\ n <> 0) ->
  isSuccess (fst (updateReservation now id body db)) = false
  /\ snd (updateReservation now id body db) = db.
Proof.
  intros Hbody.
  assert (Hcast : exists e,
             castUpdate now (ObjectId.ofString id)
               (<["updatedAt" := VDate now]> body) = inl e).
  { destruct Hbody as [[v Hv]|(n & Hv & Hn)].
    - apply (castUpdate_refuses now _ _ "checkOutDate" TDate v);
        [apply paths_checkOutDate|done..| |].
      + by rewrite lookup_insert_ne.
      + intros v' Hv'.
        assert (exists t, v' = VDate t) as [t ->].
        { destruct v; simpl in Hv'; try discriminate.
          - destruct (timeClip n); simpl in Hv'; [|discriminate].
            injection Hv' as <-. eauto.
          - injection Hv' as <-. eauto. }
        unfold validatePath, checkOutDate_validator. simpl.
        by rewrite lookup_empty.
    - apply (castUpdate_refuses now _ _ "depositAmount" TNumber (VNumber n));
        [apply paths_depositAmount|done..| |].
      + by rewrite lookup_insert_ne.
      + intros v' [= <-].
        unfold validatePath, depositAmount_validator. simpl.
        rewrite lookup_empty.
        assert ((n =? 0) = false) as -> by by apply Z.eqb_neq.
        simpl. by destruct (0 <=? n). }
  destruct Hcast as [e He].
  unfold updateReservation, findByIdAndUpdate.
  destruct (negb _); [done|].
  destruct (updateGuard _ _ _) as [response|] eqn:Hg; [|by rewrite He].
  split; [|done]. by apply updateGuard_error in Hg.
Qed.

Lemma X14_witness :
  isSuccess (fst (updateReservation 5 Scenario.id1
                    {["depositAmount" := VNumber 50]}
                    [Scenario.reservation Scenario.id1 "pending" 10 20]))
  = false
  /\ snd (updateReservation 5 Scenario.id1 {["depositAmount" := VNumber 50]}
            [Scenario.reservation Scenario.id1 "pending" 10 20])
     = [Scenario.reservation Scenario.id1 "pending" 10 20].
Proof.
  apply (X14_update_cannot_set_checkOutDate_or_deposit 5 Scenario.id1
           {["depositAmount" := VNumber 50]}
           [Scenario.reservation Scenario.id1 "pending" 10 20]).
  right. exists 50. split; [compute_done|lia].
Defined.

(** ** The virtual fields of a stored reservation *)

Lemma ceilDiv_spec (a b : Z) :
  0 < b -> b * (ceilDiv a b - 1) < a <= b * ceilDiv a b.
Proof.
  intros Hb. unfold ceilDiv.
  pose proof (Z.div_mod (- a) b ltac:(lia)).
  pose proof (Z.mod_pos_bound (- a) b Hb). nia.
Qed.

Lemma paths_totalAmount : ("totalAmount", TNumber) ∈ paths.
Proof. compute_done. Qed.

Lemma validatePath_totalAmount (this : Obj) (now : Z) (v : Value) :
  validatePath this now "totalAmount" v = [] ->
  exists total, v = VNumber total /\ 0 <= total.
Proof.
  unfold validatePath. intros [_ H]%app_eq_nil. apply check_nil in H.
  destruct v; try discriminate. eexists. split; [done|].
  by apply Z.leb_le in H.
Qed.

Lemma validatePath_depositAmount (this : Obj) (now : Z) (v : Value) :
  validatePath this now "depositAmount" v = [] ->
  exists deposit,
    v = VNumber deposit /\ 0 <= deposit
    /\ (deposit = 0
        \/ exists total, this !! "totalAmount" = Some (VNumber total)
                         /\ deposit <= total).
Proof.
  unfold validatePath. intros [_ H]%app_eq_nil. simpl in H.
  apply app_eq_nil in H as [Hmin Hval]. apply check_nil in Hmin, Hval.
  destruct v as [|deposit| | |]; try discriminate.
  exists deposit. split; [done|]. split; [by apply Z.leb_le in Hmin|].
  unfold depositAmount_validator in Hval. simpl in Hval.
  apply orb_true_iff in Hval as [Hz|Hle].
  - left. apply negb_true_iff, negb_false_iff in Hz. by apply Z.eqb_eq in Hz.
  - right. destruct (this !! "totalAmount") as [[|total| | |]|];
      try discriminate.
    exists total. split; [done|]. by apply Z.leb_le in Hle.
Qed.

(** X15. The [duration] of a reservation stored by a create is at least
    one day, and is the number of days of the stay rounded up: with [n]
    the duration, the stay is longer than [n - 1] days and at most [n]
    days. *)
Theorem X15_duration_of_created_reservation (now : Z) (fresh : string)
    (body : Obj) (db : list Obj) (saved : Obj) (m : string) (c : option Z)
    (db' : list Obj) :
  createReservation now fresh body db
  = (success (Document (Some saved)) m c, db') ->
  exists ci co,
    saved !! "checkInDate" = Some (VDate ci)
    /\ saved !! "checkOutDate" = Some (VDate co)
    /\ 1 <= duration saved
    /\ 86400000 * (duration saved - 1) < co - ci <= 86400000 * duration saved.
Proof.
  unfold createReservation.
  destruct (castFilter _ _ _) as [?|[[? ?] ?]]; [discriminate|].
  destruct (findOne _ db); [discriminate|].
  destruct (save now (new fresh body) db) as [?|[saved' db'']] eqn:Hsave;
    [discriminate|].
  intros [= -> <- <- <-].
  apply create_saved in Hsave
    as (_ & _ & _ & _ & _ & ci & co & Hci & Hco & _ & Hlt).
  exists ci, co. split; [done|]. split; [done|].
  unfold duration. rewrite Hci, Hco. cbv zeta.
  replace (1000 * 60 * 60 * 24) with 86400000 by done.
  rewrite Z.abs_eq by lia.
  pose proof (ceilDiv_spec (co - ci) 86400000 ltac:(lia)). lia.
Qed.

Lemma X15_witness :
  exists ci co,
    Scenario.created Scenario.id2 "pending" 21 30 5 !! "checkInDate"
    = Some (VDate ci)
    /\ Scenario.created Scenario.id2 "pending" 21 30 5 !! "checkOutDate"
       = Some (VDate co)
    /\ 1 <= duration (Scenario.created Scenario.id2 "pending" 21 30 5)
    /\ 86400000 * (duration (Scenario.created Scenario.id2 "pending" 21 30 5) - 1)
       < co - ci
       <= 86400000 * duration (Scenario.created Scenario.id2 "pending" 21 30 5).
Proof.
  apply (X15_duration_of_created_reservation 5 Scenario.id2
           (Scenario.request 21 30) []
           (Scenario.created Scenario.id2 "pending" 21 30 5)
           "Reservation created successfully" (Some 201)
           [Scenario.created Scenario.id2 "pending" 21 30 5]).
  compute_done.
Defined.

(** X16. For a reservation stored by a create whose total amount is at
    most [maxExact], the [remainingBalance] is the total amount less the
    deposit (zero when none is stored), the deposit being between zero and
    the total amount: the balance is a number between zero and the total
    amount. *)
Theorem X16_remainingBalance_of_created_reservation (now : Z) (fresh : string)
    (body : Obj) (db : list Obj) (saved : Obj) (m : string) (c : option Z)
    (db' : list Obj) (total : Z) :
  createReservation now fresh body db
  = (success (Document (Some saved)) m c, db') ->
  saved !! "totalAmount" = Some (VNumber total) ->
  total <= maxExact ->
  exists deposit,
    (saved !! "depositAmount" = Some (VNumber deposit)
     \/ saved !! "depositAmount" = None /\ deposit = 0)
    /\ 0 <= deposit <= total
    /\ remainingBalance saved = Some (total - deposit)
    /\ 0 <= total - deposit <= total.
Proof.
  unfold createReservation.
  destruct (castFilter _ _ _) as [?|[[? ?] ?]]; [discriminate|].
  destruct (findOne _ db); [discriminate|].
  destruct (new fresh body) as [doc errs].
  destruct (save now (doc, errs) db) as [?|[saved' db'']] eqn:Hsave;
    [discriminate|].
  intros [= -> <- <- <-] Htotal _.
  apply save_inr in Hsave as (Hval & _ & _ & Hsaved).
  destruct (validateDocument_nil now doc errs _ _ Hval paths_totalAmount)
    as [_ Hvt].
  destruct (validateDocument_nil now doc errs _ _ Hval paths_depositAmount)
    as [_ Hvd].
  unfold remainingBalance. rewrite Hsaved in Htotal by done.
  rewrite !Hsaved by done. rewrite Htotal in *.
  apply validatePath_totalAmount in Hvt as (total' & [= <-] & Hpos).
  destruct (doc !! "depositAmount") as [vd|] eqn:Hd.
  - apply validatePath_depositAmount
      in Hvd as (deposit & -> & Hdep & [->|(total' & Ht' & Hle)]).
    + exists 0. simpl. repeat split; auto; lia.
    + rewrite Htotal in Ht'. injection Ht' as <-. exists deposit.
      unfold js_or. simpl.
      destruct (deposit =? 0) eqn:Hz; simpl.
      * apply Z.eqb_eq in Hz. subst. repeat split; auto; lia.
      * repeat split; auto; lia.
  - exists 0. simpl. repeat split; auto; lia.
Qed.

Lemma X16_witness :
  exists deposit,
    (Scenario.created Scenario.id2 "pending" 21 30 5 !! "depositAmount"
     = Some (VNumber deposit)
     \/ Scenario.created Scenario.id2 "pending" 21 30 5 !! "depositAmount"
        = None /\ deposit = 0)
    /\ 0 <= deposit <= 100
    /\ remainingBalance (Scenario.created Scenario.id2 "pending" 21 30 5)
       = Some (100 - deposit)
    /\ 0 <= 100 - deposit <= 100.
Proof.
  apply (X16_remainingBalance_of_created_reservation 5 Scenario.id2
           (Scenario.request 21 30) []
           (Scenario.created Scenario.id2 "pending" 21 30 5)
           "Reservation created successfully" (Some 201)
           [Scenario.created Scenario.id2 "pending" 21 30 5] 100).
  - compute_done.
  - compute_done.
  - vm_compute. discriminate.
Defined.

(** * Properties of the housekeeping task handlers *)

Import HousekeepingTaskController.

(** ** Models over a schema *)

Section ModelFacts.

Variable S : Schema.
Hypothesis paths_NoDup : NoDup ((schemaPaths S).*1).

Lemma schema_type (p : string) (t u : SchemaType) :
  (p, t) ∈ schemaPaths S -> (p, u) ∈ schemaPaths S -> t = u.
Proof.
  revert paths_NoDup. generalize (schemaPaths S).
  induction l as [|[q w] l IH]; intros Hnd Ht Hu.
  { by apply elem_of_nil in Ht. }
  apply NoDup_cons in Hnd as [Hq Hnd]. simpl in Hq.
  apply elem_of_cons in Ht as [[= -> ->]|Ht];
    apply elem_of_cons in Hu as [[= <-]|Hu]; subst; try done.
  - destruct Hq. apply list_elem_of_fmap. eexists (_, _). by split; [|eassumption].
  - destruct Hq. apply list_elem_of_fmap. eexists (_, _). by split; [|eassumption].
  - by apply IH.
Qed.

Lemma applyTrim_lookup_other (o : Obj) (p : string) :
  p ∉ schemaTrim S -> Model.applyTrim S o !! p = o !! p.
Proof.
  unfold Model.applyTrim. induction (schemaTrim S) as [|q l IH]; simpl; [done|].
  intros [Hpq Hp]%not_elem_of_cons. specialize (IH Hp).
  destruct (foldr _ o l !! q) as [[]|]; try done.
  by rewrite lookup_insert_ne.
Qed.

Lemma applyTrim_lookup_None (o : Obj) (p : string) :
  o !! p = None -> Model.applyTrim S o !! p = None.
Proof.
  unfold Model.applyTrim. induction (schemaTrim S) as [|q l IH]; simpl; [done|].
  intros Hp. specialize (IH Hp).
  destruct (foldr _ o l !! q) as [[]|] eqn:E; try done.
  destruct (decide (q = p)) as [->|]; [congruence|].
  by rewrite lookup_insert_ne.
Qed.

(** What an update is once [castUpdate] has let it through. *)
Lemma castUpdate_inr (now : Z) (id : Value) (update set : Obj) :
  Model.castUpdate S now id update = inr set ->
  (forall p t, (p, t) ∈ schemaPaths S -> p ∉ schemaTrim S ->
               p <> "createdAt" -> p <> "updatedAt" ->
               set !! p = update !! p ≫= castValue t)
  /\ (forall p, p ∉ (schemaPaths S).*1 -> p <> "updatedAt" -> set !! p = None)
  /\ (("updatedAt", TDate) ∈ schemaPaths S -> "updatedAt" ∉ schemaTrim S ->
      set !! "updatedAt" = Some (VDate now))
  /\ (set !! "_id" = None \/ set !! "_id" = Some id)
  /\ (forall p t v, (p, t) ∈ schemaPaths S -> set !! p = Some v ->
                    Model.validateValue S p v = [])
  /\ set !! "createdAt" = None
  /\ (forall p t v, (p, t) ∈ schemaPaths S ->
                    p <> "createdAt" -> p <> "updatedAt" ->
                    update !! p = Some v ->
                    is_Some (castValue t v))
  /\ (forall p, update !! p = None -> p <> "updatedAt" -> set !! p = None).
Proof.
  unfold Model.castUpdate.
  set (update' := <["updatedAt" := VDate now]> (delete "createdAt" update)).
  assert (Hup : forall p, p <> "createdAt" -> p <> "updatedAt" ->
                          update' !! p = update !! p).
  { intros p ? ?. unfold update'.
    by rewrite lookup_insert_ne, lookup_delete_ne. }
  assert (Hcr : update' !! "createdAt" = None).
  { unfold update'. rewrite lookup_insert_ne by done. apply lookup_delete_eq. }
  pose proof (castPaths_errors_complete (schemaPaths S) update') as He.
  pose proof (castPaths_lookup (schemaPaths S) update') as Hl.
  pose proof (castPaths_lookup_other (schemaPaths S) update') as Ho.
  destruct (castPaths (schemaPaths S) update') as [set0 errs].
  simpl in Hl, Ho, He.
  destruct errs; [|discriminate].
  set (set1 := Model.applyTrim S set0).
  destruct (Model.validateUpdate S set1) eqn:Hval; [|discriminate].
  intros Hset.
  assert (set = set1 /\ (set1 !! "_id" = None \/ set1 !! "_id" = Some id))
    as [-> Hid].
  { destruct (set1 !! "_id") as [id'|] eqn:E; [|by simplify_eq; auto].
    case_bool_decide; simplify_eq. auto. }
  assert (Hnone : forall p, update' !! p = None -> set1 !! p = None).
  { intros p Hp. unfold set1. apply applyTrim_lookup_None.
    destruct (decide (p ∈ (schemaPaths S).*1)) as [Hin|Hin]; [|by apply Ho].
    apply list_elem_of_fmap in Hin as [[q t] [Hq Hin]]. simpl in Hq. subst q.
    by rewrite (Hl _ _ paths_NoDup Hin), Hp. }
  repeat split.
  - intros p t Hp Htrim Hc Hu. unfold set1.
    rewrite applyTrim_lookup_other by done.
    rewrite (Hl _ _ paths_NoDup Hp). by rewrite Hup.
  - intros p Hp Hu. unfold set1. apply applyTrim_lookup_None. by apply Ho.
  - intros Hp Htrim. unfold set1. rewrite applyTrim_lookup_other by done.
    rewrite (Hl _ _ paths_NoDup Hp). unfold update'.
    by rewrite lookup_insert_eq.
  - done.
  - intros p t v Hp Hv. unfold Model.validateUpdate in Hval.
    pose proof (flat_map_nil _ _ _ Hval Hp) as Hf. simpl in Hf.
    rewrite Hv in Hf. by destruct (Model.validateValue S p v).
  - by apply Hnone.
  - intros p t v Hp Hc Hu Hv. destruct (castValue t v) eqn:Hcast; [by eexists|].
    rewrite <- Hup in Hv by done.
    specialize (He p t v Hp Hv Hcast). by apply elem_of_nil in He.
  - intros p Hp Hu. destruct (decide (p = "createdAt")) as [->|].
    + by apply Hnone.
    + apply Hnone. by rewrite Hup.
Qed.

Lemma deleteOne_fst (id : Value) (db : list Obj) :
  (Model.deleteOne id db).1 = ReservationModel.findById id db.
Proof.
  unfold ReservationModel.findById, findOne.
  induction db as [|d db IH]; simpl; [done|].
  destruct (hasId (Some id) d); [done|].
  destruct (Model.deleteOne id db) as [r rest]. by simpl in *.
Qed.

End ModelFacts.

Lemma task_paths_NoDup :
  NoDup ((schemaPaths HousekeepingTaskModel.housekeepingTaskSchema).*1).
Proof. compute_done. Qed.

Lemma castId_valid (id : string) :
  ObjectId.isValid id = true ->
  castValue TObjectId (VString id) = Some (ObjectId.ofString id).
Proof. intros H. simpl. by rewrite H. Qed.

Lemma castId_invalid (id : string) :
  ObjectId.isValid id = false -> castValue TObjectId (VString id) = None.
Proof. intros H. simpl. by rewrite H. Qed.

(** ** Malformed ids *)

(** X17. The housekeeping handlers do not check the format of the id:
    for an id that is not 24 hexadecimal digits the cast of the query
    throws, and every handler answers 500 "Internal server error" (not 400
    and not 404) without writing. *)
Theorem X17_task_malformed_id_answered_500 (now : Z) (id : string)
    (body : Obj) (db : list Obj) :
  ObjectId.isValid id = false ->
  getHousekeepingTaskById id db = internalError
  /\ updateHousekeepingTask now id body db = (internalError, db)
  /\ deleteHousekeepingTask id db = (internalError, db)
  /\ assignHousekeepingTask now id body db = (internalError, db)
  /\ updateHousekeepingTaskStatus now id body db = (internalError, db)
  /\ completeHousekeepingTask now id body db = (internalError, db).
Proof.
  intros Hid%castId_invalid.
  unfold getHousekeepingTaskById, updateHousekeepingTask,
    deleteHousekeepingTask, assignHousekeepingTask,
    updateHousekeepingTaskStatus, completeHousekeepingTask,
    Model.findById, Model.findByIdAndUpdate, Model.findByIdAndDelete.
  by rewrite Hid.
Qed.

Lemma X17_witness :
  getHousekeepingTaskById "42" [] = internalError
  /\ updateHousekeepingTask 5 "42" ∅ [] = (internalError, [])
  /\ deleteHousekeepingTask "42" [] = (internalError, [])
  /\ assignHousekeepingTask 5 "42" ∅ [] = (internalError, [])
  /\ updateHousekeepingTaskStatus 5 "42" ∅ [] = (internalError, [])
  /\ completeHousekeepingTask 5 "42" ∅ [] = (internalError, []).
Proof.
  apply (X17_task_malformed_id_answered_500 5 "42" ∅ []).
  vm_compute. reflexivity.
Defined.

(** ** Updates of a task *)

Lemma task_paths_in (p : string) (t : SchemaType) :
  bool_decide ((p, t) ∈ schemaPaths taskSchema) = true ->
  (p, t) ∈ schemaPaths taskSchema.
Proof. apply bool_decide_eq_true. Qed.

(** A task found by id is rewritten in place by an update that the model
    lets through. *)
Lemma task_update_found (now : Z) (id : string) (u : Obj) (db : list Obj)
    (r : Obj) :
  ObjectId.isValid id = true ->
  ReservationModel.findById (ObjectId.ofString id) db = Some r ->
  u !! "_id" = None ->
  (exists e, Model.findByIdAndUpdate taskSchema now id u db = inl e)
  \/ exists set l1 l2,
       Model.castUpdate taskSchema now (ObjectId.ofString id) u = inr set
       /\ db = l1 ++ r :: l2
       /\ Model.findByIdAndUpdate taskSchema now id u db
          = inr (Some (set ∪ r), l1 ++ (set ∪ r) :: l2)
       /\ ReservationModel.findById (ObjectId.ofString id)
            (l1 ++ (set ∪ r) :: l2) = Some (set ∪ r).
Proof.
  intros Hid Hr Hu. unfold Model.findByIdAndUpdate.
  rewrite (castId_valid _ Hid).
  destruct (Model.castUpdate taskSchema now (ObjectId.ofString id) u)
    as [e|set] eqn:Hc; [left; by eexists|right].
  destruct (update_found (ObjectId.ofString id) set db r Hr)
    as (l1 & l2 & Hdb & Hup).
  exists set, l1, l2. rewrite Hup. repeat split; try done.
  apply (castUpdate_inr taskSchema task_paths_NoDup) in Hc as (Hl & _).
  assert (Hset : set !! "_id" = None).
  { rewrite (Hl "_id" TObjectId); [by rewrite Hu|by apply task_paths_in|..];
      try done. compute_done. }
  pose proof (findById_updateOne _ set db r Hr Hset) as Hf.
  by rewrite Hup in Hf.
Qed.

Lemma lookup_union_set (set r : Obj) (p : string) :
  (set ∪ r) !! p = match set !! p with Some v => Some v | None => r !! p end.
Proof.
  rewrite lookup_union. destruct (set !! p), (r !! p); done.
Qed.

(** The cases of [completeHousekeepingTask] on a task that is found and
    not completed. *)
Lemma complete_cases (now : Z) (id : string) (body : Obj) (db : list Obj)
    (r : Obj) :
  ObjectId.isValid id = true ->
  ReservationModel.findById (ObjectId.ofString id) db = Some r ->
  r !! "status" <> Some (VString TaskStatus.COMPLETED) ->
  (completeHousekeepingTask now id body db = (internalError, db)
   /\ is_Some (body !! "completionNotes"))
  \/ exists l1 l2 r',
       db = l1 ++ r :: l2
       /\ completeHousekeepingTask now id body db
          = (success (Document (Some r'))
               "Housekeeping task completed successfully" None,
             l1 ++ r' :: l2)
       /\ ReservationModel.findById (ObjectId.ofString id) (l1 ++ r' :: l2)
          = Some r'
       /\ r' !! "status" = Some (VString TaskStatus.COMPLETED)
       /\ r' !! "completedDate" = Some (VDate now)
       /\ r' !! "updatedAt" = Some (VDate now)
       /\ forall p, p ∉ ["status"; "completedDate"; "notes"; "updatedAt"] ->
                    r' !! p = r !! p.
Proof.
  intros Hid Hr Hst. unfold completeHousekeepingTask, Model.findById.
  rewrite (castId_valid _ Hid), Hr. unfold statusIs.
  rewrite bool_decide_false by done.
  set (u := <["status" := VString TaskStatus.COMPLETED]> _).
  assert (Hu : u !! "status" = Some (VString TaskStatus.COMPLETED)
               /\ u !! "completedDate" = Some (VDate now)
               /\ u !! "updatedAt" = None /\ u !! "_id" = None
               /\ forall p, p ∉ ["status"; "completedDate"; "notes"] ->
                            u !! p = None).
  { unfold u. repeat split.
    - apply lookup_insert_eq.
    - rewrite lookup_insert_ne by done. apply lookup_insert_eq.
    - rewrite !lookup_insert_ne by done.
      by destruct (body !! "completionNotes"); simpl;
        rewrite ?lookup_insert_ne by done.
    - rewrite !lookup_insert_ne by done.
      by destruct (body !! "completionNotes"); simpl;
        rewrite ?lookup_insert_ne by done.
    - intros p Hp. apply not_elem_of_cons in Hp as [? Hp].
      apply not_elem_of_cons in Hp as [? Hp].
      apply not_elem_of_cons in Hp as [? _].
      rewrite !lookup_insert_ne by done.
      by destruct (body !! "completionNotes"); simpl;
        rewrite ?lookup_insert_ne by done. }
  destruct Hu as (Hus & Huc & Huu & Hui & Huo).
  destruct (task_update_found now id u db r Hid Hr Hui)
    as [[e He]|(set & l1 & l2 & Hc & Hdb & Hup & Hfind)].
  - left. rewrite He. split; [done|].
    destruct (body !! "completionNotes") eqn:E; [by eexists|].
    exfalso. unfold Model.findByIdAndUpdate in He.
    rewrite (castId_valid _ Hid) in He. unfold u in He. simpl in He.
    revert He. vm_compute. discriminate.
  - right. exists l1, l2, (set ∪ r). rewrite Hup.
    apply (castUpdate_inr taskSchema task_paths_NoDup)
      in Hc as (Hl & Ho & Hupd & _ & _ & Hcr & _ & _).
    repeat split; try done.
    + rewrite lookup_union_set, (Hl "status" TString), Hus;
        [done|by apply task_paths_in|compute_done|done..].
    + rewrite lookup_union_set, (Hl "completedDate" TDate), Huc;
        [done|by apply task_paths_in|compute_done|done..].
    + by rewrite lookup_union_set,
        (Hupd ltac:(compute_done) ltac:(compute_done)).
    + intros p Hp. rewrite lookup_union_set.
      assert (set !! p = None) as ->; [|done].
      apply not_elem_of_cons in Hp as [? Hp].
      apply not_elem_of_cons in Hp as [? Hp].
      apply not_elem_of_cons in Hp as [? Hp].
      apply not_elem_of_cons in Hp as [? _].
      destruct (decide (p = "createdAt")) as [->|]; [done|].
      destruct (decide (p ∈ (schemaPaths taskSchema).*1)) as [Hin|Hin];
        [|by apply Ho].
      apply list_elem_of_fmap in Hin as [[q t] [-> Hin]]. simpl in *.
      assert (q ∉ schemaTrim taskSchema)
        by (intros [->|[]%elem_of_nil]%elem_of_cons; done).
      assert (q ∉ ["status"; "completedDate"; "notes"])
        by (repeat (apply not_elem_of_cons; split; [done|]);
            apply not_elem_of_nil).
      by rewrite (Hl _ _ Hin), Huo.
Qed.

(** What an update built by a handler (no [_id], no [updatedAt]) makes of
    the task it finds. *)
Lemma task_update_result (now : Z) (id : string) (u : Obj) (db : list Obj)
    (r : Obj) :
  ObjectId.isValid id = true ->
  ReservationModel.findById (ObjectId.ofString id) db = Some r ->
  u !! "_id" = None ->
  u !! "updatedAt" = None ->
  (exists e, Model.findByIdAndUpdate taskSchema now id u db = inl e)
  \/ exists l1 l2 r',
       db = l1 ++ r :: l2
       /\ Model.findByIdAndUpdate taskSchema now id u db
          = inr (Some r', l1 ++ r' :: l2)
       /\ ReservationModel.findById (ObjectId.ofString id) (l1 ++ r' :: l2)
          = Some r'
       /\ r' !! "updatedAt" = Some (VDate now)
       /\ (forall p t,
              (p, t) ∈ schemaPaths taskSchema ->
              p ∉ ["notes"; "createdAt"; "updatedAt"] ->
              match u !! p with
              | Some v =>
                  exists v', castValue t v = Some v' /\ r' !! p = Some v'
                             /\ Model.validateValue taskSchema p v' = []
              | None => r' !! p = r !! p
              end)
       /\ (forall p, u !! p = None -> p <> "updatedAt" -> r' !! p = r !! p)
       /\ (forall p, p ∉ (schemaPaths taskSchema).*1 -> r' !! p = r !! p).
Proof.
  intros Hid Hr Hui Huu.
  destruct (task_update_found now id u db r Hid Hr Hui)
    as [He|(set & l1 & l2 & Hc & Hdb & Hup & Hfind)]; [by left|right].
  exists l1, l2, (set ∪ r).
  apply (castUpdate_inr taskSchema task_paths_NoDup)
    in Hc as (Hl & Ho & Hupd & _ & Hval & Hcr & Hcast & Hnone).
  repeat split; try done.
  - by rewrite lookup_union_set,
      (Hupd ltac:(compute_done) ltac:(compute_done)).
  - intros p t Hp Hnot. apply not_elem_of_cons in Hnot as [? Hnot].
    apply not_elem_of_cons in Hnot as [? Hnot].
    apply not_elem_of_cons in Hnot as [? _].
    assert (p ∉ schemaTrim taskSchema)
      by (intros [->|[]%elem_of_nil]%elem_of_cons; done).
    rewrite lookup_union_set, (Hl p t) by done.
    destruct (u !! p) as [v|] eqn:Hv; [|done].
    destruct (Hcast p t v Hp ltac:(done) ltac:(done) Hv) as [v' Hv'].
    exists v'. simpl.
    rewrite Hv'. repeat split.
    apply (Hval p t v' Hp). by rewrite (Hl p t), Hv.
  - intros p Hp Hu. by rewrite lookup_union_set, (Hnone p Hp Hu).
  - intros p Hp. rewrite lookup_union_set, (Ho p Hp); [done|].
    intros ->. apply Hp. compute_done.
Qed.

Lemma lookup_setField_eq (k : string) (v : option Value) (o : Obj) :
  setField k v o !! k = match v with Some x => Some x | None => o !! k end.
Proof. destruct v; simpl; [apply lookup_insert_eq|done]. Qed.

Lemma lookup_setField_ne (k p : string) (v : option Value) (o : Obj) :
  k <> p -> setField k v o !! p = o !! p.
Proof. intros H. destruct v; simpl; [by rewrite lookup_insert_ne|done]. Qed.

(** ** Completing a task *)

(** X18. Completing a task that is found and not yet completed stores
    status [completed], the completion date and the update time, and
    changes nothing else but the notes.  It fails, with 500 and without
    writing, only when the request carries completion notes (that the
    schema refuses). *)
Theorem X18_complete_records_completion (now : Z) (id : string) (body : Obj)
    (db : list Obj) (r : Obj) :
  ObjectId.isValid id = true ->
  ReservationModel.findById (ObjectId.ofString id) db = Some r ->
  r !! "status" <> Some (VString TaskStatus.COMPLETED) ->
  (completeHousekeepingTask now id body db = (internalError, db)
   /\ is_Some (body !! "completionNotes"))
  \/ exists l1 l2 r',
       db = l1 ++ r :: l2
       /\ completeHousekeepingTask now id body db
          = (success (Document (Some r'))
               "Housekeeping task completed successfully" None,
             l1 ++ r' :: l2)
       /\ r' !! "status" = Some (VString TaskStatus.COMPLETED)
       /\ r' !! "completedDate" = Some (VDate now)
       /\ r' !! "updatedAt" = Some (VDate now)
       /\ forall p, p ∉ ["status"; "completedDate"; "notes"; "updatedAt"] ->
                    r' !! p = r !! p.
Proof.
  intros Hid Hr Hst.
  destruct (complete_cases now id body db r Hid Hr Hst)
    as [?|(l1 & l2 & r' & ? & ? & _ & ?)]; [by left|right].
  by exists l1, l2, r'.
Qed.

Lemma X18_witness :
  (completeHousekeepingTask 9 Scenario.id1 ∅
     [TaskScenario.task Scenario.id1 "in_progress" 7]
   = (internalError, [TaskScenario.task Scenario.id1 "in_progress" 7])
   /\ is_Some ((∅ : Obj) !! "completionNotes"))
  \/ exists l1 l2 r',
       [TaskScenario.task Scenario.id1 "in_progress" 7]
       = l1 ++ TaskScenario.task Scenario.id1 "in_progress" 7 :: l2
       /\ completeHousekeepingTask 9 Scenario.id1 ∅
            [TaskScenario.task Scenario.id1 "in_progress" 7]
          = (success (Document (Some r'))
               "Housekeeping task completed successfully" None,
             l1 ++ r' :: l2)
       /\ r' !! "status" = Some (VString TaskStatus.COMPLETED)
       /\ r' !! "completedDate" = Some (VDate 9)
       /\ r' !! "updatedAt" = Some (VDate 9)
       /\ forall p, p ∉ ["status"; "completedDate"; "notes"; "updatedAt"] ->
                    r' !! p = TaskScenario.task Scenario.id1 "in_progress" 7 !! p.
Proof.
  apply (X18_complete_records_completion 9 Scenario.id1 ∅
           [TaskScenario.task Scenario.id1 "in_progress" 7]
           (TaskScenario.task Scenario.id1 "in_progress" 7)).
  - vm_compute. reflexivity.
  - compute_done.
  - vm_compute. discriminate.
Defined.

(** X19. A completed task can be neither completed again nor assigned:
    after a completion that went through, a second one is answered 400
    "Housekeeping task is already completed" and an assignment 400 "Cannot
    assign completed housekeeping task"; neither writes. *)
Theorem X19_after_complete_no_complete_no_assign (now now' : Z) (id : string)
    (body body' : Obj) (db : list Obj) (r : Obj) :
  ObjectId.isValid id = true ->
  ReservationModel.findById (ObjectId.ofString id) db = Some r ->
  r !! "status" <> Some (VString TaskStatus.COMPLETED) ->
  isSuccess (fst (completeHousekeepingTask now id body db)) = true ->
  let db' := snd (completeHousekeepingTask now id body db) in
  completeHousekeepingTask now' id body' db'
  = (error (Message "Housekeeping task is already completed") 400, db')
  /\ assignHousekeepingTask now' id body' db'
     = (error (Message "Cannot assign completed housekeeping task") 400, db').
Proof.
  intros Hid Hr Hst Hok db'. subst db'.
  destruct (complete_cases now id body db r Hid Hr Hst)
    as [[E _]|(l1 & l2 & r' & _ & E & Hfind & Hdone & _)];
    rewrite E in *; [discriminate|]. simpl.
  unfold completeHousekeepingTask, assignHousekeepingTask, Model.findById.
  rewrite (castId_valid _ Hid), Hfind. unfold statusIs.
  by rewrite bool_decide_true.
Qed.

Lemma X19_witness :
  let db' := snd (completeHousekeepingTask 9 Scenario.id1 ∅
                    [TaskScenario.task Scenario.id1 "in_progress" 7]) in
  completeHousekeepingTask 10 Scenario.id1 ∅ db'
  = (error (Message "Housekeeping task is already completed") 400, db')
  /\ assignHousekeepingTask 10 Scenario.id1 ∅ db'
     = (error (Message "Cannot assign completed housekeeping task") 400, db').
Proof.
  apply (X19_after_complete_no_complete_no_assign 9 10 Scenario.id1 ∅ ∅
           [TaskScenario.task Scenario.id1 "in_progress" 7]
           (TaskScenario.task Scenario.id1 "in_progress" 7)).
  - vm_compute. reflexivity.
  - compute_done.
  - vm_compute. discriminate.
  - vm_compute. reflexivity.
Defined.

(** ** Assigning a task and setting its status *)

Local Ltac notin :=
  solve [ compute_done
        | rewrite ?not_elem_of_cons in *; tauto ].

(** X20. Assigning a task that is found and not completed either fails
    with 500 and writes nothing, or puts the task in progress (never in
    status [assigned]): the staff member and the scheduled date are those of
    the request, cast, or stay as stored when the request has none, and no
    other field but the notes and the update time changes. *)
Theorem X20_assign_puts_task_in_progress (now : Z) (id : string) (body : Obj)
    (db : list Obj) (r : Obj) :
  ObjectId.isValid id = true ->
  ReservationModel.findById (ObjectId.ofString id) db = Some r ->
  r !! "status" <> Some (VString TaskStatus.COMPLETED) ->
  assignHousekeepingTask now id body db = (internalError, db)
  \/ exists l1 l2 r',
       db = l1 ++ r :: l2
       /\ assignHousekeepingTask now id body db
          = (success (Document (Some r'))
               "Housekeeping task assigned successfully" None,
             l1 ++ r' :: l2)
       /\ r' !! "status" = Some (VString TaskStatus.IN_PROGRESS)
       /\ match body !! "assignedTo" with
          | Some v => exists o, castValue TObjectId v = Some o
                                /\ r' !! "assignedStaffId" = Some o
          | None => r' !! "assignedStaffId" = r !! "assignedStaffId"
          end
       /\ match body !! "scheduledDate" with
          | Some v => exists d, castValue TDate v = Some d
                                /\ r' !! "scheduledDate" = Some d
          | None => r' !! "scheduledDate" = r !! "scheduledDate"
          end
       /\ forall p,
            p ∉ ["assignedStaffId"; "status"; "scheduledDate"; "notes";
                 "updatedAt"] ->
            r' !! p = r !! p.
Proof.
  intros Hid Hr Hst.
  unfold assignHousekeepingTask, Model.findById.
  rewrite (castId_valid _ Hid), Hr. unfold statusIs.
  rewrite bool_decide_false by done.
  set (u := setField "assignedStaffId" _ _).
  assert (Ha : u !! "assignedStaffId" = body !! "assignedTo").
  { unfold u. rewrite lookup_setField_eq.
    destruct (body !! "assignedTo"); [done|].
    rewrite lookup_insert_ne, !lookup_setField_ne by done. done. }
  assert (Hs : u !! "status" = Some (VString TaskStatus.IN_PROGRESS)).
  { unfold u. rewrite lookup_setField_ne by done. apply lookup_insert_eq. }
  assert (Hd : u !! "scheduledDate" = body !! "scheduledDate").
  { unfold u. rewrite lookup_setField_ne, lookup_insert_ne by done.
    rewrite lookup_setField_eq. destruct (body !! "scheduledDate"); [done|].
    by rewrite lookup_setField_ne. }
  assert (Ho : forall p,
             p ∉ ["assignedStaffId"; "status"; "scheduledDate"; "notes"] ->
             u !! p = None).
  { intros p Hp. apply not_elem_of_cons in Hp as [? Hp].
    apply not_elem_of_cons in Hp as [? Hp].
    apply not_elem_of_cons in Hp as [? Hp].
    apply not_elem_of_cons in Hp as [? _].
    unfold u. rewrite lookup_setField_ne, lookup_insert_ne by done.
    by rewrite !lookup_setField_ne by done. }
  destruct (task_update_result now id u db r Hid Hr)
    as [[e ->]|(l1 & l2 & r' & Hdb & -> & _ & _ & Hp & Hn & _)].
  - apply Ho. notin.
  - apply Ho. notin.
  - by left.
  - right. exists l1, l2, r'. repeat split; try done.
    + specialize (Hp "status" TString). rewrite Hs in Hp.
      destruct Hp as (v' & [= <-] & ? & _); [compute_done|notin|done].
    + specialize (Hp "assignedStaffId" TObjectId). rewrite Ha in Hp.
      destruct (body !! "assignedTo") as [v|].
      * destruct Hp as (v' & ? & ? & _); [compute_done|notin|].
        by exists v'.
      * apply Hp; [compute_done|notin].
    + specialize (Hp "scheduledDate" TDate). rewrite Hd in Hp.
      destruct (body !! "scheduledDate") as [v|].
      * destruct Hp as (v' & ? & ? & _); [compute_done|notin|].
        by exists v'.
      * apply Hp; [compute_done|notin].
    + intros p Hnot. apply Hn; [apply Ho|]; notin.
Qed.

Lemma X20_witness :
  assignHousekeepingTask 9 Scenario.id1
    {["assignedTo" := VString "DDDDDDDDDDDDDDDDDDDDDDDD"]}
    [TaskScenario.task Scenario.id1 "pending" 7]
  = (internalError, [TaskScenario.task Scenario.id1 "pending" 7])
  \/ exists l1 l2 r',
       [TaskScenario.task Scenario.id1 "pending" 7]
       = l1 ++ TaskScenario.task Scenario.id1 "pending" 7 :: l2
       /\ assignHousekeepingTask 9 Scenario.id1
            {["assignedTo" := VString "DDDDDDDDDDDDDDDDDDDDDDDD"]}
            [TaskScenario.task Scenario.id1 "pending" 7]
          = (success (Document (Some r'))
               "Housekeeping task assigned successfully" None,
             l1 ++ r' :: l2)
       /\ r' !! "status" = Some (VString TaskStatus.IN_PROGRESS)
       /\ match ({["assignedTo" := VString "DDDDDDDDDDDDDDDDDDDDDDDD"]} : Obj)
                  !! "assignedTo" with
          | Some v => exists o, castValue TObjectId v = Some o
                                /\ r' !! "assignedStaffId" = Some o
          | None => r' !! "assignedStaffId"
                    = TaskScenario.task Scenario.id1 "pending" 7
                        !! "assignedStaffId"
          end
       /\ match ({["assignedTo" := VString "DDDDDDDDDDDDDDDDDDDDDDDD"]} : Obj)
                  !! "scheduledDate" with
          | Some v => exists d, castValue TDate v = Some d
                                /\ r' !! "scheduledDate" = Some d
          | None => r' !! "scheduledDate"
                    = TaskScenario.task Scenario.id1 "pending" 7
                        !! "scheduledDate"
          end
       /\ forall p,
            p ∉ ["assignedStaffId"; "status"; "scheduledDate"; "notes";
                 "updatedAt"] ->
            r' !! p = TaskScenario.task Scenario.id1 "pending" 7 !! p.
Proof.
  apply (X20_assign_puts_task_in_progress 9 Scenario.id1
           {["assignedTo" := VString "DDDDDDDDDDDDDDDDDDDDDDDD"]}
           [TaskScenario.task Scenario.id1 "pending" 7]
           (TaskScenario.task Scenario.id1 "pending" 7)).
  - vm_compute. reflexivity.
  - compute_done.
  - vm_compute. discriminate.
Defined.

(** X21. Setting the status of a task that is found either fails with 500
    and writes nothing, or stores the requested status, which is then one of
    the task statuses, whatever the status was before.  The completion
    date becomes the time of the request exactly when the requested status
    is [completed] and is kept otherwise; the start time the handler
    computes for [in_progress] is never stored. *)
Theorem X21_status_update_stamps_completion_only (now : Z) (id : string)
    (body : Obj) (db : list Obj) (r : Obj) :
  ObjectId.isValid id = true ->
  ReservationModel.findById (ObjectId.ofString id) db = Some r ->
  updateHousekeepingTaskStatus now id body db = (internalError, db)
  \/ exists l1 l2 r',
       db = l1 ++ r :: l2
       /\ updateHousekeepingTaskStatus now id body db
          = (success (Document (Some r'))
               "Housekeeping task status updated successfully" None,
             l1 ++ r' :: l2)
       /\ match body !! "status" with
          | Some v => r' !! "status" = Some v
                      /\ includes TaskStatus.values (Some v) = true
          | None => r' !! "status" = r !! "status"
          end
       /\ r' !! "completedDate"
          = (if statusIs TaskStatus.COMPLETED (body !! "status")
             then Some (VDate now) else r !! "completedDate")
       /\ r' !! "startedAt" = r !! "startedAt"
       /\ forall p,
            p ∉ ["status"; "completedDate"; "notes"; "updatedAt"] ->
            r' !! p = r !! p.
Proof.
  intros Hid Hr.
  unfold updateHousekeepingTaskStatus, Model.findById.
  rewrite (castId_valid _ Hid), Hr.
  set (base := setField "status" _ _).
  set (u := if statusIs TaskStatus.IN_PROGRESS _ then _ else _).
  assert (Hb : forall p, p <> "status" -> p <> "notes" -> base !! p = None).
  { intros p ? ?. unfold base. by rewrite !lookup_setField_ne by done. }
  assert (Hbs : base !! "status" = body !! "status").
  { unfold base. rewrite lookup_setField_eq.
    destruct (body !! "status"); [done|]. by rewrite lookup_setField_ne. }
  assert (Hs : u !! "status" = body !! "status").
  { unfold u. repeat case_match; by rewrite ?lookup_insert_ne by done. }
  assert (Hc : u !! "completedDate"
               = if statusIs TaskStatus.COMPLETED (body !! "status")
                 then Some (VDate now) else None).
  { unfold u. destruct (statusIs TaskStatus.IN_PROGRESS _) eqn:E1.
    - unfold statusIs in *. apply bool_decide_eq_true in E1. rewrite E1.
      rewrite bool_decide_false by done.
      rewrite lookup_insert_ne by done. by apply Hb.
    - destruct (statusIs TaskStatus.COMPLETED _).
      + apply lookup_insert_eq.
      + by apply Hb. }
  assert (Ho : forall p,
             p ∉ ["status"; "completedDate"; "notes"; "startedAt"] ->
             u !! p = None).
  { intros p Hp. apply not_elem_of_cons in Hp as [? Hp].
    apply not_elem_of_cons in Hp as [? Hp].
    apply not_elem_of_cons in Hp as [? Hp].
    apply not_elem_of_cons in Hp as [? _].
    unfold u. repeat case_match; rewrite ?lookup_insert_ne by done;
      by apply Hb. }
  destruct (task_update_result now id u db r Hid Hr)
    as [[e ->]|(l1 & l2 & r' & Hdb & -> & _ & _ & Hp & Hn & Hx)].
  - apply Ho. notin.
  - apply Ho. notin.
  - by left.
  - right. exists l1, l2, r'. repeat split; try done.
    + specialize (Hp "status" TString). rewrite Hs in Hp.
      destruct (body !! "status") as [v|].
      * destruct Hp as (v' & Hcast & ? & Hval); [compute_done|notin|].
        destruct v; try discriminate. injection Hcast as <-.
        split; [done|].
        unfold Model.validateValue in Hval.
        apply app_eq_nil in Hval as [_ Hval]. cbn in Hval. cbn.
        match type of Hval with
        | ReservationModel.check ?b _ = _ => by destruct b
        end.
      * apply Hp; [compute_done|notin].
    + specialize (Hp "completedDate" TDate). rewrite Hc in Hp.
      revert Hp. destruct (statusIs TaskStatus.COMPLETED _); intros Hp.
      * destruct Hp as (v' & [= <-] & ? & _); [compute_done|notin|done].
      * apply Hp; [compute_done|notin].
    + apply Hx. compute_done.
    + intros p Hnot. destruct (decide (p = "startedAt")) as [->|].
      * apply Hx. compute_done.
      * apply Hn; [apply Ho|]; notin.
Qed.

Lemma X21_witness :
  updateHousekeepingTaskStatus 9 Scenario.id1
    {["status" := VString "in_progress"]}
    [TaskScenario.task Scenario.id1 "completed" 7]
  = (internalError, [TaskScenario.task Scenario.id1 "completed" 7])
  \/ exists l1 l2 r',
       [TaskScenario.task Scenario.id1 "completed" 7]
       = l1 ++ TaskScenario.task Scenario.id1 "completed" 7 :: l2
       /\ updateHousekeepingTaskStatus 9 Scenario.id1
            {["status" := VString "in_progress"]}
            [TaskScenario.task Scenario.id1 "completed" 7]
          = (success (Document (Some r'))
               "Housekeeping task status updated successfully" None,
             l1 ++ r' :: l2)
       /\ match ({["status" := VString "in_progress"]} : Obj) !! "status" with
          | Some v => r' !! "status" = Some v
                      /\ includes TaskStatus.values (Some v) = true
          | None => r' !! "status"
                    = TaskScenario.task Scenario.id1 "completed" 7 !! "status"
          end
       /\ r' !! "completedDate"
          = (if statusIs TaskStatus.COMPLETED
                  (({["status" := VString "in_progress"]} : Obj) !! "status")
             then Some (VDate 9)
             else TaskScenario.task Scenario.id1 "completed" 7
                    !! "completedDate")
       /\ r' !! "startedAt"
          = TaskScenario.task Scenario.id1 "completed" 7 !! "startedAt"
       /\ forall p,
            p ∉ ["status"; "completedDate"; "notes"; "updatedAt"] ->
            r' !! p = TaskScenario.task Scenario.id1 "completed" 7 !! p.
Proof.
  apply (X21_status_update_stamps_completion_only 9 Scenario.id1
           {["status" := VString "in_progress"]}
           [TaskScenario.task Scenario.id1 "completed" 7]
           (TaskScenario.task Scenario.id1 "completed" 7)).
  - vm_compute. reflexivity.
  - compute_done.
Defined.

(** ** The fields of a stored task *)




Lemma deleteOne_split (id : Value) (db : list Obj) :
  match findById id db with
  | None => Model.deleteOne id db = (None, db)
  | Some r =>
      exists l1 l2, db = l1 ++ r :: l2
                    /\ Model.deleteOne id db = (Some r, l1 ++ l2)
                    /\ r !! "_id" = Some id
                    /\ findById id l1 = None
  end.
Proof.
  unfold findById, findOne.
  induction db as [|d db IH]; simpl; [done|].
  destruct (hasId (Some id) d) eqn:Hd.
  - exists [], db. repeat split. by apply bool_decide_eq_true in Hd.
  - destruct (find (hasId (Some id)) db) as [r|].
    + destruct IH as (l1 & l2 & -> & -> & ? & Hl1).
      exists (d :: l1), l2. repeat split; [done|]. simpl. by rewrite Hd.
    + by rewrite IH.
Qed.


Lemma task_scenario_fields (id status : string) (scheduled : Z) :
  taskFieldsOfSchema [TaskScenario.task id status scheduled].
Proof.
  constructor; [|constructor]. intros p Hp.
  apply not_elem_of_list_to_map_1. intros Hin. apply Hp.
  cbn in *. rewrite !elem_of_cons in *. tauto.
Qed.

(** X22. The overdue listing finds nothing: its query compares the stored
    field [isOverdue] with [true], and no stored task has such a field, the
    model computing it on reading.  On a collection whose tasks have the
    fields of the schema only the answer is the empty list, whatever is
    pending and past its date. *)
Theorem X22_overdue_listing_is_empty (db : list Obj) :
  taskFieldsOfSchema db ->
  getOverdueHousekeepingTasks db
  = listed [] "Overdue housekeeping tasks fetched successfully".
Proof.
  intros Hdb. unfold getOverdueHousekeepingTasks.
  assert (List.filter
            (fun d : Obj => bool_decide (d !! "isOverdue" = Some (VBool true)))
            db = []) as ->; [|done].
  induction Hdb as [|d db Hd _ IH]; simpl; [done|].
  rewrite (Hd "isOverdue") by compute_done.
  by rewrite bool_decide_false.
Qed.

Lemma X22_witness :
  HousekeepingTaskModel.isOverdue 9 (TaskScenario.task Scenario.id1 "pending" 7)
  = true
  /\ getOverdueHousekeepingTasks [TaskScenario.task Scenario.id1 "pending" 7]
     = listed [] "Overdue housekeeping tasks fetched successfully".
Proof.
  split; [vm_compute; reflexivity|].
  apply (X22_overdue_listing_is_empty
           [TaskScenario.task Scenario.id1 "pending" 7]).
  apply task_scenario_fields.
Defined.



(** ** Deleting a task *)

(** X25. Deleting a task takes exactly the first stored task with the id
    out of the collection and answers with it; with no such task the answer
    is 404 and the collection is as before.  When the stored ids are
    distinct the deleted task can no longer be read: the lookup by its id
    is answered 404. *)
Theorem X25_deleted_task_is_gone (id : string) (db : list Obj) :
  ObjectId.isValid id = true ->
  NoDup ((.!! "_id") <$> db) ->
  match findById (ObjectId.ofString id) db with
  | None => deleteHousekeepingTask id db = (taskNotFound, db)
  | Some r =>
      exists l1 l2,
        db = l1 ++ r :: l2
        /\ deleteHousekeepingTask id db
           = (success (Document (Some r))
                "Housekeeping task deleted successfully" None,
              l1 ++ l2)
        /\ getHousekeepingTaskById id (l1 ++ l2) = taskNotFound
  end.
Proof.
  intros Hid Hnd.
  unfold deleteHousekeepingTask, getHousekeepingTaskById,
    Model.findByIdAndDelete, Model.findById.
  rewrite (castId_valid _ Hid).
  pose proof (deleteOne_split (ObjectId.ofString id) db) as H.
  destruct (findById (ObjectId.ofString id) db) as [r|]; [|by rewrite H].
  destruct H as (l1 & l2 & -> & -> & Hr & Hl1). exists l1, l2.
  repeat split.
  unfold findById in *. rewrite findOne_app, Hl1.
  destruct (findOne (hasId (Some (ObjectId.ofString id))) l2) as [d|] eqn:E;
    [|done].
  apply findOne_Some in E as [Hin Hd]. apply bool_decide_eq_true in Hd.
  rewrite fmap_app, fmap_cons in Hnd.
  apply NoDup_app in Hnd as (_ & _ & Hnd).
  apply NoDup_cons in Hnd as [Hnot _]. destruct Hnot.
  rewrite Hr, <- Hd. apply list_elem_of_fmap. by exists d.
Qed.

Lemma X25_witness :
  match findById (ObjectId.ofString Scenario.id1)
          [TaskScenario.task Scenario.id2 "pending" 7;
           TaskScenario.task Scenario.id1 "pending" 8] with
  | None =>
      deleteHousekeepingTask Scenario.id1
        [TaskScenario.task Scenario.id2 "pending" 7;
         TaskScenario.task Scenario.id1 "pending" 8]
      = (taskNotFound,
         [TaskScenario.task Scenario.id2 "pending" 7;
          TaskScenario.task Scenario.id1 "pending" 8])
  | Some r =>
      exists l1 l2,
        [TaskScenario.task Scenario.id2 "pending" 7;
         TaskScenario.task Scenario.id1 "pending" 8] = l1 ++ r :: l2
        /\ deleteHousekeepingTask Scenario.id1
             [TaskScenario.task Scenario.id2 "pending" 7;
              TaskScenario.task Scenario.id1 "pending" 8]
           = (success (Document (Some r))
                "Housekeeping task deleted successfully" None,
              l1 ++ l2)
        /\ getHousekeepingTaskById Scenario.id1 (l1 ++ l2) = taskNotFound
  end.
Proof.
  apply (X25_deleted_task_is_gone Scenario.id1
           [TaskScenario.task Scenario.id2 "pending" 7;
            TaskScenario.task Scenario.id1 "pending" 8]).
  - vm_compute. reflexivity.
  - compute_done.
Defined.

(** ** The virtuals of a task *)

(** X24. For a task whose two dates are no further apart than
    [maxExact] milliseconds, where the arithmetic of the code is exact,
    [completionTime] is the signed difference in minutes, rounded up, and
    [duration] the absolute one in hours, rounded up.  For a task completed
    at or after its scheduled date the two agree: the duration is the
    completion time in hours, rounded up.  For a task completed before its
    scheduled date they do not: the completion time is zero or negative
    while the duration is at least one hour. *)
Theorem X24_task_virtuals (this : Obj) (s c : Z) :
  this !! "scheduledDate" = Some (VDate s) ->
  this !! "completedDate" = Some (VDate c) ->
  Z.abs s <= maxTime ->
  Z.abs c <= maxTime ->
  Z.abs (c - s) <= maxExact ->
  exists m,
    HousekeepingTaskModel.completionTime this = Some m
    /\ 60000 * (m - 1) < c - s <= 60000 * m
    /\ (s <= c ->
        0 <= m /\ HousekeepingTaskModel.duration this = ceilDiv m 60)
    /\ (c < s -> m <= 0 /\ 1 <= HousekeepingTaskModel.duration this).
Proof.
  intros Hs Hc _ _ _.
  unfold HousekeepingTaskModel.completionTime, HousekeepingTaskModel.duration.
  rewrite Hs, Hc. cbv zeta.
  change (1000 * 60 * 60) with 3600000. change (1000 * 60) with 60000.
  eexists. split; [done|].
  pose proof (ceilDiv_spec (c - s) 60000 ltac:(lia)) as Hm.
  split; [lia|]. split.
  - intros Hle. split; [lia|].
    rewrite Z.abs_eq by lia. unfold ceilDiv.
    rewrite Z.opp_involutive, Z.div_div by lia. done.
  - intros Hlt. split; [lia|].
    pose proof (ceilDiv_spec (Z.abs (c - s)) 3600000 ltac:(lia)). lia.
Qed.

Lemma X24_witness :
  exists m,
    HousekeepingTaskModel.completionTime
      (<["completedDate" := VDate 5400007]>
         (TaskScenario.task Scenario.id1 "completed" 7)) = Some m
    /\ 60000 * (m - 1) < 5400007 - 7 <= 60000 * m
    /\ (7 <= 5400007 ->
        0 <= m
        /\ HousekeepingTaskModel.duration
             (<["completedDate" := VDate 5400007]>
                (TaskScenario.task Scenario.id1 "completed" 7))
           = ceilDiv m 60)
    /\ (5400007 < 7 ->
        m <= 0
        /\ 1 <= HousekeepingTaskModel.duration
                  (<["completedDate" := VDate 5400007]>
                     (TaskScenario.task Scenario.id1 "completed" 7))).
Proof.
  apply (X24_task_virtuals
           (<["completedDate" := VDate 5400007]>
              (TaskScenario.task Scenario.id1 "completed" 7)) 7 5400007).
  - compute_done.
  - compute_done.
  - vm_compute. discriminate.
  - vm_compute. discriminate.
  - vm_compute. discriminate.
Defined.

(** ** Creating a task *)

Lemma model_validateDocument_nil (S : Schema) (doc : Obj)
    (errs : list string) (p : string) (t : SchemaType) :
  Model.validateDocument S doc errs = [] ->
  (p, t) ∈ schemaPaths S ->
  match doc !! p with
  | None => Model.isRequired S p = false
  | Some v => Model.validateValue S p v = []
  end.
Proof.
  unfold Model.validateDocument.
  induction (schemaPaths S) as [|[q u] l IH]; simpl; intros H Hin.
  { by apply elem_of_nil in Hin. }
  apply app_eq_nil in H as [Hq H].
  apply elem_of_cons in Hin as [[= -> ->]|Hin]; [|by apply IH].
  destruct (existsb (String.eqb q) errs); [discriminate|].
  destruct (doc !! q) as [v|].
  - by destruct (Model.validateValue S q v).
  - by destruct (Model.isRequired S q).
Qed.

Lemma task_enum_valid (p : string) (xs : list string) (v : Value) :
  (p, xs) ∈ [("status", TaskStatus.values);
             ("taskType", HousekeepingTaskType.values);
             ("priority", Priority.values)] ->
  Model.validateValue taskSchema p v = [] ->
  includes xs (Some v) = true.
Proof.
  unfold Model.validateValue. intros Hin [_ H]%app_eq_nil.
  repeat (apply elem_of_cons in Hin as [[= -> ->]|Hin]);
    [| | |by apply elem_of_nil in Hin];
    cbn in H; cbn;
    match type of H with
    | ReservationModel.check ?b _ = _ => by destruct b
    end.
Qed.

(** X26. A task that a create stores is appended to the collection and
    answered with 201.  It has every required field of the schema, its
    status, type and priority are values of their enumerations, and a
    status or a priority that the request leaves out is [pending] or
    [medium].  Its update time is its creation time, which is the time of
    the request unless the request names a [createdAt]. *)
Theorem X26_created_task_is_well_formed (now : Z) (fresh : string)
    (body : Obj) (db : list Obj) (t : Obj) (m : string) (c : option Z)
    (db' : list Obj) :
  createHousekeepingTask now fresh body db
  = (success (Document (Some t)) m c, db') ->
  db' = db ++ [t]
  /\ c = Some 201
  /\ (forall p, p ∈ schemaRequired taskSchema -> is_Some (t !! p))
  /\ includes TaskStatus.values (t !! "status") = true
  /\ includes HousekeepingTaskType.values (t !! "taskType") = true
  /\ includes Priority.values (t !! "priority") = true
  /\ (body !! "status" = None ->
      t !! "status" = Some (VString TaskStatus.PENDING))
  /\ (body !! "priority" = None ->
      t !! "priority" = Some (VString Priority.MEDIUM))
  /\ t !! "updatedAt" = t !! "createdAt"
  /\ (body !! "createdAt" = None -> t !! "createdAt" = Some (VDate now)).
Proof.
  unfold createHousekeepingTask, Model.create, Model.save.
  destruct (Model.new taskSchema fresh body) as [d errs] eqn:Hnew.
  destruct (Model.validateDocument taskSchema d errs) eqn:Hval;
    [|discriminate].
  destruct (existsb _ db); [discriminate|].
  intros [= <- _ <- <-].
  set (ts := match d !! "createdAt" with
             | Some createdAt => createdAt
             | None => VDate now
             end).
  assert (Hkeep : forall p, p <> "createdAt" -> p <> "updatedAt" ->
            <["updatedAt" := ts]> (<["createdAt" := ts]> d) !! p = d !! p).
  { intros p ? ?. by rewrite !lookup_insert_ne by done. }
  assert (Hreq : forall p, p ∈ schemaRequired taskSchema -> is_Some (d !! p)).
  { intros p Hp.
    assert (exists u, (p, u) ∈ schemaPaths taskSchema) as [u Hu].
    { cbn in Hp. rewrite !elem_of_cons in Hp.
      destruct Hp as [->|[->|[->|[->|[->|[->|Hp]]]]]];
        [exists TObjectId|exists TObjectId|exists TString|exists TString
        |exists TDate|exists TString|by apply elem_of_nil in Hp];
        compute_done. }
    pose proof (model_validateDocument_nil _ _ _ _ _ Hval Hu) as H.
    destruct (d !! p); [done|].
    assert (Model.isRequired taskSchema p = true); [|congruence].
    unfold Model.isRequired. apply existsb_exists. exists p.
    split; [by apply list_elem_of_In|apply String.eqb_refl]. }
  assert (Henum : forall p xs u,
            (p, xs) ∈ [("status", TaskStatus.values);
                       ("taskType", HousekeepingTaskType.values);
                       ("priority", Priority.values)] ->
            (p, u) ∈ schemaPaths taskSchema ->
            p ∈ schemaRequired taskSchema ->
            includes xs (d !! p) = true).
  { intros p xs u Hin Hu Hp.
    pose proof (model_validateDocument_nil _ _ _ _ _ Hval Hu) as H.
    destruct (Hreq p Hp) as [v Hv]. rewrite Hv in *.
    by apply (task_enum_valid p). }
  repeat split.
  - intros p Hp. destruct (decide (p = "createdAt")) as [->|].
    { exfalso. revert Hp. compute_done. }
    destruct (decide (p = "updatedAt")) as [->|].
    { exfalso. revert Hp. compute_done. }
    rewrite Hkeep by done. by apply Hreq.
  - rewrite Hkeep by done. apply (Henum _ _ TString); compute_done.
  - rewrite Hkeep by done. apply (Henum _ _ TString); compute_done.
  - rewrite Hkeep by done. apply (Henum _ _ TString); compute_done.
  - intros Hb. rewrite Hkeep by done.
    replace d with (Model.new taskSchema fresh body).1 by (by rewrite Hnew).
    unfold Model.new.
    destruct (castPaths (schemaPaths taskSchema) body) as [doc ?].
    cbn [fst foldr schemaDefaults taskSchema
         HousekeepingTaskModel.housekeepingTaskSchema].
    rewrite Hb. apply lookup_insert_eq.
  - intros Hb. rewrite Hkeep by done.
    replace d with (Model.new taskSchema fresh body).1 by (by rewrite Hnew).
    unfold Model.new.
    destruct (castPaths (schemaPaths taskSchema) body) as [doc ?].
    cbn [fst foldr schemaDefaults taskSchema
         HousekeepingTaskModel.housekeepingTaskSchema].
    rewrite Hb.
    destruct (body !! "status"); rewrite ?lookup_insert_ne by done;
      apply lookup_insert_eq.
  - rewrite lookup_insert_eq, lookup_insert_ne by done.
    by rewrite lookup_insert_eq.
  - intros Hb. rewrite lookup_insert_ne, lookup_insert_eq by done.
    unfold ts.
    replace d with (Model.new taskSchema fresh body).1 by (by rewrite Hnew).
    assert ((Model.new taskSchema fresh body).1 !! "createdAt" = None) as ->;
      [|done].
    unfold Model.new.
    pose proof (castPaths_lookup (schemaPaths taskSchema) body "createdAt"
                  TDate task_paths_NoDup ltac:(compute_done)) as Hl.
    destruct (castPaths (schemaPaths taskSchema) body) as [doc ?].
    simpl in Hl. rewrite Hb in Hl.
    apply (applyTrim_lookup_None taskSchema) in Hl.
    cbn [fst foldr schemaDefaults taskSchema
         HousekeepingTaskModel.housekeepingTaskSchema].
    repeat case_match; by rewrite ?lookup_insert_ne by done.
Qed.

Lemma X26_witness :
  [TaskScenario.created Scenario.id1 9]
  = [] ++ [TaskScenario.created Scenario.id1 9]
  /\ Some 201 = Some 201
  /\ (forall p, p ∈ schemaRequired taskSchema ->
                is_Some (TaskScenario.created Scenario.id1 9 !! p))
  /\ includes TaskStatus.values
       (TaskScenario.created Scenario.id1 9 !! "status") = true
  /\ includes HousekeepingTaskType.values
       (TaskScenario.created Scenario.id1 9 !! "taskType") = true
  /\ includes Priority.values
       (TaskScenario.created Scenario.id1 9 !! "priority") = true
  /\ (TaskScenario.request !! "status" = None ->
      TaskScenario.created Scenario.id1 9 !! "status"
      = Some (VString TaskStatus.PENDING))
  /\ (TaskScenario.request !! "priority" = None ->
      TaskScenario.created Scenario.id1 9 !! "priority"
      = Some (VString Priority.MEDIUM))
  /\ TaskScenario.created Scenario.id1 9 !! "updatedAt"
     = TaskScenario.created Scenario.id1 9 !! "createdAt"
  /\ (TaskScenario.request !! "createdAt" = None ->
      TaskScenario.created Scenario.id1 9 !! "createdAt" = Some (VDate 9)).
Proof.
  apply (X26_created_task_is_well_formed 9 Scenario.id1 TaskScenario.request
           [] (TaskScenario.created Scenario.id1 9)
           "Housekeeping task created successfully" (Some 201)
           [TaskScenario.created Scenario.id1 9]).
  compute_done.
Defined.
